(** * OneWise backend: session membership, code runner and socket gateway

    A shallow embedding of [src/services/session.ts], [src/services/codeRunner.ts],
    [src/routes/sessions.ts] with the authentication middleware, and the
    socket handlers, the socket middleware and the CORS policy of the server
    entry point, followed by the properties of the specification that were
    checked against them and by further properties of the code.

    Effects are explicit.  Every function of the source that awaits the
    store, the file system or a child process is a computation of the monad
    [M]: it takes the [World] it runs in and gives back either a returned
    value or a thrown JavaScript exception, together with the world it
    leaves behind.  What the environment answers to each call (a store
    failure, a toolchain exit, a generated identifier) is read off scripts
    carried by the world, so that every path of the source can be reached by
    choosing a world. *)

From Stdlib Require Import NArith Ascii String.
From stdpp Require Import base strings gmap list sorting.

Local Open Scope string_scope.
Local Open Scope list_scope.
Local Open Scope N_scope.
Local Open Scope stdpp_scope.

(** ** JavaScript values used by the source *)

Module Js.

(** [x ? .. : ..] on a string: only the empty string is falsy. *)
Definition truthy (s : string) : bool :=
  match s with
  | EmptyString => false
  | String _ _ => true
  end.

(** [a || b] on strings. *)
Definition or_else (a b : string) : string := if truthy a then a else b.

(** [a ?? b]. *)
Definition nullish {A} (a : option A) (b : A) : A :=
  match a with
  | Some v => v
  | None => b
  end.

Definition lower_ascii (c : ascii) : ascii :=
  let n := N_of_ascii c in
  if (65 <=? n) && (n <=? 90) then ascii_of_N (n + 32) else c.

(** [String.prototype.toLowerCase] on the bytes of the string.  Only the
    letters A-Z are mapped: the result is compared with ASCII case labels
    only, and no character outside A-Z lower-cases to a letter that occurs
    in one of them. *)
Fixpoint toLowerCase (s : string) : string :=
  match s with
  | EmptyString => EmptyString
  | String c r => String (lower_ascii c) (toLowerCase r)
  end.

(** White space recognised by [trim] and by [\s], restricted to ASCII:
    TAB, LF, VT, FF, CR and SPACE. *)
Definition is_space (c : ascii) : bool :=
  let n := N_of_ascii c in
  ((9 <=? n) && (n <=? 13)) || (n =? 32).

Fixpoint trimStart (s : string) : string :=
  match s with
  | EmptyString => EmptyString
  | String c r => if is_space c then trimStart r else s
  end.

Fixpoint trimEnd (s : string) : string :=
  match s with
  | EmptyString => EmptyString
  | String c r =>
      match trimEnd r with
      | EmptyString => if is_space c then EmptyString else String c EmptyString
      | r' => String c r'
      end
  end.

Definition trim (s : string) : string := trimEnd (trimStart s).

(** The double quote, for template literals that contain one. *)
Definition dquote : string := String (ascii_of_N 34) EmptyString.

(** [Array.from(new Set(l))]: duplicates are dropped, the first occurrence
    of each element keeps its place. *)
Fixpoint uniq_from (seen l : list string) : list string :=
  match l with
  | [] => []
  | x :: r =>
      if decide (x ∈ seen) then uniq_from seen r
      else x :: uniq_from (x :: seen) r
  end.

Definition uniq (l : list string) : list string := uniq_from [] l.

End Js.

(** ** Errors *)

(** [PostgrestError], the failure a store call hands back in [error]. *)
Record PostgrestError := {
  pg_message : string;
  pg_details : string;
  pg_hint : string;
  pg_code : string
}.

Definition formatPostgrestError (error : option PostgrestError) : option PostgrestError :=
  match error with
  | None => None
  | Some e =>
      Some {| pg_message := pg_message e; pg_details := pg_details e;
              pg_hint := pg_hint e; pg_code := pg_code e |}
  end.

(** [HttpError(status, message, details)] of [utils/httpError]. *)
Record HttpError := {
  status_code : N;
  http_message : string;
  http_details : option PostgrestError
}.

(** What a [throw] or a rejected promise carries: an [HttpError] raised by
    the services, or the [Error] of Node's [fs] and [child_process], which
    has a message and, for a failed child, the captured streams. *)
Inductive Exn :=
| Http (e : HttpError)
| NodeError (message : string) (stdout stderr : option string).

Definition exn_message (e : Exn) : string :=
  match e with
  | Http h => http_message h
  | NodeError m _ _ => m
  end.

Definition http (status : N) (message : string) (details : option PostgrestError) : Exn :=
  Http {| status_code := status; http_message := message; http_details := details |}.

(** The numeric classification of a failure, when it has one. *)
Definition classification (e : Exn) : option N :=
  match e with
  | Http h => Some (status_code h)
  | NodeError _ _ _ => None
  end.

(** ** The relational store *)

Inductive Status := scheduled | live | completed | cancelled.

Inductive Role := mentor | student.

(** A [timestamptz] value.  The store never hands back an empty string for
    one, so a non-null timestamp is always truthy in the source. *)
Definition Timestamp := N.

Definition JsonRecord := gmap string string.

(** A row of [mentorship_sessions], without its primary key [id] (the key of
    the table below) and without [created_at], which the source only
    projects. *)
Record SessionRow := {
  title : string;
  status : Status;
  scheduled_at : option string;
  duration_minutes : option N;
  created_by : string;
  summary : option string;
  invite_code : string;
  allow_collab : bool;
  allow_chat : bool;
  allow_video : bool;
  metadata : JsonRecord
}.

(** A row of [session_participants], without [session_id] and [user_id]
    (the key of the table below) and without the surrogate [id] and
    [joined_at], which the source only projects. *)
Record ParticipantRow := {
  role : Role;
  kicked_at : option Timestamp;
  can_edit : bool;
  can_share_screen : bool
}.

Record MessageRow := {
  message_session_id : string;
  message_author_id : string;
  content : string
}.

Record SnapshotRow := {
  snapshot_session_id : string;
  snapshot_author_id : string;
  snapshot_language : string;
  snapshot_code : string
}.

(** Modelled from the spec: the schema of the store is not part of the
    sources.  Sessions are keyed by their id; participants are keyed by
    (session id, user id), "at most one row per (session, user) pair";
    messages and snapshots are append-only. *)
Record Tables := {
  mentorship_sessions : gmap string SessionRow;
  session_participants : gmap (string * string) ParticipantRow;
  session_messages : list MessageRow;
  session_code_snapshots : list SnapshotRow
}.

(** Modelled from the spec: the column defaults the store applies to what an
    insert leaves out; they are not part of the sources and are kept as
    parameters of the store. *)
Record Schema := {
  default_status : Status;
  default_can_edit : bool;
  default_can_share_screen : bool
}.

(** What the store generates for a new session. *)
Record Generated := {
  gen_id : string;
  gen_invite_code : string
}.

(** The store as the services see it: the tables, and what it will answer
    to the calls to come.  [store_script] has one entry per call, [Some e]
    when the call is to fail with [e] and [None] when it is served; calls
    beyond the script are served.  [store_fresh] is the supply of generated
    identifiers. *)
Record Store := {
  tables : Tables;
  schema : Schema;
  store_script : list (option PostgrestError);
  store_fresh : list Generated
}.

(** ** The host: clock, temporary directory and child processes *)

(** What a child process does when it is spawned: how it exits, what it
    wrote, the message of the rejection if it fails, and how long it ran. *)
Record ExecAnswer := {
  exit_ok : bool;
  child_stdout : string;
  child_stderr : string;
  child_failure : string;
  child_ms : N
}.

(** [fs_script] has one entry per call to [fs]: [Some m] when the call is
    to reject with message [m].  [tmp_suffixes] are the random suffixes
    [mkdtemp] will draw, [exec_script] the behaviour of the children to
    come; [spawned] records the command line of every child started and
    [console_error] what was logged. *)
Record Host := {
  clock : N;
  tmpdirs : gset string;
  files : gmap string string;
  fs_script : list (option string);
  tmp_suffixes : list string;
  exec_script : list ExecAnswer;
  spawned : list string;
  console_error : list string
}.

(** ** The socket layer *)

Record User := {
  uid : string;
  email : option string;
  metadata_name : option string
}.

Record Author := {
  author_id : string;
  author_name : option string
}.

(** [payload.id ?? String(Date.now())] and
    [payload.time ?? new Date().toISOString()]. *)
Inductive Stamp :=
| Given (s : string)
| FromClock (t : Timestamp).

Record ChatOut := {
  chat_id : Stamp;
  chat_text : string;
  chat_time : Stamp;
  chat_author : Author;
  chat_sessionId : string
}.

Record CodeOut := {
  code_code : string;
  code_language : option string;
  code_sessionId : string;
  code_authorId : string;
  code_updatedAt : Timestamp
}.

Record RunOut := {
  run_id : Timestamp;
  run_language : string;
  run_output : string;
  run_error : option string;
  run_executionTime : N;
  run_author : Author;
  run_authorId : string;
  run_time : Timestamp
}.

Inductive Payload :=
| AckOk
| AckFailed (message : string)
| SessionJoined (sessionId : string)
| SessionError (message : string)
| Chat (m : ChatOut)
| CodeUpdate (c : CodeOut)
| RunResult (r : RunOut).

(** What a handler sends: [callback?.(p)], [socket.emit(event, p)] to the
    sender alone, or [io.to(room).emit(event, p)] to every member of the
    room, the sender included. *)
Inductive Emission :=
| Ack (socket : string) (p : Payload)
| ToSocket (socket : string) (event : string) (p : Payload)
| ToRoom (room : string) (event : string) (p : Payload).

(** [slots] is [socket.data.sessionId] per socket id, [rooms] the members of
    each room, [outbox] everything emitted so far, oldest first. *)
Record Net := {
  slots : gmap string string;
  rooms : gmap string (gset string);
  outbox : list Emission
}.

Record World := {
  store : Store;
  host : Host;
  net : Net
}.

(** ** Computations *)

Inductive Completion (A : Type) :=
| Return (a : A)
| Throw (e : Exn).
Arguments Return {A} a.
Arguments Throw {A} e.

Definition M (A : Type) : Type := World -> Completion A * World.

#[global] Instance M_ret : MRet M := fun A a w => (Return a, w).

#[global] Instance M_bind : MBind M := fun A B k c w =>
  match c w with
  | (Return a, w') => k a w'
  | (Throw e, w') => (Throw e, w')
  end.

Definition throw {A} (e : Exn) : M A := fun w => (Throw e, w).

(** [try { body } catch (err) { handler }]. *)
Definition try_catch {A} (body : M A) (handler : Exn -> M A) : M A := fun w =>
  match body w with
  | (Return a, w') => (Return a, w')
  | (Throw e, w') => handler e w'
  end.

(** [try { body } finally { cleanup }]: the cleanup runs on every
    completion of the body; the completion of the body stands unless the
    cleanup itself throws. *)
Definition try_finally {A} (body : M A) (cleanup : M unit) : M A := fun w =>
  match body w with
  | (r, w') =>
      match cleanup w' with
      | (Return _, w'') => (r, w'')
      | (Throw e, w'') => (Throw e, w'')
      end
  end.

Definition on_store {A} (f : Store -> A * Store) : M A := fun w =>
  let '(a, s) := f (store w) in
  (Return a, {| store := s; host := host w; net := net w |}).

Definition on_host {A} (f : Host -> Completion A * Host) : M A := fun w =>
  let '(r, h) := f (host w) in
  (r, {| store := store w; host := h; net := net w |}).

Definition on_net {A} (f : Net -> A * Net) : M A := fun w =>
  let '(a, n) := f (net w) in
  (Return a, {| store := store w; host := host w; net := n |}).

(** ** Store calls *)

(** The [{ data, error }] a store call resolves to. *)
Inductive Reply (A : Type) :=
| Served (data : A)
| Failed (error : PostgrestError).
Arguments Served {A} data.
Arguments Failed {A} error.

(** The [SESSION_SELECT] projection: a session with its participants. *)
Record Session := {
  id : string;
  row : SessionRow;
  participants : list (string * ParticipantRow)
}.

(** The payload of the insert into [mentorship_sessions]. *)
Record SessionPayload := {
  new_title : string;
  new_summary : option string;
  new_scheduled_at : option string;
  new_duration_minutes : option N;
  new_allow_collab : bool;
  new_allow_chat : bool;
  new_allow_video : bool;
  new_metadata : JsonRecord;
  new_created_by : string
}.

(** One row of the insert into [session_participants]; the permission
    columns may be left to the defaults of the store. *)
Record NewParticipant := {
  new_session_id : string;
  new_user_id : string;
  new_role : Role;
  new_can_edit : option bool;
  new_can_share_screen : option bool
}.

(** The object handed to [update] on [mentorship_sessions]: one entry per
    key that is present. *)
Record SessionPatch := {
  set_title : option string;
  set_summary : option (option string);
  set_scheduled_at : option (option string);
  set_duration_minutes : option (option N);
  set_status : option Status;
  set_allow_collab : option bool;
  set_allow_chat : option bool;
  set_allow_video : option bool;
  set_metadata : option JsonRecord
}.

(** The object handed to [update] on [session_participants]. *)
Record ParticipantPatch := {
  set_kicked_at : option Timestamp;
  set_can_edit : option bool;
  set_can_share_screen : option bool
}.

Module Db.

Definition with_tables (t : Tables) (s : Store) : Store :=
  {| tables := t; schema := schema s;
     store_script := store_script s; store_fresh := store_fresh s |}.

Definition with_script (l : list (option PostgrestError)) (s : Store) : Store :=
  {| tables := tables s; schema := schema s;
     store_script := l; store_fresh := store_fresh s |}.

Definition with_fresh (l : list Generated) (s : Store) : Store :=
  {| tables := tables s; schema := schema s;
     store_script := store_script s; store_fresh := l |}.

Definition with_sessions (m : gmap string SessionRow) (t : Tables) : Tables :=
  {| mentorship_sessions := m; session_participants := session_participants t;
     session_messages := session_messages t;
     session_code_snapshots := session_code_snapshots t |}.

Definition with_participants (m : gmap (string * string) ParticipantRow) (t : Tables) : Tables :=
  {| mentorship_sessions := mentorship_sessions t; session_participants := m;
     session_messages := session_messages t;
     session_code_snapshots := session_code_snapshots t |}.

Definition with_messages (l : list MessageRow) (t : Tables) : Tables :=
  {| mentorship_sessions := mentorship_sessions t;
     session_participants := session_participants t;
     session_messages := l;
     session_code_snapshots := session_code_snapshots t |}.

Definition with_snapshots (l : list SnapshotRow) (t : Tables) : Tables :=
  {| mentorship_sessions := mentorship_sessions t;
     session_participants := session_participants t;
     session_messages := session_messages t;
     session_code_snapshots := l |}.

(** What the store answers to the [n]-th call from now, if it is scripted
    to fail. *)
Definition scripted (n : nat) (s : Store) : option PostgrestError :=
  match store_script s !! n with
  | Some (Some e) => Some e
  | _ => None
  end.

(** The store once the call at the head of the script has been consumed. *)
Definition advance (s : Store) : Store := with_script (tail (store_script s)) s.

(** One round trip: the script decides whether the call is served at all;
    a served call runs [op], which a constraint of the store may still
    refuse. *)
Definition round_trip {A} (op : Store -> Reply A * Store) (s : Store) : Reply A * Store :=
  match store_script s with
  | Some e :: rest => (Failed e, with_script rest s)
  | None :: rest => op (with_script rest s)
  | [] => op s
  end.

Definition unique_violation : PostgrestError :=
  {| pg_message := "duplicate key value violates unique constraint";
     pg_details := ""; pg_hint := ""; pg_code := "23505" |}.

Definition multiple_rows : PostgrestError :=
  {| pg_message := "JSON object requested, multiple (or no) rows returned";
     pg_details := ""; pg_hint := ""; pg_code := "PGRST116" |}.

Definition no_identifier : PostgrestError :=
  {| pg_message := "the store could not allocate an identifier";
     pg_details := ""; pg_hint := ""; pg_code := "" |}.

(** [.from('session_participants').select(..).eq('session_id', s)
    .eq('user_id', u).maybeSingle()]. *)
Definition select_participant (s u : string) : Store -> Reply (option ParticipantRow) * Store :=
  round_trip (fun st => (Served (session_participants (tables st) !! (s, u)), st)).

(** The participants embedded in the [SESSION_SELECT] projection. *)
Definition participants_of (s : string) (t : Tables) : list (string * ParticipantRow) :=
  (fun kv : string * string * ParticipantRow => (kv.1.2, kv.2))
    <$> filter (fun kv : string * string * ParticipantRow => kv.1.1 = s)
          (map_to_list (session_participants t)).

Definition view (s : string) (r : SessionRow) (t : Tables) : Session :=
  {| id := s; row := r; participants := participants_of s t |}.

(** [.from('mentorship_sessions').select(..).eq('id', s).maybeSingle()]. *)
Definition select_session (s : string) : Store -> Reply (option Session) * Store :=
  round_trip (fun st =>
    (Served ((fun r => view s r (tables st)) <$> mentorship_sessions (tables st) !! s), st)).

(** [.from('mentorship_sessions').select(..).eq('invite_code', c)
    .maybeSingle()]: more than one matching row is an error of the call. *)
Definition select_session_by_code (c : string) : Store -> Reply (option Session) * Store :=
  round_trip (fun st =>
    match filter (fun kv : string * SessionRow => invite_code kv.2 = c)
            (map_to_list (mentorship_sessions (tables st))) with
    | [] => (Served None, st)
    | [kv] => (Served (Some (view kv.1 kv.2 (tables st))), st)
    | _ => (Failed multiple_rows, st)
    end).

(** [.insert(payload).select(SESSION_SELECT).single()]: the store draws the
    id and the invite code and fills the status with its default; a clash
    on the primary key refuses the insert. *)
Definition insert_session (p : SessionPayload) : Store -> Reply Session * Store :=
  round_trip (fun st =>
    match store_fresh st with
    | [] => (Failed no_identifier, st)
    | g :: rest =>
        let st := with_fresh rest st in
        match mentorship_sessions (tables st) !! gen_id g with
        | Some _ => (Failed unique_violation, st)
        | None =>
            let r := {| title := new_title p;
                        status := default_status (schema st);
                        scheduled_at := new_scheduled_at p;
                        duration_minutes := new_duration_minutes p;
                        created_by := new_created_by p;
                        summary := new_summary p;
                        invite_code := gen_invite_code g;
                        allow_collab := new_allow_collab p;
                        allow_chat := new_allow_chat p;
                        allow_video := new_allow_video p;
                        metadata := new_metadata p |} in
            let t := with_sessions (<[gen_id g := r]> (mentorship_sessions (tables st))) (tables st) in
            (Served (view (gen_id g) r t), with_tables t st)
        end
    end).

(** [.from('mentorship_sessions').delete().eq('id', s)]. *)
Definition delete_session (s : string) : Store -> Reply unit * Store :=
  round_trip (fun st =>
    (Served tt,
     with_tables (with_sessions (delete s (mentorship_sessions (tables st))) (tables st)) st)).

Definition materialise (sch : Schema) (p : NewParticipant) : ParticipantRow :=
  {| role := new_role p;
     kicked_at := None;
     can_edit := Js.nullish (new_can_edit p) (default_can_edit sch);
     can_share_screen := Js.nullish (new_can_share_screen p) (default_can_share_screen sch) |}.

Definition row_key (p : NewParticipant) : string * string :=
  (new_session_id p, new_user_id p).

(** The rows of one insert, added one after the other; [None] as soon as
    one of them meets a row with its key. *)
Fixpoint add_rows (sch : Schema) (rows : list NewParticipant)
    (m : gmap (string * string) ParticipantRow) : option (gmap (string * string) ParticipantRow) :=
  match rows with
  | [] => Some m
  | p :: rest =>
      match m !! row_key p with
      | Some _ => None
      | None => add_rows sch rest (<[row_key p := materialise sch p]> m)
      end
  end.

(** [.from('session_participants').insert(rows)]: one statement, so all
    rows are stored or none is. *)
Definition insert_participants (rows : list NewParticipant) : Store -> Reply unit * Store :=
  round_trip (fun st =>
    match add_rows (schema st) rows (session_participants (tables st)) with
    | None => (Failed unique_violation, st)
    | Some m => (Served tt, with_tables (with_participants m (tables st)) st)
    end).

Definition insert_message (r : MessageRow) : Store -> Reply unit * Store :=
  round_trip (fun st =>
    (Served tt, with_tables (with_messages (session_messages (tables st) ++ [r]) (tables st)) st)).

Definition insert_snapshot (r : SnapshotRow) : Store -> Reply unit * Store :=
  round_trip (fun st =>
    (Served tt,
     with_tables (with_snapshots (session_code_snapshots (tables st) ++ [r]) (tables st)) st)).

Definition apply_session_patch (p : SessionPatch) (r : SessionRow) : SessionRow :=
  {| title := Js.nullish (set_title p) (title r);
     status := Js.nullish (set_status p) (status r);
     scheduled_at := Js.nullish (set_scheduled_at p) (scheduled_at r);
     duration_minutes := Js.nullish (set_duration_minutes p) (duration_minutes r);
     created_by := created_by r;
     summary := Js.nullish (set_summary p) (summary r);
     invite_code := invite_code r;
     allow_collab := Js.nullish (set_allow_collab p) (allow_collab r);
     allow_chat := Js.nullish (set_allow_chat p) (allow_chat r);
     allow_video := Js.nullish (set_allow_video p) (allow_video r);
     metadata := Js.nullish (set_metadata p) (metadata r) |}.

(** [.update(patch).eq('id', s).eq('created_by', owner)
    .select(SESSION_SELECT).maybeSingle()]. *)
Definition update_session (s owner : string) (p : SessionPatch) : Store -> Reply (option Session) * Store :=
  round_trip (fun st =>
    match mentorship_sessions (tables st) !! s with
    | Some r =>
        if decide (created_by r = owner) then
          let r' := apply_session_patch p r in
          let t := with_sessions (<[s := r']> (mentorship_sessions (tables st))) (tables st) in
          (Served (Some (view s r' t)), with_tables t st)
        else (Served None, st)
    | None => (Served None, st)
    end).

Definition apply_participant_patch (p : ParticipantPatch) (r : ParticipantRow) : ParticipantRow :=
  {| role := role r;
     kicked_at := match set_kicked_at p with Some t => Some t | None => kicked_at r end;
     can_edit := Js.nullish (set_can_edit p) (can_edit r);
     can_share_screen := Js.nullish (set_can_share_screen p) (can_share_screen r) |}.

(** [.update(patch).eq('session_id', s).eq('user_id', u)], with
    [.is('kicked_at', null)] when [only_active], then
    [.select(..).maybeSingle()]. *)
Definition update_participant (s u : string) (only_active : bool) (p : ParticipantPatch)
    : Store -> Reply (option ParticipantRow) * Store :=
  round_trip (fun st =>
    match session_participants (tables st) !! (s, u) with
    | Some r =>
        if only_active && bool_decide (is_Some (kicked_at r)) then (Served None, st)
        else
          let r' := apply_participant_patch p r in
          (Served (Some r'),
           with_tables (with_participants (<[(s, u) := r']> (session_participants (tables st)))
                          (tables st)) st)
    | None => (Served None, st)
    end).

(** [.from('session_participants').select('session_id').eq('user_id', u)]:
    the session of every row of the user. *)
Definition select_memberships (u : string) : Store -> Reply (list string) * Store :=
  round_trip (fun st =>
    (Served ((fun kv : string * string * ParticipantRow => kv.1.1)
               <$> filter (fun kv : string * string * ParticipantRow => kv.1.2 = u)
                     (map_to_list (session_participants (tables st)))), st)).

(** [scheduled_at] ascending with nulls first: [a] may stand before [b].
    [instant] is the store's reading of a timestamp. *)
Definition scheduled_first (instant : string -> N) (a b : Session) : Prop :=
  match scheduled_at (row a), scheduled_at (row b) with
  | None, _ => True
  | Some _, None => False
  | Some x, Some y => (instant x <= instant y)%N
  end.

#[global] Instance scheduled_first_dec (instant : string -> N) (a b : Session) :
  Decision (scheduled_first instant a b).
Proof.
  unfold scheduled_first.
  destruct (scheduled_at (row a)), (scheduled_at (row b)); apply _.
Defined.

(** [.from('mentorship_sessions').select(SESSION_SELECT).in('id', ids)
    .order('scheduled_at', { ascending: true, nullsFirst: true })]. *)
Definition select_sessions_in (instant : string -> N) (ids : list string)
    : Store -> Reply (list Session) * Store :=
  round_trip (fun st =>
    (Served (merge_sort (scheduled_first instant)
               ((fun kv : string * SessionRow => view kv.1 kv.2 (tables st))
                  <$> filter (fun kv : string * SessionRow => kv.1 ∈ ids)
                        (map_to_list (mentorship_sessions (tables st))))), st)).

End Db.


(** ** Host calls: [Date], [path], [fs] and [child_process] *)

Module Node.

Definition with_clock (t : N) (h : Host) : Host :=
  {| clock := t; tmpdirs := tmpdirs h; files := files h; fs_script := fs_script h;
     tmp_suffixes := tmp_suffixes h; exec_script := exec_script h;
     spawned := spawned h; console_error := console_error h |}.

Definition with_tmpdirs (d : gset string) (h : Host) : Host :=
  {| clock := clock h; tmpdirs := d; files := files h; fs_script := fs_script h;
     tmp_suffixes := tmp_suffixes h; exec_script := exec_script h;
     spawned := spawned h; console_error := console_error h |}.

Definition with_files (f : gmap string string) (h : Host) : Host :=
  {| clock := clock h; tmpdirs := tmpdirs h; files := f; fs_script := fs_script h;
     tmp_suffixes := tmp_suffixes h; exec_script := exec_script h;
     spawned := spawned h; console_error := console_error h |}.

Definition with_fs_script (l : list (option string)) (h : Host) : Host :=
  {| clock := clock h; tmpdirs := tmpdirs h; files := files h; fs_script := l;
     tmp_suffixes := tmp_suffixes h; exec_script := exec_script h;
     spawned := spawned h; console_error := console_error h |}.

Definition with_tmp_suffixes (l : list string) (h : Host) : Host :=
  {| clock := clock h; tmpdirs := tmpdirs h; files := files h; fs_script := fs_script h;
     tmp_suffixes := l; exec_script := exec_script h;
     spawned := spawned h; console_error := console_error h |}.

Definition with_exec_script (l : list ExecAnswer) (h : Host) : Host :=
  {| clock := clock h; tmpdirs := tmpdirs h; files := files h; fs_script := fs_script h;
     tmp_suffixes := tmp_suffixes h; exec_script := l;
     spawned := spawned h; console_error := console_error h |}.

Definition with_spawned (l : list string) (h : Host) : Host :=
  {| clock := clock h; tmpdirs := tmpdirs h; files := files h; fs_script := fs_script h;
     tmp_suffixes := tmp_suffixes h; exec_script := exec_script h;
     spawned := l; console_error := console_error h |}.

Definition with_console_error (l : list string) (h : Host) : Host :=
  {| clock := clock h; tmpdirs := tmpdirs h; files := files h; fs_script := fs_script h;
     tmp_suffixes := tmp_suffixes h; exec_script := exec_script h;
     spawned := spawned h; console_error := l |}.

(** [Date.now()], also the instant of [new Date()]. *)
Definition Date_now : M Timestamp := on_host (fun h => (Return (clock h), h)).

(** [os.tmpdir()]. *)
Definition tmpdir : string := "/tmp".

(** [path.join(a, b)] for a directory and a name. *)
Definition path_join (a b : string) : string := a +:+ "/" +:+ b.

Fixpoint after_separator (reversed : list ascii) : list ascii :=
  match reversed with
  | [] => []
  | c :: r => if Ascii.eqb c "/" then r else after_separator r
  end.

(** [path.dirname(p)] for a path that has a directory part: what stands
    before the last separator. *)
Definition dirname (p : string) : string :=
  string_of_list_ascii (rev (after_separator (rev (list_ascii_of_string p)))).

(** What the [n]-th call to [fs] from now rejects with, if it is scripted to
    fail. *)
Definition fs_scripted (n : nat) (h : Host) : option string :=
  match fs_script h !! n with
  | Some (Some m) => Some m
  | _ => None
  end.

(** One call to [fs]: the script decides whether it rejects. *)
Definition fs_call {A} (op : Host -> Completion A * Host) (h : Host) : Completion A * Host :=
  match fs_script h with
  | Some m :: rest => (Throw (NodeError m None None), with_fs_script rest h)
  | None :: rest => op (with_fs_script rest h)
  | [] => op h
  end.

(** [fs.mkdtemp(prefix)]: a new directory named by the prefix and a drawn
    suffix; a name that is taken is a rejection. *)
Definition mkdtemp (prefix : string) : M string :=
  on_host (fs_call (fun h =>
    let '(suffix, h) :=
      match tmp_suffixes h with
      | [] => ("", h)
      | s :: r => (s, with_tmp_suffixes r h)
      end in
    let dir := prefix +:+ suffix in
    if decide (dir ∈ tmpdirs h)
    then (Throw (NodeError "EEXIST: file already exists, mkdtemp" None None), h)
    else (Return dir, with_tmpdirs ({[dir]} ∪ tmpdirs h) h))).

(** [fs.writeFile(p, data, 'utf-8')]. *)
Definition writeFile (p data : string) : M unit :=
  on_host (fs_call (fun h =>
    if decide (dirname p ∈ tmpdirs h)
    then (Return tt, with_files (<[p := data]> (files h)) h)
    else (Throw (NodeError "ENOENT: no such file or directory, open" None None), h))).

(** [fs.rm(dir, { recursive: true, force: true })]: the directory and what
    it holds are removed; a directory that is not there is no error. *)
Definition rm (dir : string) : M unit :=
  on_host (fs_call (fun h =>
    (Return tt,
     with_files (filter (fun kv : string * string => dirname kv.1 ≠ dir) (files h))
       (with_tmpdirs (tmpdirs h ∖ {[dir]}) h)))).

Definition console_log_error (line : string) : M unit :=
  on_host (fun h => (Return tt, with_console_error (console_error h ++ [line]) h)).

Definition idle_child : ExecAnswer :=
  {| exit_ok := true; child_stdout := ""; child_stderr := "";
     child_failure := ""; child_ms := 0 |}.

(** [execAsync(command, { timeout, maxBuffer })]: the child is started and
    runs as the script says.  It resolves to its two streams when it exits
    with status zero within the limits; it rejects, with the streams captured
    so far on the error, when it is killed at the timeout, overruns the
    buffer or exits with a failure. *)
Definition execAsync (command : string) (timeout maxBuffer : N) : M (string * string) :=
  on_host (fun h =>
    let '(a, rest) :=
      match exec_script h with
      | [] => (idle_child, [])
      | a :: r => (a, r)
      end in
    let h := with_spawned (spawned h ++ [command]) (with_exec_script rest h) in
    let streams := (Some (child_stdout a), Some (child_stderr a)) in
    if timeout <? child_ms a then
      (Throw (NodeError ("Command failed: " +:+ command) streams.1 streams.2),
       with_clock (clock h + timeout) h)
    else
      let h := with_clock (clock h + child_ms a) h in
      if (maxBuffer <? N.of_nat (String.length (child_stdout a)))
         || (maxBuffer <? N.of_nat (String.length (child_stderr a)))
      then (Throw (NodeError "maxBuffer length exceeded" streams.1 streams.2), h)
      else if exit_ok a then (Return (child_stdout a, child_stderr a), h)
      else (Throw (NodeError (child_failure a) streams.1 streams.2), h)).

End Node.


(** ** [services/session.ts] *)

#[global] Instance Status_eq_dec : EqDecision Status.
Proof. solve_decision. Defined.

#[global] Instance Role_eq_dec : EqDecision Role.
Proof. solve_decision. Defined.

(** [SessionCreateInput]; an optional or nullable field is [None] when it is
    [undefined] or [null], which [??] does not tell apart. *)
Record SessionCreateInput := {
  in_title : string;
  in_summary : option string;
  in_scheduled_at : option string;
  in_duration_minutes : option N;
  in_allow_collab : option bool;
  in_allow_chat : option bool;
  in_allow_video : option bool;
  in_metadata : option JsonRecord;
  participantUserIds : option (list string)
}.

(** [SessionUpdateInput]; the outer [None] is [undefined], an inner [None]
    is [null]. *)
Record SessionUpdateInput := {
  up_title : option string;
  up_summary : option (option string);
  up_scheduled_at : option (option string);
  up_duration_minutes : option (option N);
  up_status : option Status;
  up_allow_collab : option bool;
  up_allow_chat : option bool;
  up_allow_video : option bool;
  up_metadata : option (option JsonRecord)
}.

(** [PermissionChanges]. *)
Record PermissionChanges := {
  ch_can_edit : option bool;
  ch_can_share_screen : option bool
}.

Module SessionService.

Definition ensureSessionParticipant (userId sessionId : string) : M ParticipantRow :=
  r ← on_store (Db.select_participant sessionId userId);
  match r with
  | Failed error =>
      throw (http 500 "Unable to verify session access" (formatPostgrestError (Some error)))
  | Served None => throw (http 403 "You are not a participant in this session" None)
  | Served (Some data) =>
      match kicked_at data with
      | Some _ => throw (http 403 "You have been removed from this session" None)
      | None => mret data
      end
  end.

Definition getSessionForUser (userId sessionId : string) : M Session :=
  _ ← ensureSessionParticipant userId sessionId;
  r ← on_store (Db.select_session sessionId);
  match r with
  | Failed error => throw (http 500 "Unable to load session" (formatPostgrestError (Some error)))
  | Served None => throw (http 404 "Session not found" None)
  | Served (Some data) => mret data
  end.

Definition addSessionMessage (sessionId userId content : string) : M unit :=
  _ ← ensureSessionParticipant userId sessionId;
  r ← on_store (Db.insert_message
         {| message_session_id := sessionId; message_author_id := userId; content := content |});
  match r with
  | Failed error => throw (http 500 "Unable to store message" (formatPostgrestError (Some error)))
  | Served _ => mret tt
  end.

Definition addCodeSnapshot (sessionId userId code language : string) : M unit :=
  _ ← ensureSessionParticipant userId sessionId;
  r ← on_store (Db.insert_snapshot
         {| snapshot_session_id := sessionId; snapshot_author_id := userId;
            snapshot_language := language; snapshot_code := code |});
  match r with
  | Failed error =>
      throw (http 500 "Unable to store code snapshot" (formatPostgrestError (Some error)))
  | Served _ => mret tt
  end.

Definition emptyObject : JsonRecord := ∅.

Definition sanitizeMetadata (metadata : option JsonRecord) : JsonRecord :=
  Js.nullish metadata emptyObject.

Definition ensureSessionExistsWithOwner (sessionId : string) : M Session :=
  r ← on_store (Db.select_session sessionId);
  match r with
  | Failed error => throw (http 500 "Unable to load session" (formatPostgrestError (Some error)))
  | Served None => throw (http 404 "Session not found" None)
  | Served (Some data) => mret data
  end.

(** [(input.participantUserIds ?? []).filter((id) => id && id !== mentorId)],
    then [Array.from(new Set(..))]. *)
Definition uniqueStudentIds (mentorId : string) (input : SessionCreateInput) : list string :=
  Js.uniq (filter (fun id => Js.truthy id ∧ id ≠ mentorId)
             (Js.nullish (participantUserIds input) [])).

Definition participantRows (sessionId mentorId : string) (students : list string) : list NewParticipant :=
  {| new_session_id := sessionId; new_user_id := mentorId; new_role := mentor;
     new_can_edit := Some true; new_can_share_screen := Some true |}
  :: ((fun userId =>
         {| new_session_id := sessionId; new_user_id := userId; new_role := student;
            new_can_edit := None; new_can_share_screen := None |}) <$> students).

Definition sessionPayload (mentorId : string) (input : SessionCreateInput) : SessionPayload :=
  {| new_title := in_title input;
     new_summary := in_summary input;
     new_scheduled_at := in_scheduled_at input;
     new_duration_minutes := in_duration_minutes input;
     new_allow_collab := Js.nullish (in_allow_collab input) true;
     new_allow_chat := Js.nullish (in_allow_chat input) true;
     new_allow_video := Js.nullish (in_allow_video input) true;
     new_metadata := sanitizeMetadata (in_metadata input);
     new_created_by := mentorId |}.

Definition createSession (mentorId : string) (input : SessionCreateInput) : M Session :=
  r ← on_store (Db.insert_session (sessionPayload mentorId input));
  match r with
  | Failed sessionError =>
      throw (http 500 "Unable to create session" (formatPostgrestError (Some sessionError)))
  | Served session =>
      r ← on_store (Db.insert_participants
             (participantRows (id session) mentorId (uniqueStudentIds mentorId input)));
      match r with
      | Failed participantError =>
          _ ← on_store (Db.delete_session (id session));
          throw (http 500 "Unable to attach participants"
                   (formatPostgrestError (Some participantError)))
      | Served _ => mret session
      end
  end.

(** [existing?.kicked_at] as a condition. *)
Definition removed (existing : option ParticipantRow) : bool :=
  match existing with
  | Some e => bool_decide (is_Some (kicked_at e))
  | None => false
  end.

Definition joinSessionByCode (userId inviteCode : string) : M Session :=
  r ← on_store (Db.select_session_by_code inviteCode);
  match r with
  | Failed error =>
      throw (http 500 "Unable to look up session" (formatPostgrestError (Some error)))
  | Served None => throw (http 404 "No session found for that code" None)
  | Served (Some session) =>
      if decide (status (row session) = completed ∨ status (row session) = cancelled)
      then throw (http 400 "This session is no longer accepting participants" None)
      else
        r ← on_store (Db.select_participant (id session) userId);
        match r with
        | Failed membershipError =>
            throw (http 500 "Unable to verify membership"
                     (formatPostgrestError (Some membershipError)))
        | Served existing =>
            if removed existing
            then throw (http 403 "You have been removed from this session" None)
            else
              _ ← match existing with
                  | Some _ => mret tt
                  | None =>
                      r ← on_store (Db.insert_participants
                             [ {| new_session_id := id session; new_user_id := userId;
                                  new_role := if decide (userId = created_by (row session))
                                              then mentor else student;
                                  new_can_edit := None; new_can_share_screen := None |} ]);
                      match r with
                      | Failed insertError =>
                          throw (http 500 "Unable to join session"
                                   (formatPostgrestError (Some insertError)))
                      | Served _ => mret tt
                      end
                  end;
              mret session
        end
  end.

(** The patch [updateSessionSettings] builds: a key for every field of the
    input that is not [undefined]. *)
Definition session_patch (updates : SessionUpdateInput) : SessionPatch :=
  {| set_title := up_title updates;
     set_summary := up_summary updates;
     set_scheduled_at := up_scheduled_at updates;
     set_duration_minutes := up_duration_minutes updates;
     set_status := up_status updates;
     set_allow_collab := up_allow_collab updates;
     set_allow_chat := up_allow_chat updates;
     set_allow_video := up_allow_video updates;
     set_metadata := sanitizeMetadata <$> up_metadata updates |}.

Definition key {A} (name : string) (field : option A) : list string :=
  match field with
  | Some _ => [name]
  | None => []
  end.

(** [Object.keys(patch)]. *)
Definition session_patch_keys (p : SessionPatch) : list string :=
  key "title" (set_title p) ++ key "summary" (set_summary p)
  ++ key "scheduled_at" (set_scheduled_at p)
  ++ key "duration_minutes" (set_duration_minutes p)
  ++ key "status" (set_status p) ++ key "allow_collab" (set_allow_collab p)
  ++ key "allow_chat" (set_allow_chat p) ++ key "allow_video" (set_allow_video p)
  ++ key "metadata" (set_metadata p).

Definition updateSessionSettings (mentorId sessionId : string) (updates : SessionUpdateInput) : M Session :=
  let patch := session_patch updates in
  if decide (length (session_patch_keys patch) = 0%nat)
  then throw (http 400 "No updates were provided" None)
  else
    r ← on_store (Db.update_session sessionId mentorId patch);
    match r with
    | Failed error =>
        throw (http 500 "Unable to update session" (formatPostgrestError (Some error)))
    | Served None =>
        throw (http 404 "Session not found or you do not have permission to update it" None)
    | Served (Some data) => mret data
    end.

Definition kickParticipant (mentorId sessionId targetUserId : string) : M bool :=
  session ← ensureSessionExistsWithOwner sessionId;
  if decide (created_by (row session) ≠ mentorId)
  then throw (http 403 "Only the session creator can remove participants" None)
  else if decide (targetUserId = mentorId)
  then throw (http 400 "You cannot remove yourself from your own session" None)
  else
    now ← Node.Date_now;
    r ← on_store (Db.update_participant sessionId targetUserId true
           {| set_kicked_at := Some now; set_can_edit := Some false;
              set_can_share_screen := Some false |});
    match r with
    | Failed error =>
        throw (http 500 "Unable to remove participant" (formatPostgrestError (Some error)))
    | Served None => throw (http 404 "Participant not found or already removed" None)
    | Served (Some _) => mret true
    end.

Definition permission_patch (changes : PermissionChanges) : ParticipantPatch :=
  {| set_kicked_at := None;
     set_can_edit := ch_can_edit changes;
     set_can_share_screen := ch_can_share_screen changes |}.

Definition permission_patch_keys (p : ParticipantPatch) : list string :=
  key "can_edit" (set_can_edit p) ++ key "can_share_screen" (set_can_share_screen p).

Definition updateParticipantPermissions (mentorId sessionId targetUserId : string)
    (changes : PermissionChanges) : M ParticipantRow :=
  session ← ensureSessionExistsWithOwner sessionId;
  if decide (created_by (row session) ≠ mentorId)
  then throw (http 403 "Only the session creator can update participant permissions" None)
  else
    let patch := permission_patch changes in
    if decide (length (permission_patch_keys patch) = 0%nat)
    then throw (http 400 "No permission changes provided" None)
    else
      r ← on_store (Db.update_participant sessionId targetUserId false patch);
      match r with
      | Failed error =>
          throw (http 500 "Unable to update participant permissions"
                   (formatPostgrestError (Some error)))
      | Served None => throw (http 404 "Participant not found" None)
      | Served (Some data) => mret data
      end.

Definition listSessionsForUser (instant : string -> N) (userId : string) : M (list Session) :=
  r ← on_store (Db.select_memberships userId);
  match r with
  | Failed participantError =>
      throw (http 500 "Unable to load session memberships"
               (formatPostgrestError (Some participantError)))
  | Served participantRows =>
      let sessionIds := Js.uniq participantRows in
      if decide (length sessionIds = 0%nat) then mret []
      else
        r ← on_store (Db.select_sessions_in instant sessionIds);
        match r with
        | Failed error =>
            throw (http 500 "Unable to load sessions" (formatPostgrestError (Some error)))
        | Served data => mret data
        end
  end.

End SessionService.


(** ** [services/codeRunner.ts] *)

Module CodeRunner.

Record ExecutionResult := {
  output : string;
  error : option string;
  executionTime : N
}.

Definition TIMEOUT_MS : N := 10000.

(** [maxBuffer: 1024 * 1024]. *)
Definition MAX_BUFFER : N := 1024 * 1024.

Definition createTempFile (code extension : string) : M string :=
  tempDir ← Node.mkdtemp (Node.path_join Node.tmpdir "code-exec-");
  let filePath := Node.path_join tempDir ("code" +:+ extension) in
  _ ← Node.writeFile filePath code;
  mret filePath.

Definition cleanupTempFile (filePath : string) : M unit :=
  try_catch
    (let dir := Node.dirname filePath in
     Node.rm dir)
    (fun err => Node.console_log_error ("Failed to cleanup temp file: " +:+ exn_message err)).

(** [{ output: stdout.trim(), error: stderr.trim() || null,
       executionTime: Date.now() - startTime }]. *)
Definition finished (startTime : Timestamp) (streams : string * string) : M ExecutionResult :=
  now ← Node.Date_now;
  mret {| output := Js.trim streams.1;
          error := if Js.truthy (Js.trim streams.2) then Some (Js.trim streams.2) else None;
          executionTime := now - startTime |}.

(** [{ output: err.stdout?.trim() || '', error: err.stderr?.trim() || err.message,
       executionTime: Date.now() - startTime }]. *)
Definition failed (startTime : Timestamp) (err : Exn) : M ExecutionResult :=
  now ← Node.Date_now;
  let '(stdout, stderr) :=
    match err with
    | NodeError _ o e => (o, e)
    | Http _ => (None, None)
    end in
  mret {| output := match stdout with
                    | Some s => Js.or_else (Js.trim s) ""
                    | None => ""
                    end;
          error := Some match stderr with
                        | Some s => Js.or_else (Js.trim s) (exn_message err)
                        | None => exn_message err
                        end;
          executionTime := now - startTime |}.

Definition quoted (s : string) : string := Js.dquote +:+ s +:+ Js.dquote.

Definition executeJavaScript (code : string) : M ExecutionResult :=
  startTime ← Node.Date_now;
  filePath ← createTempFile code ".js";
  try_finally
    (try_catch
       (streams ← Node.execAsync ("node " +:+ quoted filePath) TIMEOUT_MS MAX_BUFFER;
        finished startTime streams)
       (failed startTime))
    (cleanupTempFile filePath).

Definition executeTypeScript (code : string) : M ExecutionResult :=
  startTime ← Node.Date_now;
  filePath ← createTempFile code ".ts";
  try_finally
    (try_catch
       (streams ← Node.execAsync ("npx ts-node " +:+ quoted filePath) TIMEOUT_MS MAX_BUFFER;
        finished startTime streams)
       (failed startTime))
    (cleanupTempFile filePath).

Definition executePython (code : string) : M ExecutionResult :=
  startTime ← Node.Date_now;
  filePath ← createTempFile code ".py";
  try_finally
    (try_catch
       (streams ← Node.execAsync ("python " +:+ quoted filePath) TIMEOUT_MS MAX_BUFFER;
        finished startTime streams)
       (failed startTime))
    (cleanupTempFile filePath).

Definition is_word (c : ascii) : bool :=
  let n := N_of_ascii c in
  ((48 <=? n) && (n <=? 57)) || ((65 <=? n) && (n <=? 90)) || (n =? 95)
  || ((97 <=? n) && (n <=? 122)).

Fixpoint strip_prefix (prefix s : string) : option string :=
  match prefix, s with
  | EmptyString, _ => Some s
  | String a p, String b r => if Ascii.eqb a b then strip_prefix p r else None
  | String _ _, EmptyString => None
  end.

Fixpoint take_word (s : string) : string :=
  match s with
  | EmptyString => EmptyString
  | String c r => if is_word c then String c (take_word r) else EmptyString
  end.

(** [\s+] at the head of [s]: what follows the white space, when there is
    some. *)
Definition spaces (s : string) : option string :=
  match s with
  | EmptyString => None
  | String c _ => if Js.is_space c then Some (Js.trimStart s) else None
  end.

(** [/public\s+class\s+(\w+)/] anchored at the head of [code]; the groups
    are greedy and no two adjacent ones share a character, so the first
    attempt is the only one. *)
Definition class_declared_here (code : string) : option string :=
  r ← strip_prefix "public" code;
  r ← spaces r;
  r ← strip_prefix "class" r;
  r ← spaces r;
  let name := take_word r in
  if Js.truthy name then Some name else None.

(** [code.match(/public\s+class\s+(\w+)/)]: the leftmost match. *)
Fixpoint extractJavaClassName (code : string) : option string :=
  match class_declared_here code with
  | Some name => Some name
  | None =>
      match code with
      | EmptyString => None
      | String _ r => extractJavaClassName r
      end
  end.

Definition executeJava (code : string) : M ExecutionResult :=
  startTime ← Node.Date_now;
  tempDir ← Node.mkdtemp (Node.path_join Node.tmpdir "java-exec-");
  let className :=
    match extractJavaClassName code with
    | Some name => Js.or_else name "Main"
    | None => "Main"
    end in
  let filePath := Node.path_join tempDir (className +:+ ".java") in
  _ ← Node.writeFile filePath code;
  try_finally
    (try_catch
       (_ ← Node.execAsync ("javac " +:+ quoted filePath) TIMEOUT_MS MAX_BUFFER;
        streams ← Node.execAsync ("java -cp " +:+ quoted tempDir +:+ " " +:+ className)
                    TIMEOUT_MS MAX_BUFFER;
        finished startTime streams)
       (failed startTime))
    (Node.rm tempDir).

Definition executeCSharp (code : string) : M ExecutionResult :=
  startTime ← Node.Date_now;
  filePath ← createTempFile code ".cs";
  try_finally
    (try_catch
       (streams ← Node.execAsync ("dotnet script " +:+ quoted filePath) TIMEOUT_MS MAX_BUFFER;
        finished startTime streams)
       (failed startTime))
    (cleanupTempFile filePath).

Definition executeGo (code : string) : M ExecutionResult :=
  startTime ← Node.Date_now;
  filePath ← createTempFile code ".go";
  try_finally
    (try_catch
       (streams ← Node.execAsync ("go run " +:+ quoted filePath) TIMEOUT_MS MAX_BUFFER;
        finished startTime streams)
       (failed startTime))
    (cleanupTempFile filePath).


Definition not_supported (language : string) : string :=
  "Language " +:+ Js.dquote +:+ language +:+ Js.dquote +:+ " is not supported for execution".

Definition executeCode (code language : string) : M ExecutionResult :=
  startTime ← Node.Date_now;
  let filePath : option string := None in
  try_finally
    (try_catch
       (let l := Js.toLowerCase language in
        if decide (l = "javascript") then executeJavaScript code
        else if decide (l = "typescript") then executeTypeScript code
        else if decide (l = "python") then executePython code
        else if decide (l = "java") then executeJava code
        else if decide (l = "csharp" ∨ l = "c#") then executeCSharp code
        else if decide (l = "go") then executeGo code
        else
          now ← Node.Date_now;
          mret {| output := ""; error := Some (not_supported language);
                  executionTime := now - startTime |})
       (fun err =>
          now ← Node.Date_now;
          mret {| output := "";
                  error := Some (Js.or_else (exn_message err) "Execution failed");
                  executionTime := now - startTime |}))
    (match filePath with
     | Some p => cleanupTempFile p
     | None => mret tt
     end).

End CodeRunner.


(** ** The socket handlers of the server entry point *)

(** The connection a handler was registered for: its socket id and the user
    attached to it at authentication. *)
Record Socket := {
  socket_id : string;
  user : User
}.

Record ChatIn := {
  chat_in_id : option string;
  chat_in_text : option string;
  chat_in_time : option string
}.

Record CodeIn := {
  code_in_code : option string;
  code_in_language : option string
}.

Module Gateway.

Definition with_slots (m : gmap string string) (n : Net) : Net :=
  {| slots := m; rooms := rooms n; outbox := outbox n |}.

Definition with_rooms (m : gmap string (gset string)) (n : Net) : Net :=
  {| slots := slots n; rooms := m; outbox := outbox n |}.

Definition with_outbox (l : list Emission) (n : Net) : Net :=
  {| slots := slots n; rooms := rooms n; outbox := l |}.

(** [!x] for an optional string: [undefined] and the empty string. *)
Definition missing (x : option string) : bool :=
  match x with
  | Some s => negb (Js.truthy s)
  | None => true
  end.

(** [`session:${sessionId}`]. *)
Definition room_of (sessionId : string) : string := "session:" +:+ sessionId.

Definition members (n : Net) (room : string) : gset string := default ∅ (rooms n !! room).

(** Who receives an emission. *)
Definition recipients (n : Net) (e : Emission) : gset string :=
  match e with
  | Ack s _ => {[s]}
  | ToSocket s _ _ => {[s]}
  | ToRoom r _ _ => members n r
  end.

Definition is_broadcast (e : Emission) : bool :=
  match e with
  | ToRoom _ _ _ => true
  | _ => false
  end.

(** [data.sessionId]. *)
Definition current_session (sock : Socket) : M (option string) :=
  on_net (fun n => (slots n !! socket_id sock, n)).

(** [data.sessionId = sessionId]. *)
Definition set_current_session (sock : Socket) (sessionId : string) : M unit :=
  on_net (fun n => (tt, with_slots (<[socket_id sock := sessionId]> (slots n)) n)).

(** [socket.join(room)]. *)
Definition socket_join (sock : Socket) (room : string) : M unit :=
  on_net (fun n => (tt, with_rooms (<[room := {[socket_id sock]} ∪ members n room]> (rooms n)) n)).

Definition emit (e : Emission) : M unit :=
  on_net (fun n => (tt, with_outbox (outbox n ++ [e]) n)).

(** [callback?.(p)]. *)
Definition acknowledge (sock : Socket) (callback : bool) (p : Payload) : M unit :=
  if callback then emit (Ack (socket_id sock) p) else mret tt.

(** [{ id: user.id, name: user.user_metadata?.name ?? user.email }]. *)
Definition author_of (u : User) : Author :=
  {| author_id := uid u;
     author_name := match metadata_name u with
                    | Some n => Some n
                    | None => email u
                    end |}.

(** The [catch] of every handler: the message of an [HttpError], else the
    fallback; the acknowledgment, then [session:error] to the sender. *)
Definition report (sock : Socket) (callback : bool) (fallback : string) (err : Exn) : M unit :=
  let message :=
    match err with
    | Http h => http_message h
    | NodeError _ _ _ => fallback
    end in
  _ ← acknowledge sock callback (AckFailed message);
  emit (ToSocket (socket_id sock) "session:error" (SessionError message)).

Definition session_join (sock : Socket) (sessionId : option string) (callback : bool) : M unit :=
  try_catch
    (if missing sessionId then throw (http 400 "sessionId is required" None)
     else
       let sessionId := Js.nullish sessionId "" in
       _ ← SessionService.ensureSessionParticipant (uid (user sock)) sessionId;
       let room := room_of sessionId in
       _ ← socket_join sock room;
       _ ← set_current_session sock sessionId;
       _ ← acknowledge sock callback AckOk;
       emit (ToSocket (socket_id sock) "session:joined" (SessionJoined sessionId)))
    (report sock callback "Unable to join session").

Definition chat_message (sock : Socket) (payload : option ChatIn) (callback : bool) : M unit :=
  try_catch
    (sessionId ← current_session sock;
     if missing sessionId then throw (http 400 "Join a session before sending messages" None)
     else
       let sessionId := Js.nullish sessionId "" in
       if missing (payload ≫= chat_in_text) then throw (http 400 "Message text is required" None)
       else
         let text := Js.nullish (payload ≫= chat_in_text) "" in
         _ ← SessionService.addSessionMessage sessionId (uid (user sock)) text;
         now ← Node.Date_now;
         let enriched :=
           {| chat_id := match payload ≫= chat_in_id with
                         | Some i => Given i
                         | None => FromClock now
                         end;
              chat_text := text;
              chat_time := match payload ≫= chat_in_time with
                           | Some t => Given t
                           | None => FromClock now
                           end;
              chat_author := author_of (user sock);
              chat_sessionId := sessionId |} in
         _ ← emit (ToRoom (room_of sessionId) "chat:message" (Chat enriched));
         acknowledge sock callback AckOk)
    (report sock callback "Unable to send message").

Definition code_update (sock : Socket) (payload : option CodeIn) (callback : bool) : M unit :=
  try_catch
    (sessionId ← current_session sock;
     if missing sessionId then throw (http 400 "Join a session before sharing code" None)
     else
       let sessionId := Js.nullish sessionId "" in
       if missing (payload ≫= code_in_code) then throw (http 400 "Code content is required" None)
       else
         let code := Js.nullish (payload ≫= code_in_code) "" in
         _ ← SessionService.addCodeSnapshot sessionId (uid (user sock)) code
               (Js.nullish (payload ≫= code_in_language) "javascript");
         now ← Node.Date_now;
         _ ← emit (ToRoom (room_of sessionId) "code:update"
                     (CodeUpdate {| code_code := code;
                                    code_language := payload ≫= code_in_language;
                                    code_sessionId := sessionId;
                                    code_authorId := uid (user sock);
                                    code_updatedAt := now |}));
         acknowledge sock callback AckOk)
    (report sock callback "Unable to update code").

Definition code_run (sock : Socket) (payload : option CodeIn) (callback : bool) : M unit :=
  try_catch
    (sessionId ← current_session sock;
     if missing sessionId then throw (http 400 "Join a session before running code" None)
     else
       let sessionId := Js.nullish sessionId "" in
       if missing (payload ≫= code_in_code) then throw (http 400 "Code content is required" None)
       else
         let code := Js.nullish (payload ≫= code_in_code) "" in
         let language := Js.toLowerCase (Js.nullish (payload ≫= code_in_language) "javascript") in
         result ← CodeRunner.executeCode code language;
         now ← Node.Date_now;
         let enriched :=
           {| run_id := now;
              run_language := language;
              run_output := CodeRunner.output result;
              run_error := CodeRunner.error result;
              run_executionTime := CodeRunner.executionTime result;
              run_author := author_of (user sock);
              run_authorId := uid (user sock);
              run_time := now |} in
         _ ← emit (ToRoom (room_of sessionId) "code:run-result" (RunResult enriched));
         acknowledge sock callback AckOk)
    (report sock callback "Unable to run code").

End Gateway.


(** ** Authentication: the HTTP middleware and the socket middleware *)

Module Auth.



(** The user the identity provider holds: what the handlers read of it,
    and the [role] entries of its two metadata records. *)
Record Account := {
  account_user : User;
  user_metadata_role : option string;
  app_metadata_role : option string
}.

(** What [supabaseAdmin.auth.getUser(token)] does: it resolves to a user,
    resolves to an error or to no user, or rejects with an [Error]. *)
Inductive Lookup :=
| Known (a : Account)
| Unknown
| Down (message : string).

(** What the query on [profiles] does: it resolves to the [role] of the
    row (no row and a null role read the same through [data?.role]),
    resolves to an error, or rejects with an [Error]. *)
Inductive Profile :=
| ProfileRole (r : option string)
| ProfileError (message : string)
| ProfileDown (message : string).

(** The identity provider and the [profiles] table, as the middlewares see
    them. *)
Record Directory := {
  getUser : string -> Lookup;
  profile_of : string -> Profile
}.

(** An [HttpError] of the middleware: its details are [{ hint }] or
    [{ cause }]. *)
Record Rejection := {
  rejection_status : N;
  rejection_message : string;
  rejection_details : option (string * string)
}.

(** What a call that may throw comes to. *)
Inductive Attempt (A : Type) :=
| Got (a : A)
| Thrown (e : Rejection)
| Crashed (message : string).
Arguments Got {A} a.
Arguments Thrown {A} e.
Arguments Crashed {A} message.

(** [value === 'mentor' || value === 'student']. *)
Definition isUserRole (value : option string) : bool :=
  bool_decide (value = Some "mentor" ∨ value = Some "student").

(** [user_metadata?.role ?? app_metadata?.role]. *)
Definition fromMetadata (user : Account) : option string :=
  match user_metadata_role user with
  | Some r => Some r
  | None => app_metadata_role user
  end.

Definition resolveRole (d : Directory) (user : Account) : Attempt (option string) :=
  if isUserRole (fromMetadata user) then Got (fromMetadata user)
  else
    match profile_of d (uid (account_user user)) with
    | ProfileDown message => Crashed message
    | ProfileError message =>
        Thrown {| rejection_status := 500;
                  rejection_message := "Unable to resolve profile role";
                  rejection_details := Some ("hint", message) |}
    | ProfileRole r => Got (if isUserRole r then r else None)
    end.

(** [req.user]: the user of the provider with the resolved role. *)
Record AuthedUser := {
  authed_account : Account;
  authed_role : option string
}.








(** A directory that knows alice as a mentor by the profile alone, bob by
    a role written into bob's own metadata, and nobody else. *)
Definition alice : Account :=
  {| account_user := {| uid := "alice"; email := Some "alice@example.org";
                        metadata_name := Some "Alice" |};
     user_metadata_role := None; app_metadata_role := None |}.

Definition bob : Account :=
  {| account_user := {| uid := "bob"; email := Some "bob@example.org";
                        metadata_name := None |};
     user_metadata_role := Some "mentor"; app_metadata_role := Some "student" |}.


End Auth.

(** ** [routes/sessions.ts] *)

Module Routes.

(** What [schema.parse(req.body ?? {})] comes to: the value the schema
    describes, or the [ZodError] it throws. *)
Inductive Parsed (A : Type) :=
| Valid (a : A)
| Invalid (issues : string).
Arguments Valid {A} a.
Arguments Invalid {A} issues.

(** The value [createSchema] describes. *)
Record CreateBody := {
  body_title : string;
  body_summary : option string;
  body_scheduled_at : option string;
  body_duration_minutes : option N;
  body_allow_collab : option bool;
  body_allow_chat : option bool;
  body_allow_video : option bool;
  body_metadata : option JsonRecord;
  participant_ids : option (list string)
}.

(** The value [permissionSchema] describes. *)
Record PermissionBody := {
  permission_user_id : string;
  body_can_edit : option bool;
  body_can_share_screen : option bool
}.

(** The value the schema of [POST /:id/code] describes. *)
Record CodeBody := {
  body_language : option string;
  body_code : string
}.

(** What is sent with [res.json] or [res.send]. *)
Inductive Body :=
| Sessions (data : list Session)
| OneSession (data : Session)
| SessionId (session_id : string)
| OneParticipant (data : ParticipantRow)
| OkTrue
| NoContent.

(** What [next] is called with. *)
Inductive Failure :=
| Raised (e : Exn)
| ZodError (issues : string).

(** How a request ends: a response with its status, or [next(err)]. *)
Inductive Handled :=
| Responded (status : N) (body : Body)
| Forwarded (err : Failure).

(** A request to one of the routes, with its [:id] and what the schema of
    the route makes of its body.  [instant] is the store's reading of a
    timestamp, for the ordering of [GET /]. *)
Inductive Call :=
| GetRoot (instant : string -> N)
| PostRoot (body : Parsed CreateBody)
| PostJoin (body : Parsed string)
| GetId (id : string)
| PostMessages (id : string) (body : Parsed string)
| PatchId (id : string) (body : Parsed SessionUpdateInput)
| PostKick (id : string) (body : Parsed string)
| PostPermissions (id : string) (body : Parsed PermissionBody)
| PostCode (id : string) (body : Parsed CodeBody).

(** [req.user?.id], when it is there and not empty. *)
Definition user_id (user : option Auth.AuthedUser) : option string :=
  match user with
  | Some u =>
      if Js.truthy (uid (Auth.account_user (Auth.authed_account u)))
      then Some (uid (Auth.account_user (Auth.authed_account u)))
      else None
  | None => None
  end.

(** [req.user.role !== 'mentor']. *)
Definition not_mentor (user : option Auth.AuthedUser) : bool :=
  bool_decide ((user ≫= Auth.authed_role) ≠ Some "mentor").

Definition forward (status : N) (message : string) : M Handled :=
  mret (Forwarded (Raised (http status message None))).

(** [try { ... res.status(status).json(body) } catch (err) { next(err) }]
    around a call to a service. *)
Definition respond {A} (service : M A) (status : N) (body : A -> Body) : M Handled :=
  try_catch (a ← service; mret (Responded status (body a)))
            (fun err => mret (Forwarded (Raised err))).

(** The body of a route once the user is known, by what the schema made
    of the request. *)
Definition parsed {A} (body : Parsed A) (k : A -> M Handled) : M Handled :=
  match body with
  | Invalid issues => mret (Forwarded (ZodError issues))
  | Valid a => k a
  end.

Definition handle (user : option Auth.AuthedUser) (c : Call) : M Handled :=
  match user_id user with
  | None => forward 401 "Not authenticated"
  | Some userId =>
      match c with
      | GetRoot instant =>
          respond (SessionService.listSessionsForUser instant userId) 200 Sessions
      | PostRoot body =>
          if not_mentor user then forward 403 "Only mentors can create sessions"
          else
            parsed body (fun payload =>
              respond
                (SessionService.createSession userId
                   {| in_title := body_title payload;
                      in_summary := body_summary payload;
                      in_scheduled_at := body_scheduled_at payload;
                      in_duration_minutes := body_duration_minutes payload;
                      in_allow_collab := body_allow_collab payload;
                      in_allow_chat := body_allow_chat payload;
                      in_allow_video := body_allow_video payload;
                      in_metadata := body_metadata payload;
                      participantUserIds := participant_ids payload |})
                201 OneSession)
      | PostJoin body =>
          parsed body (fun code =>
            respond (SessionService.joinSessionByCode userId code) 200
              (fun session => SessionId (id session)))
      | GetId sessionId =>
          respond (SessionService.getSessionForUser userId sessionId) 200 OneSession
      | PostMessages sessionId body =>
          parsed body (fun message =>
            respond (SessionService.addSessionMessage sessionId userId message) 201
              (fun _ => OkTrue))
      | PatchId sessionId body =>
          if not_mentor user then forward 403 "Only mentors can update sessions"
          else
            parsed body (fun updates =>
              respond (SessionService.updateSessionSettings userId sessionId updates) 200
                OneSession)
      | PostKick sessionId body =>
          if not_mentor user then forward 403 "Only mentors can manage roster"
          else
            parsed body (fun user_id =>
              respond (SessionService.kickParticipant userId sessionId user_id) 204
                (fun _ => NoContent))
      | PostPermissions sessionId body =>
          if not_mentor user then forward 403 "Only mentors can manage permissions"
          else
            parsed body (fun payload =>
              respond
                (SessionService.updateParticipantPermissions userId sessionId
                   (permission_user_id payload)
                   {| ch_can_edit := body_can_edit payload;
                      ch_can_share_screen := body_can_share_screen payload |})
                200 OneParticipant)
      | PostCode sessionId body =>
          parsed body (fun payload =>
            respond
              (SessionService.addCodeSnapshot sessionId userId (body_code payload)
                 (Js.nullish (body_language payload) "javascript"))
              201 (fun _ => OkTrue))
      end
  end.

(** The routes that ask for the role [mentor], with what they answer to
    anyone else. *)
Definition mentors_only (c : Call) : option string :=
  match c with
  | PostRoot _ => Some "Only mentors can create sessions"
  | PatchId _ _ => Some "Only mentors can update sessions"
  | PostKick _ _ => Some "Only mentors can manage roster"
  | PostPermissions _ _ => Some "Only mentors can manage permissions"
  | _ => None
  end.

(** The [ZodError] of the body of the request, when the schema of the
    route refuses it. *)
Definition refused_body (c : Call) : option string :=
  let issues {A} (body : Parsed A) :=
    match body with
    | Invalid i => Some i
    | Valid _ => None
    end in
  match c with
  | GetRoot _ | GetId _ => None
  | PostRoot body => issues body
  | PostJoin body => issues body
  | PostMessages _ body => issues body
  | PatchId _ body => issues body
  | PostKick _ body => issues body
  | PostPermissions _ body => issues body
  | PostCode _ body => issues body
  end.

End Routes.

(** ** The CORS policy of the server entry point *)

Module Cors.

(** [\d]. *)
Definition is_digit (c : ascii) : bool :=
  let n := N_of_ascii c in (48 <=? n) && (n <=? 57).

(** [(:\d+)?$] at the head of [s]. *)
Definition port_then_end (s : string) : bool :=
  match s with
  | EmptyString => true
  | String c r =>
      Ascii.eqb c ":" && Js.truthy r && forallb is_digit (list_ascii_of_string r)
  end.

(** [(localhost|127\.0\.0\.1)(:\d+)?$] at the head of [s]; the two hosts
    begin differently, so at most one alternative applies. *)
Definition host_then_end (s : string) : bool :=
  match CodeRunner.strip_prefix "localhost" s with
  | Some r => port_then_end r
  | None =>
      match CodeRunner.strip_prefix "127.0.0.1" s with
      | Some r => port_then_end r
      | None => false
      end
  end.

(** [/^https?:\/\/(localhost|127\.0\.0\.1)(:\d+)?$/.test(origin)]; an [s]
    after [http] can only be the optional one, as [:] must follow. *)
Definition is_loopback (origin : string) : bool :=
  match CodeRunner.strip_prefix "http" origin with
  | None => false
  | Some r =>
      let r := match CodeRunner.strip_prefix "s" r with
               | Some r' => r'
               | None => r
               end in
      match CodeRunner.strip_prefix "://" r with
      | Some host => host_then_end host
      | None => false
      end
  end.

(** [callback(null, true)] or [callback(new Error(message))]. *)
Inductive Ruling :=
| Allowed
| Blocked (message : string).

(** The [origin] function of [corsOptions]; [allowedOrigins] is
    [env.cors.allowedOrigins] and [isDev] is [env.nodeEnv !== 'production']. *)
Definition origin (allowedOrigins : list string) (isDev : bool) (o : option string) : Ruling :=
  if Gateway.missing o then Allowed
  else
    let o := Js.nullish o "" in
    if decide (o ∈ allowedOrigins) then Allowed
    else if isDev && is_loopback o then Allowed
    else Blocked ("Origin " +:+ o +:+ " not allowed by CORS").

(** An origin on the machine itself: [http] or [https], [localhost] or
    [127.0.0.1], and a port or none. *)
Definition loopback (o : string) : Prop :=
  exists scheme host port,
    o = scheme +:+ "://" +:+ host +:+ port
    /\ (scheme = "http" \/ scheme = "https")
    /\ (host = "localhost" \/ host = "127.0.0.1")
    /\ (port = ""
        \/ exists number,
             port = ":" +:+ number /\ number <> ""
             /\ forallb is_digit (list_ascii_of_string number) = true).

End Cors.


(** ** Vocabulary of the properties *)

(** The operation fails with the given numeric classification. *)
Definition fails_with {A} (status : N) (r : Completion A) : Prop :=
  exists e, r = Throw e /\ classification e = Some status.

(** The world after the store call at the head of the script. *)
Definition after_call (w : World) : World :=
  {| store := Db.advance (store w); host := host w; net := net w |}.

(** The world with other tables. *)
Definition with_tables (t : Tables) (w : World) : World :=
  {| store := Db.with_tables t (store w); host := host w; net := net w |}.

(** The update supplies no field at all. *)
Definition nothing_supplied (u : SessionUpdateInput) : Prop :=
  up_title u = None /\ up_summary u = None /\ up_scheduled_at u = None
  /\ up_duration_minutes u = None /\ up_status u = None
  /\ up_allow_collab u = None /\ up_allow_chat u = None
  /\ up_allow_video u = None /\ up_metadata u = None.

(** The computation touches nothing but the host: the store and the
    sockets are left as they were. *)
Definition host_only {A} (m : M A) : Prop :=
  forall w, store (m w).2 = store w /\ net (m w).2 = net w.

(** The computation always returns, whatever the world. *)
Definition never_throws {A} (m : M A) : Prop :=
  forall w, exists a, (m w).1 = Return a.

(** The world after the emissions [l]. *)
Definition send (l : list Emission) (w : World) : World :=
  {| store := store w; host := host w;
     net := Gateway.with_outbox (outbox (net w) ++ l) (net w) |}.

(** What the sender of a request gets when it went through: the
    acknowledgment, if one was asked for. *)
Definition approval (sock : Socket) (callback : bool) : list Emission :=
  if callback then [Ack (socket_id sock) AckOk] else [].

(** What the sender of a request gets when it was refused: the failed
    acknowledgment, if one was asked for, and [session:error]. *)
Definition refusal (sock : Socket) (callback : bool) (message : string) : list Emission :=
  (if callback then [Ack (socket_id sock) (AckFailed message)] else [])
  ++ [ToSocket (socket_id sock) "session:error" (SessionError message)].

(** The request was refused: nothing was stored, and all that was emitted
    is the refusal to the sender. *)
Definition refused (sock : Socket) (callback : bool) (w w' : World) : Prop :=
  tables (store w') = tables (store w)
  /\ exists message, outbox (net w') = outbox (net w) ++ refusal sock callback message.

(** The next [n] store calls are served. *)
Definition served (n : nat) (w : World) : Prop :=
  forall i, (i < n)%nat -> Db.scripted i (store w) = None.

(** ** A small deployment, used to run the definitions *)

Module Example.

Definition pairing : SessionRow :=
  {| title := "Pairing hour"; status := live; scheduled_at := None;
     duration_minutes := Some 60; created_by := "alice"; summary := None;
     invite_code := "JOIN-1"; allow_collab := true; allow_chat := true;
     allow_video := true; metadata := ∅ |}.

Definition owner_row : ParticipantRow :=
  {| role := mentor; kicked_at := None; can_edit := true; can_share_screen := true |}.

Definition active_row : ParticipantRow :=
  {| role := student; kicked_at := None; can_edit := true; can_share_screen := false |}.

Definition kicked_row : ParticipantRow :=
  {| role := student; kicked_at := Some 1700; can_edit := false; can_share_screen := false |}.

(** Session [s1] of alice, with bob taking part and carol removed. *)
Definition some_tables : Tables :=
  {| mentorship_sessions := {[ "s1" := pairing ]};
     session_participants :=
       {[ ("s1", "alice") := owner_row; ("s1", "bob") := active_row;
          ("s1", "carol") := kicked_row ]};
     session_messages := [];
     session_code_snapshots := [] |}.

Definition some_schema : Schema :=
  {| default_status := scheduled; default_can_edit := false;
     default_can_share_screen := false |}.

Definition outage : PostgrestError :=
  {| pg_message := "connection refused"; pg_details := ""; pg_hint := "";
     pg_code := "08006" |}.

Definition store_with (script : list (option PostgrestError)) : Store :=
  {| tables := some_tables; schema := some_schema; store_script := script;
     store_fresh := [ {| gen_id := "s2"; gen_invite_code := "JOIN-2" |} ] |}.

Definition host_with (fs : list (option string)) (children : list ExecAnswer) : Host :=
  {| clock := 2000; tmpdirs := ∅; files := ∅; fs_script := fs;
     tmp_suffixes := ["a1b2c3"]; exec_script := children; spawned := [];
     console_error := [] |}.

(** The sockets [k1] of alice, [k2] of bob and [k3] of carol all record [s1]
    and are in its room. *)
Definition some_net : Net :=
  {| slots := {[ "k1" := "s1"; "k2" := "s1"; "k3" := "s1" ]};
     rooms := {[ "session:s1" := {[ "k1"; "k2"; "k3" ]} ]};
     outbox := [] |}.

Definition world_with (script : list (option PostgrestError)) (fs : list (option string))
    (children : list ExecAnswer) : World :=
  {| store := store_with script; host := host_with fs children; net := some_net |}.

Definition calm : World := world_with [] [] [].

Definition bob : Socket :=
  {| socket_id := "k2";
     user := {| uid := "bob"; email := Some "bob@example.org"; metadata_name := None |} |}.

(** A request for a session with the given students and nothing optional. *)
Definition inviting (students : list string) : SessionCreateInput :=
  {| in_title := "Office hours"; in_summary := None; in_scheduled_at := None;
     in_duration_minutes := None; in_allow_collab := None; in_allow_chat := None;
     in_allow_video := None; in_metadata := None;
     participantUserIds := Some students |}.

(** An update that supplies a title and nothing else. *)
Definition rename : SessionUpdateInput :=
  {| up_title := Some "Pairing, renamed"; up_summary := None; up_scheduled_at := None;
     up_duration_minutes := None; up_status := None; up_allow_collab := None;
     up_allow_chat := None; up_allow_video := None; up_metadata := None |}.

Definition hello : ChatIn :=
  {| chat_in_id := None; chat_in_text := Some "hi"; chat_in_time := None |}.

Definition snippet : CodeIn :=
  {| code_in_code := Some "console.log(1)"; code_in_language := None |}.

(** The same deployment before anyone connected. *)
Definition quiet : World :=
  {| store := store_with []; host := host_with [] [];
     net := {| slots := ∅; rooms := ∅; outbox := [] |} |}.

(** Bob joins the room of [s1], and alice then removes bob from the
    session. *)
Definition joined : World := (Gateway.session_join bob (Some "s1") true quiet).2.

Definition removed : World := (SessionService.kickParticipant "alice" "s1" "bob" joined).2.

(** A host on which the directory is made and the write of the source file
    is then refused. *)
Definition disk_full : World :=
  world_with [] [None; Some "ENOSPC: no space left on device, write"] [].

End Example.


(** ** Requests, and what they keep *)

(** Every row of [t] is still in [t'], with its role, and with its removal
    stamp if it had one. *)
Definition participants_kept (t t' : Tables) : Prop :=
  forall k p, session_participants t !! k = Some p ->
    exists p', session_participants t' !! k = Some p'
               /\ role p' = role p
               /\ forall stamp, kicked_at p = Some stamp -> kicked_at p' = Some stamp.

(** Every session of [t] is still in [t'], with its creator and its invite
    code. *)
Definition sessions_kept (t t' : Tables) : Prop :=
  forall s r, mentorship_sessions t !! s = Some r ->
    exists r', mentorship_sessions t' !! s = Some r'
               /\ created_by r' = created_by r
               /\ invite_code r' = invite_code r.

(** Messages and snapshots were only appended. *)
Definition history_kept (t t' : Tables) : Prop :=
  session_messages t `prefix_of` session_messages t'
  /\ session_code_snapshots t `prefix_of` session_code_snapshots t'.

(** No call to come is scripted to fail. *)
Definition unfailing (s : Store) : Prop := forall i, Db.scripted i s = None.

Definition store_evolves (s s' : Store) : Prop :=
  participants_kept (tables s) (tables s')
  /\ sessions_kept (tables s) (tables s')
  /\ history_kept (tables s) (tables s')
  /\ (unfailing s -> unfailing s').

Definition evolves (w w' : World) : Prop := store_evolves (store w) (store w').

(** The computation relates every world to the one it leaves. *)
Definition respects {A} (R : relation World) (m : M A) : Prop :=
  forall w, R w (m w).2.

(** One call to a service or one socket event, with its arguments. *)
Inductive Request :=
| ListSessionsForUser (instant : string -> N) (userId : string)
| EnsureSessionParticipant (userId sessionId : string)
| GetSessionForUser (userId sessionId : string)
| AddSessionMessage (sessionId userId content : string)
| AddCodeSnapshot (sessionId userId code language : string)
| CreateSession (mentorId : string) (input : SessionCreateInput)
| JoinSessionByCode (userId inviteCode : string)
| UpdateSessionSettings (mentorId sessionId : string) (updates : SessionUpdateInput)
| KickParticipant (mentorId sessionId targetUserId : string)
| UpdateParticipantPermissions (mentorId sessionId targetUserId : string)
    (changes : PermissionChanges)
| OnSessionJoin (sock : Socket) (sessionId : option string) (callback : bool)
| OnChatMessage (sock : Socket) (payload : option ChatIn) (callback : bool)
| OnCodeUpdate (sock : Socket) (payload : option CodeIn) (callback : bool)
| OnCodeRun (sock : Socket) (payload : option CodeIn) (callback : bool).

(** The world a request leaves behind, whether it returned or threw. *)
Definition perform (r : Request) (w : World) : World :=
  match r with
  | ListSessionsForUser instant u => (SessionService.listSessionsForUser instant u w).2
  | EnsureSessionParticipant u s => (SessionService.ensureSessionParticipant u s w).2
  | GetSessionForUser u s => (SessionService.getSessionForUser u s w).2
  | AddSessionMessage s u c => (SessionService.addSessionMessage s u c w).2
  | AddCodeSnapshot s u c l => (SessionService.addCodeSnapshot s u c l w).2
  | CreateSession m i => (SessionService.createSession m i w).2
  | JoinSessionByCode u c => (SessionService.joinSessionByCode u c w).2
  | UpdateSessionSettings m s u => (SessionService.updateSessionSettings m s u w).2
  | KickParticipant m s t => (SessionService.kickParticipant m s t w).2
  | UpdateParticipantPermissions m s t c =>
      (SessionService.updateParticipantPermissions m s t c w).2
  | OnSessionJoin sock s cb => (Gateway.session_join sock s cb w).2
  | OnChatMessage sock p cb => (Gateway.chat_message sock p cb w).2
  | OnCodeUpdate sock p cb => (Gateway.code_update sock p cb w).2
  | OnCodeRun sock p cb => (Gateway.code_run sock p cb w).2
  end.

(** A sequence of requests, served one after the other. *)
Definition perform_all (rs : list Request) (w : World) : World :=
  foldl (fun w r => perform r w) w rs.

(** A call to the session service, as opposed to a socket event. *)
Definition service (r : Request) : bool :=
  match r with
  | OnSessionJoin _ _ _ | OnChatMessage _ _ _ | OnCodeUpdate _ _ _ | OnCodeRun _ _ _ => false
  | _ => true
  end.

(** The host and the sockets are as they were. *)
Definition store_only (w w' : World) : Prop := host w' = host w /\ net w' = net w.

(** ** A day of requests, used to run the properties *)

Module Scenario.

(** Alice removes bob, then lifts the permissions of carol, who was removed
    earlier; carol tries to come back by the invite code and through the
    socket; dave joins and erin opens a session of their own. *)
Definition busy_day : list Request :=
  [ KickParticipant "alice" "s1" "bob";
    UpdateParticipantPermissions "alice" "s1" "carol"
      {| ch_can_edit := Some true; ch_can_share_screen := Some true |};
    JoinSessionByCode "carol" "JOIN-1";
    OnSessionJoin
      {| socket_id := "k3";
         user := {| uid := "carol"; email := None; metadata_name := None |} |}
      (Some "s1") true;
    JoinSessionByCode "dave" "JOIN-1";
    UpdateSessionSettings "alice" "s1" Example.rename;
    CreateSession "erin" (Example.inviting ["bob"]);
    OnChatMessage Example.bob (Some Example.hello) false;
    AddSessionMessage "s1" "alice" "welcome";
    AddCodeSnapshot "s1" "dave" "print(1)" "python" ].

End Scenario.

(** ** The executors of [codeRunner.ts], side by side *)

Module Executors.



(** The child the next [execAsync] starts. *)
Definition next_child (h : Host) : ExecAnswer := default Node.idle_child (head (exec_script h)).


Definition in_time (a : ExecAnswer) : Prop := (child_ms a <= CodeRunner.TIMEOUT_MS)%N.

Definition in_buffer (a : ExecAnswer) : Prop :=
  (N.of_nat (String.length (child_stdout a)) <= CodeRunner.MAX_BUFFER)%N
  /\ (N.of_nat (String.length (child_stderr a)) <= CodeRunner.MAX_BUFFER)%N.

(** The child exits with status zero within the limits. *)
Definition ran_well (a : ExecAnswer) : Prop := in_time a /\ in_buffer a /\ exit_ok a = true.

(** The next [n] calls to [fs] are served. *)
Definition disk_served (n : nat) (h : Host) : Prop :=
  forall i, (i < n)%nat -> Node.fs_scripted i h = None.

(** The directory [mkdtemp] is about to make for a prefix under [/tmp]. *)
Definition drawn (prefix : string) (h : Host) : string :=
  Node.path_join Node.tmpdir prefix +:+ default "" (head (tmp_suffixes h)).

(** [stderr.trim() || null]. *)
Definition or_null (s : string) : option string := if Js.truthy s then Some s else None.

(** What a computation leaves of the host, the disk apart. *)
Definition quiet_step (w w1 : World) : Prop :=
  store w1 = store w /\ net w1 = net w
  /\ clock (host w1) = clock (host w) /\ exec_script (host w1) = exec_script (host w)
  /\ spawned (host w1) = spawned (host w) /\ console_error (host w1) = console_error (host w).

(** The labels of the [switch] of [executeCode], each with the executor of
    its case. *)
Definition dispatch : list (string * (string -> M CodeRunner.ExecutionResult)) :=
  [ ("javascript", CodeRunner.executeJavaScript);
    ("typescript", CodeRunner.executeTypeScript);
    ("python", CodeRunner.executePython);
    ("java", CodeRunner.executeJava);
    ("csharp", CodeRunner.executeCSharp);
    ("c#", CodeRunner.executeCSharp);
    ("go", CodeRunner.executeGo) ].

End Executors.

(** ** Words and white space, for [extractJavaClassName] *)

Module Text.

(** Every character of [s] is matched by [\s]. *)
Definition white (s : string) : Prop :=
  forallb Js.is_space (list_ascii_of_string s) = true.

(** Every character of [s] is matched by [\w]. *)
Definition word (s : string) : Prop :=
  forallb CodeRunner.is_word (list_ascii_of_string s) = true.

(** [s] does not go on with a character matched by [\w]. *)
Definition word_ends (s : string) : Prop :=
  match s with
  | EmptyString => True
  | String c _ => CodeRunner.is_word c = false
  end.

End Text.

(** ** A Java program and two hosts, used to run the properties *)

Module JavaRun.

Definition hello : string := "public class Hello { }".

Definition compiled : ExecAnswer :=
  {| exit_ok := true; child_stdout := ""; child_stderr := ""; child_failure := "";
     child_ms := 900 |}.

Definition greeted : ExecAnswer :=
  {| exit_ok := true; child_stdout := "hi"; child_stderr := ""; child_failure := "";
     child_ms := 100 |}.


(** The same, on a disk that refuses the third call, the removal of the
    directory. *)
Definition sticky : World :=
  Example.world_with [] [None; None; Some "EBUSY: resource busy or locked, rmdir"]
    [compiled; greeted].

End JavaRun.


(** * Properties *)

(** The calls to the environment are rewritten by their equations below,
    never unfolded by [simpl]. *)
Arguments on_store : simpl never.
Arguments on_host : simpl never.
Arguments on_net : simpl never.
Arguments Node.Date_now : simpl never.
Arguments after_call : simpl never.
Arguments with_tables : simpl never.

(** ** Store calls *)

Lemma scripted_advance (n : nat) (s : Store) :
  Db.scripted n (Db.advance s) = Db.scripted (S n) s.
Proof.
  unfold Db.scripted, Db.advance. simpl.
  destruct (store_script s) as [|a l]; reflexivity.
Qed.

Lemma served_after_call (n : nat) (w : World) :
  served (S n) w -> served n (after_call w).
Proof.
  intros H i Hi. unfold after_call. simpl. rewrite scripted_advance.
  apply H. lia.
Qed.

Lemma served_head (n : nat) (w : World) :
  served (S n) w -> Db.scripted 0 (store w) = None.
Proof. intros H. apply H. lia. Qed.

Lemma round_trip_served {A} (op : Store -> Reply A * Store) (s : Store) :
  Db.scripted 0 s = None -> Db.round_trip op s = op (Db.advance s).
Proof.
  unfold Db.scripted, Db.round_trip, Db.advance, Db.with_script.
  destruct s as [t sch script fresh]. simpl.
  destruct script as [|[e|] rest]; simpl; intros H; try discriminate; reflexivity.
Qed.

Lemma round_trip_failed {A} (op : Store -> Reply A * Store) (s : Store) (e : PostgrestError) :
  Db.scripted 0 s = Some e -> Db.round_trip op s = (Failed e, Db.advance s).
Proof.
  unfold Db.scripted, Db.round_trip, Db.advance.
  destruct (store_script s) as [|[e'|] rest]; simpl; intros H; try discriminate.
  by injection H as ->.
Qed.

Lemma tables_advance (s : Store) : tables (Db.advance s) = tables s.
Proof. reflexivity. Qed.

(** A call that only reads leaves the tables as they are, whether it is
    served or not. *)
Lemma select_participant_run (s u : string) (w : World) :
  on_store (Db.select_participant s u) w =
  (Return match Db.scripted 0 (store w) with
          | Some e => Failed e
          | None => Served (session_participants (tables (store w)) !! (s, u))
          end, after_call w).
Proof.
  unfold on_store, Db.select_participant.
  destruct (Db.scripted 0 (store w)) as [e|] eqn:E.
  - by rewrite (round_trip_failed _ _ e E).
  - by rewrite (round_trip_served _ _ E).
Qed.

Lemma select_session_run (s : string) (w : World) :
  on_store (Db.select_session s) w =
  (Return match Db.scripted 0 (store w) with
          | Some e => Failed e
          | None =>
              Served ((fun r => Db.view s r (tables (store w)))
                        <$> mentorship_sessions (tables (store w)) !! s)
          end, after_call w).
Proof.
  unfold on_store, Db.select_session.
  destruct (Db.scripted 0 (store w)) as [e|] eqn:E.
  - by rewrite (round_trip_failed _ _ e E).
  - by rewrite (round_trip_served _ _ E).
Qed.

(** ** [ensureSessionParticipant] *)

Lemma ensureSessionParticipant_run (userId sessionId : string) (w : World) :
  SessionService.ensureSessionParticipant userId sessionId w =
  (match Db.scripted 0 (store w) with
   | Some e =>
       Throw (http 500 "Unable to verify session access" (formatPostgrestError (Some e)))
   | None =>
       match session_participants (tables (store w)) !! (sessionId, userId) with
       | None => Throw (http 403 "You are not a participant in this session" None)
       | Some p =>
           match kicked_at p with
           | Some _ => Throw (http 403 "You have been removed from this session" None)
           | None => Return p
           end
       end
   end, after_call w).
Proof.
  unfold SessionService.ensureSessionParticipant, mbind, M_bind.
  rewrite select_participant_run.
  destruct (Db.scripted 0 (store w)); [reflexivity|].
  destruct (session_participants (tables (store w)) !! (sessionId, userId)) as [p|];
    [|reflexivity].
  destruct (kicked_at p); reflexivity.
Qed.

(** C2.  When the store answers the lookup, [ensureSessionParticipant]
    returns the participant exactly when a row exists for the pair with
    [kicked_at] unset; with no row it fails with 403, with a kicked row it
    fails with 403, and the tables, the host and the sockets are left as
    they were. *)
Theorem ensureSessionParticipant_admission (userId sessionId : string) (w : World) :
  served 1 w ->
  let found := session_participants (tables (store w)) !! (sessionId, userId) in
  let out := SessionService.ensureSessionParticipant userId sessionId w in
  (forall p, out.1 = Return p <-> found = Some p /\ kicked_at p = None)
  /\ (found = None -> fails_with 403 out.1)
  /\ (forall p, found = Some p -> kicked_at p <> None -> fails_with 403 out.1)
  /\ tables (store out.2) = tables (store w)
  /\ host out.2 = host w
  /\ net out.2 = net w.
Proof.
  intros Hs found out. subst out found.
  rewrite ensureSessionParticipant_run, (served_head _ _ Hs). simpl.
  destruct (session_participants (tables (store w)) !! (sessionId, userId)) as [p|] eqn:E;
    [destruct (kicked_at p) as [t|] eqn:K|];
    split_and!; try done; unfold fails_with;
    first [ by intros; simplify_eq
          | by intros; eexists; split; reflexivity
          | by split; intros; destruct_and?; simplify_eq ].
Qed.

(** C2 at bob, who takes part in [s1] and is admitted; and at carol, who was
    removed from it and is refused with 403. *)
Lemma ensureSessionParticipant_admission_witness :
  served 1 Example.calm
  /\ (SessionService.ensureSessionParticipant "bob" "s1" Example.calm).1
     = Return Example.active_row
  /\ fails_with 403 (SessionService.ensureSessionParticipant "carol" "s1" Example.calm).1.
Proof.
  assert (H : served 1 Example.calm) by (intros i _; reflexivity).
  split; [exact H|]. split.
  - apply (ensureSessionParticipant_admission "bob" "s1" Example.calm H).
    split; reflexivity.
  - apply (ensureSessionParticipant_admission "carol" "s1" Example.calm H)
      with (p := Example.kicked_row); [reflexivity | discriminate].
Defined.

(** ** [kickParticipant] and [updateParticipantPermissions] *)

Lemma world_eta (w : World) : {| store := store w; host := host w; net := net w |} = w.
Proof. by destruct w. Qed.

Lemma Date_now_run (w : World) : Node.Date_now w = (Return (clock (host w)), w).
Proof. unfold Node.Date_now, on_host. by rewrite world_eta. Qed.

Lemma update_participant_run (s u : string) (only_active : bool) (p : ParticipantPatch) (w : World) :
  on_store (Db.update_participant s u only_active p) w =
  match Db.scripted 0 (store w) with
  | Some e => (Return (Failed e), after_call w)
  | None =>
      match session_participants (tables (store w)) !! (s, u) with
      | Some r =>
          if only_active && bool_decide (is_Some (kicked_at r))
          then (Return (Served None), after_call w)
          else (Return (Served (Some (Db.apply_participant_patch p r))),
                with_tables
                  (Db.with_participants
                     (<[(s, u) := Db.apply_participant_patch p r]>
                        (session_participants (tables (store w))))
                     (tables (store w)))
                  (after_call w))
      | None => (Return (Served None), after_call w)
      end
  end.
Proof.
  unfold on_store, Db.update_participant.
  destruct (Db.scripted 0 (store w)) as [e|] eqn:E.
  - by rewrite (round_trip_failed _ _ e E).
  - rewrite (round_trip_served _ _ E). rewrite tables_advance.
    destruct (session_participants (tables (store w)) !! (s, u)) as [r|]; [|reflexivity].
    destruct (only_active && bool_decide (is_Some (kicked_at r))); reflexivity.
Qed.

Lemma ensureSessionExistsWithOwner_run (sessionId : string) (w : World) :
  SessionService.ensureSessionExistsWithOwner sessionId w =
  (match Db.scripted 0 (store w) with
   | Some e => Throw (http 500 "Unable to load session" (formatPostgrestError (Some e)))
   | None =>
       match mentorship_sessions (tables (store w)) !! sessionId with
       | None => Throw (http 404 "Session not found" None)
       | Some r => Return (Db.view sessionId r (tables (store w)))
       end
   end, after_call w).
Proof.
  unfold SessionService.ensureSessionExistsWithOwner, mbind, M_bind.
  rewrite select_session_run.
  destruct (Db.scripted 0 (store w)); [reflexivity|].
  destruct (mentorship_sessions (tables (store w)) !! sessionId); reflexivity.
Qed.

Lemma is_Some_kicked (p : ParticipantRow) :
  bool_decide (is_Some (kicked_at p)) = false <-> kicked_at p = None.
Proof.
  rewrite bool_decide_eq_false. destruct (kicked_at p); split; try done.
  intros H. destruct H. eauto.
Qed.

(** C4.  With the session in the store and the store answering:
    [kickParticipant] fails with 403 when the caller is not the creator,
    with 400 when the target is the caller, and otherwise succeeds exactly
    on a target row whose [kicked_at] is unset, which it stamps with the
    current time while forcing both permission flags to false; an absent
    row and an already kicked row both give the same 404. *)
Theorem kickParticipant_outcomes (mentorId sessionId targetUserId : string)
    (r : SessionRow) (w : World) :
  served 2 w ->
  mentorship_sessions (tables (store w)) !! sessionId = Some r ->
  let target := session_participants (tables (store w)) !! (sessionId, targetUserId) in
  let out := SessionService.kickParticipant mentorId sessionId targetUserId w in
  (created_by r <> mentorId ->
     fails_with 403 out.1 /\ tables (store out.2) = tables (store w))
  /\ (created_by r = mentorId -> targetUserId = mentorId ->
        fails_with 400 out.1 /\ tables (store out.2) = tables (store w))
  /\ (created_by r = mentorId -> targetUserId <> mentorId ->
        (forall p, target = Some p -> kicked_at p = None ->
           out.1 = Return true
           /\ tables (store out.2) =
              Db.with_participants
                (<[(sessionId, targetUserId) :=
                     {| role := role p; kicked_at := Some (clock (host w));
                        can_edit := false; can_share_screen := false |}]>
                   (session_participants (tables (store w))))
                (tables (store w)))
        /\ (target = None \/ (exists p, target = Some p /\ kicked_at p <> None) ->
              out.1 = Throw (http 404 "Participant not found or already removed" None)
              /\ tables (store out.2) = tables (store w)))
  /\ (forall b, out.1 = Return b ->
        created_by r = mentorId /\ targetUserId <> mentorId
        /\ exists p, target = Some p /\ kicked_at p = None).
Proof.
  intros Hs Hr target out. subst out target.
  unfold SessionService.kickParticipant, mbind, M_bind.
  rewrite ensureSessionExistsWithOwner_run, (served_head _ _ Hs), Hr. cbn.
  destruct (decide (created_by r <> mentorId)) as [Hne|Heq].
  { split_and!; try done. intros _. split; [|done]. eexists. split; reflexivity. }
  apply dec_stable in Heq.
  destruct (decide (targetUserId = mentorId)) as [Ht|Ht].
  { split_and!; try done. intros _ _. split; [|done]. eexists. split; reflexivity. }
  rewrite Date_now_run. cbn. rewrite update_participant_run.
  change (store (after_call w)) with (Db.advance (store w)).
  rewrite scripted_advance, (Hs 1%nat), tables_advance by lia.
  change (host (after_call w)) with (host w).
  destruct (session_participants (tables (store w)) !! (sessionId, targetUserId))
    as [p|] eqn:E; cbn.
  - destruct (bool_decide (is_Some (kicked_at p))) eqn:K; cbn.
    + apply bool_decide_eq_true in K. destruct K as [t K].
      split_and!; try done.
      intros _ _. split; [|done]. intros p' [= <-] K'. congruence.
    + apply is_Some_kicked in K.
      split_and!; try done; [|by eauto].
      intros _ _. split; [by intros p' [= <-] _|].
      intros [[=]|(p' & [= <-] & K')]. done.
  - split_and!; done.
Qed.

(** C4 at alice removing bob from the session [s1] alice created: bob's row
    is stamped and both flags of it are cleared; removing carol, already
    removed, and dave, who never took part, give the same failure. *)
Lemma kickParticipant_outcomes_witness :
  served 2 Example.calm
  /\ mentorship_sessions (tables (store Example.calm)) !! "s1" = Some Example.pairing
  /\ (SessionService.kickParticipant "alice" "s1" "bob" Example.calm).1 = Return true
  /\ (SessionService.kickParticipant "alice" "s1" "carol" Example.calm).1
     = (SessionService.kickParticipant "alice" "s1" "dave" Example.calm).1.
Proof.
  assert (H : served 2 Example.calm) by (intros i _; reflexivity).
  assert (R : mentorship_sessions (tables (store Example.calm)) !! "s1"
              = Some Example.pairing) by reflexivity.
  split; [exact H|]. split; [exact R|]. split.
  - destruct (kickParticipant_outcomes "alice" "s1" "bob" _ _ H R) as (_ & _ & T & _).
    destruct T as [T _]; [reflexivity | discriminate |].
    apply (T Example.active_row); reflexivity.
  - transitivity (@Throw bool (http 404 "Participant not found or already removed" None)).
    + destruct (kickParticipant_outcomes "alice" "s1" "carol" _ _ H R) as (_ & _ & T & _).
      destruct T as [_ T]; [reflexivity | discriminate |].
      apply T. right. exists Example.kicked_row. split; [reflexivity | discriminate].
    + symmetry.
      destruct (kickParticipant_outcomes "alice" "s1" "dave" _ _ H R) as (_ & _ & T & _).
      destruct T as [_ T]; [reflexivity | discriminate |].
      apply T. left. reflexivity.
Defined.

(** C9.  [updateParticipantPermissions] does not look at [kicked_at]: for a
    participant who was removed, a call by the creator of the session that
    supplies at least one flag succeeds, stores the supplied flags (so a flag
    that the removal forced to false becomes true again when [true] is
    supplied), and leaves [kicked_at] and [role] as they were. *)
Theorem updateParticipantPermissions_ignores_removal
    (mentorId sessionId targetUserId : string) (changes : PermissionChanges)
    (r : SessionRow) (p : ParticipantRow) (t : Timestamp) (w : World) :
  served 2 w ->
  mentorship_sessions (tables (store w)) !! sessionId = Some r ->
  created_by r = mentorId ->
  session_participants (tables (store w)) !! (sessionId, targetUserId) = Some p ->
  kicked_at p = Some t ->
  ch_can_edit changes <> None \/ ch_can_share_screen changes <> None ->
  let out :=
    SessionService.updateParticipantPermissions mentorId sessionId targetUserId changes w in
  let p' :=
    {| role := role p; kicked_at := Some t;
       can_edit := Js.nullish (ch_can_edit changes) (can_edit p);
       can_share_screen := Js.nullish (ch_can_share_screen changes) (can_share_screen p) |} in
  out.1 = Return p'
  /\ session_participants (tables (store out.2)) !! (sessionId, targetUserId) = Some p'.
Proof.
  intros Hs Hr Ho Hp Hk Hc out p'. subst out p'.
  unfold SessionService.updateParticipantPermissions, mbind, M_bind.
  rewrite ensureSessionExistsWithOwner_run, (served_head _ _ Hs), Hr. cbn.
  destruct (decide (created_by r <> mentorId)) as [Hne|_]; [done|].
  destruct (decide (length (SessionService.permission_patch_keys
                              (SessionService.permission_patch changes)) = 0%nat))
    as [Hz|_].
  { exfalso. unfold SessionService.permission_patch_keys, SessionService.permission_patch in Hz.
    cbn in Hz. destruct (ch_can_edit changes), (ch_can_share_screen changes);
      cbn in Hz; try discriminate. destruct Hc; done. }
  rewrite update_participant_run.
  change (store (after_call w)) with (Db.advance (store w)).
  rewrite scripted_advance, (Hs 1%nat), tables_advance, Hp by lia. cbn.
  unfold Db.apply_participant_patch. cbn. rewrite Hk.
  split; [reflexivity|].
  unfold with_tables. cbn. by rewrite lookup_insert_eq.
Qed.

(** C9 at carol, removed from [s1] with both flags cleared: alice grants
    carol the right to edit again, and carol is still removed. *)
Lemma updateParticipantPermissions_ignores_removal_witness :
  let out :=
    SessionService.updateParticipantPermissions "alice" "s1" "carol"
      {| ch_can_edit := Some true; ch_can_share_screen := None |} Example.calm in
  served 2 Example.calm
  /\ can_edit Example.kicked_row = false
  /\ session_participants (tables (store out.2)) !! ("s1", "carol")
     = Some {| role := student; kicked_at := Some 1700; can_edit := true;
               can_share_screen := false |}.
Proof.
  assert (H : served 2 Example.calm) by (intros i _; reflexivity).
  split; [exact H|]. split; [reflexivity|].
  apply (updateParticipantPermissions_ignores_removal "alice" "s1" "carol"
           {| ch_can_edit := Some true; ch_can_share_screen := None |}
           Example.pairing Example.kicked_row 1700 Example.calm H);
    [reflexivity | reflexivity | reflexivity | reflexivity | left; discriminate].
Defined.

(** ** [updateSessionSettings] *)

Lemma update_session_run (s owner : string) (p : SessionPatch) (w : World) :
  on_store (Db.update_session s owner p) w =
  match Db.scripted 0 (store w) with
  | Some e => (Return (Failed e), after_call w)
  | None =>
      match mentorship_sessions (tables (store w)) !! s with
      | Some r =>
          if decide (created_by r = owner) then
            let t := Db.with_sessions
                       (<[s := Db.apply_session_patch p r]>
                          (mentorship_sessions (tables (store w))))
                       (tables (store w)) in
            (Return (Served (Some (Db.view s (Db.apply_session_patch p r) t))),
             with_tables t (after_call w))
          else (Return (Served None), after_call w)
      | None => (Return (Served None), after_call w)
      end
  end.
Proof.
  unfold on_store, Db.update_session.
  destruct (Db.scripted 0 (store w)) as [e|] eqn:E.
  - by rewrite (round_trip_failed _ _ e E).
  - rewrite (round_trip_served _ _ E). rewrite tables_advance.
    destruct (mentorship_sessions (tables (store w)) !! s) as [r|]; [|reflexivity].
    destruct (decide (created_by r = owner)); reflexivity.
Qed.

Lemma session_patch_keys_nil (updates : SessionUpdateInput) :
  length (SessionService.session_patch_keys (SessionService.session_patch updates)) = 0%nat
  <-> nothing_supplied updates.
Proof.
  unfold SessionService.session_patch_keys, SessionService.session_patch, nothing_supplied.
  cbn. destruct updates as [a b c d e f g h i]. cbn.
  destruct a, b, c, d, e, f, g, h, i; cbn; split; intros H;
    try discriminate; try (destruct_and?; discriminate); done.
Qed.

(** C5, as the code has it.  [updateSessionSettings] fails with 400 before
    any store call when the update supplies no field.  Otherwise, with the
    session in the store and the store answering: a caller who is not the
    creator fails with 404 (the ownership filter is part of the update, and
    no row matches) and nothing is written; the creator succeeds, and the
    stored row has every supplied field set and every omitted field, the
    creator and the invite code as they were, all other sessions and tables
    being untouched. *)
Theorem updateSessionSettings_outcomes (mentorId sessionId : string)
    (updates : SessionUpdateInput) (r : SessionRow) (w : World) :
  served 1 w ->
  mentorship_sessions (tables (store w)) !! sessionId = Some r ->
  let out := SessionService.updateSessionSettings mentorId sessionId updates w in
  (nothing_supplied updates -> fails_with 400 out.1 /\ out.2 = w)
  /\ (~ nothing_supplied updates -> created_by r <> mentorId ->
        fails_with 404 out.1 /\ tables (store out.2) = tables (store w))
  /\ (~ nothing_supplied updates -> created_by r = mentorId ->
        exists r',
          (exists l, out.1 = Return {| id := sessionId; row := r'; participants := l |})
          /\ tables (store out.2) =
             Db.with_sessions (<[sessionId := r']> (mentorship_sessions (tables (store w))))
               (tables (store w))
          /\ title r' = Js.nullish (up_title updates) (title r)
          /\ summary r' = Js.nullish (up_summary updates) (summary r)
          /\ scheduled_at r' = Js.nullish (up_scheduled_at updates) (scheduled_at r)
          /\ duration_minutes r' = Js.nullish (up_duration_minutes updates) (duration_minutes r)
          /\ status r' = Js.nullish (up_status updates) (status r)
          /\ allow_collab r' = Js.nullish (up_allow_collab updates) (allow_collab r)
          /\ allow_chat r' = Js.nullish (up_allow_chat updates) (allow_chat r)
          /\ allow_video r' = Js.nullish (up_allow_video updates) (allow_video r)
          /\ metadata r' =
             Js.nullish (SessionService.sanitizeMetadata <$> up_metadata updates) (metadata r)
          /\ created_by r' = created_by r
          /\ invite_code r' = invite_code r).
Proof.
  intros Hs Hr out. subst out.
  unfold SessionService.updateSessionSettings.
  destruct (decide (length (SessionService.session_patch_keys
                              (SessionService.session_patch updates)) = 0%nat))
    as [Hz|Hz]; rewrite session_patch_keys_nil in Hz.
  { split_and!; try done. intros _. split; [|done]. eexists. split; reflexivity. }
  unfold mbind, M_bind.
  rewrite update_session_run, (served_head _ _ Hs), Hr.
  destruct (decide (created_by r = mentorId)) as [Ho|Ho]; cbn.
  - split_and!; try done. intros _ _.
    exists (Db.apply_session_patch (SessionService.session_patch updates) r).
    split_and!; try reflexivity. eexists. reflexivity.
  - split_and!; try done. intros _ _. split; [|done]. eexists. split; reflexivity.
Qed.

(** C5 at a rename of [s1]: alice, who created it, changes the title and
    nothing else; bob, who did not, is refused with 404. *)
Lemma updateSessionSettings_outcomes_witness :
  served 1 Example.calm
  /\ mentorship_sessions (tables (store Example.calm)) !! "s1" = Some Example.pairing
  /\ fails_with 404
       (SessionService.updateSessionSettings "bob" "s1" Example.rename Example.calm).1
  /\ exists r',
       mentorship_sessions
         (tables (store (SessionService.updateSessionSettings "alice" "s1" Example.rename
                           Example.calm).2)) !! "s1" = Some r'
       /\ title r' = "Pairing, renamed"
       /\ status r' = live
       /\ duration_minutes r' = Some 60.
Proof.
  assert (H : served 1 Example.calm) by (intros i _; reflexivity).
  assert (R : mentorship_sessions (tables (store Example.calm)) !! "s1"
              = Some Example.pairing) by reflexivity.
  assert (S : ~ nothing_supplied Example.rename) by (intros [? _]; discriminate).
  split; [exact H|]. split; [exact R|]. split.
  - destruct (updateSessionSettings_outcomes "bob" "s1" Example.rename _ _ H R)
      as (_ & T & _).
    apply T; [exact S | discriminate].
  - destruct (updateSessionSettings_outcomes "alice" "s1" Example.rename _ _ H R)
      as (_ & _ & T).
    destruct (T S eq_refl) as (r' & _ & Ht & T1 & _ & _ & T4 & T5 & _).
    exists r'. rewrite Ht. cbn. rewrite lookup_insert_eq.
    split; [reflexivity|]. split; [exact T1|]. split; [exact T5 | exact T4].
Defined.

(** C5 as stated does not hold: a caller who is not the creator of the
    session is not refused with 403. *)
Lemma updateSessionSettings_not_owner_is_not_403 :
  created_by Example.pairing <> "bob"
  /\ mentorship_sessions (tables (store Example.calm)) !! "s1" = Some Example.pairing
  /\ (SessionService.updateSessionSettings "bob" "s1" Example.rename Example.calm).1
     = Throw (http 404 "Session not found or you do not have permission to update it" None)
  /\ ~ fails_with 403
         (SessionService.updateSessionSettings "bob" "s1" Example.rename Example.calm).1.
Proof.
  split; [discriminate|]. split; [reflexivity|]. split; [reflexivity|].
  intros (e & He & Hc). vm_compute in He. injection He as <-. discriminate.
Qed.

(** ** [joinSessionByCode] *)

Lemma NoDup_all_equal {A} (l : list A) (x : A) :
  NoDup l -> x ∈ l -> (forall y, y ∈ l -> y = x) -> l = [x].
Proof.
  destruct l as [|a [|b l]].
  - intros _ H. by apply elem_of_nil in H.
  - intros _ _ H. rewrite (H a); [done | left].
  - intros Hnd _ H. exfalso.
    apply NoDup_cons in Hnd as [Hn _]. apply Hn.
    rewrite (H a), <- (H b); [left | right; left | left].
Qed.

Lemma select_session_by_code_none (c : string) (w : World) :
  Db.scripted 0 (store w) = None ->
  (forall k r, mentorship_sessions (tables (store w)) !! k = Some r -> invite_code r <> c) ->
  on_store (Db.select_session_by_code c) w = (Return (Served None), after_call w).
Proof.
  intros E Hnone. unfold on_store, Db.select_session_by_code.
  rewrite (round_trip_served _ _ E), tables_advance.
  destruct (filter _ _) as [|kv l] eqn:F; [reflexivity|].
  exfalso. assert (H : kv ∈ kv :: l) by left. rewrite <- F in H.
  apply list_elem_of_filter in H as [Hc Hin]. destruct kv as [k r].
  apply elem_of_map_to_list in Hin. exact (Hnone k r Hin Hc).
Qed.

Lemma select_session_by_code_one (c s : string) (r : SessionRow) (w : World) :
  Db.scripted 0 (store w) = None ->
  mentorship_sessions (tables (store w)) !! s = Some r ->
  invite_code r = c ->
  (forall k r', mentorship_sessions (tables (store w)) !! k = Some r' ->
                invite_code r' = c -> k = s) ->
  on_store (Db.select_session_by_code c) w =
  (Return (Served (Some (Db.view s r (tables (store w))))), after_call w).
Proof.
  intros E Hr Hc Huniq. unfold on_store, Db.select_session_by_code.
  rewrite (round_trip_served _ _ E), tables_advance.
  rewrite (NoDup_all_equal _ (s, r)); [reflexivity | | |].
  - apply NoDup_filter, NoDup_map_to_list.
  - apply list_elem_of_filter. split; [exact Hc|]. by apply elem_of_map_to_list.
  - intros [k r'] H. apply list_elem_of_filter in H as [Hc' Hin].
    apply elem_of_map_to_list in Hin. cbn in Hc'.
    assert (k = s) as -> by eauto. congruence.
Qed.

Lemma insert_participants_run (rows : list NewParticipant) (w : World) :
  on_store (Db.insert_participants rows) w =
  match Db.scripted 0 (store w) with
  | Some e => (Return (Failed e), after_call w)
  | None =>
      match Db.add_rows (schema (store w)) rows (session_participants (tables (store w))) with
      | None => (Return (Failed Db.unique_violation), after_call w)
      | Some m =>
          (Return (Served tt),
           with_tables (Db.with_participants m (tables (store w))) (after_call w))
      end
  end.
Proof.
  unfold on_store, Db.insert_participants.
  destruct (Db.scripted 0 (store w)) as [e|] eqn:E.
  - by rewrite (round_trip_failed _ _ e E).
  - rewrite (round_trip_served _ _ E), tables_advance.
    change (schema (Db.advance (store w))) with (schema (store w)).
    destruct (Db.add_rows _ _ _); reflexivity.
Qed.

(** C3.  With the store answering and the invite code naming at most one
    session: [joinSessionByCode] fails with 404 when no session has the
    code and with 400 when the session is completed or cancelled; for an
    open session it returns the session and writes nothing when the user
    already has a row that is not kicked, fails with 403 when that row is
    kicked, and otherwise adds one row for the user, a mentor when the user
    created the session and a student when not. *)
Theorem joinSessionByCode_outcomes (userId inviteCode : string) (w : World) :
  served 3 w ->
  (forall k1 k2 r1 r2,
     mentorship_sessions (tables (store w)) !! k1 = Some r1 ->
     mentorship_sessions (tables (store w)) !! k2 = Some r2 ->
     invite_code r1 = inviteCode -> invite_code r2 = inviteCode -> k1 = k2) ->
  let out := SessionService.joinSessionByCode userId inviteCode w in
  let rows := session_participants (tables (store w)) in
  ((forall k r, mentorship_sessions (tables (store w)) !! k = Some r ->
                invite_code r <> inviteCode) ->
     fails_with 404 out.1 /\ tables (store out.2) = tables (store w))
  /\ (forall s r,
        mentorship_sessions (tables (store w)) !! s = Some r ->
        invite_code r = inviteCode ->
        (status r = completed \/ status r = cancelled ->
           fails_with 400 out.1 /\ tables (store out.2) = tables (store w))
        /\ (status r <> completed -> status r <> cancelled ->
              (forall p, rows !! (s, userId) = Some p -> kicked_at p = None ->
                 (exists l, out.1 = Return {| id := s; row := r; participants := l |})
                 /\ tables (store out.2) = tables (store w))
              /\ (forall p, rows !! (s, userId) = Some p -> kicked_at p <> None ->
                    fails_with 403 out.1 /\ tables (store out.2) = tables (store w))
              /\ (rows !! (s, userId) = None ->
                    (exists l, out.1 = Return {| id := s; row := r; participants := l |})
                    /\ tables (store out.2) =
                       Db.with_participants
                         (<[(s, userId) :=
                              {| role := if decide (userId = created_by r)
                                         then mentor else student;
                                 kicked_at := None;
                                 can_edit := default_can_edit (schema (store w));
                                 can_share_screen :=
                                   default_can_share_screen (schema (store w)) |}]> rows)
                         (tables (store w))))).
Proof.
  intros Hs Huniq out rows. subst out rows.
  unfold SessionService.joinSessionByCode, mbind, M_bind.
  split.
  { intros Hnone.
    rewrite (select_session_by_code_none _ _ (served_head _ _ Hs) Hnone). cbn.
    split; [|done]. eexists. split; reflexivity. }
  intros s r Hr Hc.
  rewrite (select_session_by_code_one _ s r _ (served_head _ _ Hs) Hr Hc)
    by (intros k r' Hk Hc'; exact (Huniq k s r' r Hk Hr Hc' Hc)).
  cbn.
  destruct (decide (status r = completed \/ status r = cancelled)) as [Hst|Hst].
  { split; [|tauto]. intros _. split; [|done]. eexists. split; reflexivity. }
  split; [tauto|]. intros _ _.
  rewrite select_participant_run.
  change (store (after_call w)) with (Db.advance (store w)).
  rewrite scripted_advance, (Hs 1%nat), tables_advance by lia. cbn.
  destruct (session_participants (tables (store w)) !! (s, userId)) as [p|] eqn:E; cbn.
  - destruct (bool_decide (is_Some (kicked_at p))) eqn:K; cbn.
    + apply bool_decide_eq_true in K. destruct K as [t K].
      split_and!; try done.
      * intros p' [= <-] K'. congruence.
      * intros p' [= <-] _. split; [|done]. eexists. split; reflexivity.
    + apply is_Some_kicked in K.
      split_and!; try done.
      * intros p' [= <-] _. split; [|done]. eexists. reflexivity.
      * intros p' [= <-] K'. done.
  - rewrite insert_participants_run.
    change (store (after_call (after_call w))) with (Db.advance (Db.advance (store w))).
    rewrite !scripted_advance, (Hs 2%nat), !tables_advance by lia.
    change (schema (Db.advance (Db.advance (store w)))) with (schema (store w)).
    cbn. unfold Db.row_key. cbn. rewrite E. cbn.
    split_and!; try done.
    intros _. split; [eexists; reflexivity | reflexivity].
Qed.

Lemma calm_sessions (k : string) (r : SessionRow) :
  mentorship_sessions (tables (store Example.calm)) !! k = Some r ->
  k = "s1" /\ r = Example.pairing.
Proof.
  change (mentorship_sessions (tables (store Example.calm)))
    with ({[ "s1" := Example.pairing ]} : gmap string SessionRow).
  intros H. apply lookup_singleton_Some in H as [<- <-]. done.
Qed.

(** C3 at the session [s1], open under the code JOIN-1: dave, who has no
    row, gets a student row; bob, who takes part, is returned the session
    and nothing is written; carol, who was removed, is refused with 403; a
    code no session has is refused with 404. *)
Lemma joinSessionByCode_outcomes_witness :
  served 3 Example.calm
  /\ session_participants
       (tables (store (SessionService.joinSessionByCode "dave" "JOIN-1" Example.calm).2))
     !! ("s1", "dave")
     = Some {| role := student; kicked_at := None; can_edit := false;
               can_share_screen := false |}
  /\ tables (store (SessionService.joinSessionByCode "bob" "JOIN-1" Example.calm).2)
     = tables (store Example.calm)
  /\ fails_with 403 (SessionService.joinSessionByCode "carol" "JOIN-1" Example.calm).1
  /\ fails_with 404 (SessionService.joinSessionByCode "bob" "JOIN-9" Example.calm).1.
Proof.
  assert (H : served 3 Example.calm) by (intros i _; reflexivity).
  assert (U : forall c k1 k2 r1 r2,
             mentorship_sessions (tables (store Example.calm)) !! k1 = Some r1 ->
             mentorship_sessions (tables (store Example.calm)) !! k2 = Some r2 ->
             invite_code r1 = c -> invite_code r2 = c -> k1 = k2).
  { intros c k1 k2 r1 r2 H1 H2 _ _.
    apply calm_sessions in H1 as [-> _]. apply calm_sessions in H2 as [-> _]. done. }
  assert (R : mentorship_sessions (tables (store Example.calm)) !! "s1"
              = Some Example.pairing) by reflexivity.
  split; [exact H|]. split_and!.
  - destruct (joinSessionByCode_outcomes "dave" "JOIN-1" _ H (U _)) as [_ T].
    destruct (T "s1" _ R eq_refl) as [_ T'].
    destruct T' as (_ & _ & T'); [discriminate | discriminate |].
    destruct T' as [_ ->]; [reflexivity|].
    cbn. by rewrite lookup_insert_eq.
  - destruct (joinSessionByCode_outcomes "bob" "JOIN-1" _ H (U _)) as [_ T].
    destruct (T "s1" _ R eq_refl) as [_ T'].
    destruct T' as (T' & _ & _); [discriminate | discriminate |].
    apply (T' Example.active_row); reflexivity.
  - destruct (joinSessionByCode_outcomes "carol" "JOIN-1" _ H (U _)) as [_ T].
    destruct (T "s1" _ R eq_refl) as [_ T'].
    destruct T' as (_ & T' & _); [discriminate | discriminate |].
    apply (T' Example.kicked_row); [reflexivity | discriminate].
  - destruct (joinSessionByCode_outcomes "bob" "JOIN-9" _ H (U _)) as [T _].
    apply T. intros k r Hk. apply calm_sessions in Hk as [_ ->]. discriminate.
Defined.

(** ** [createSession] *)

Lemma elem_of_uniq_from (seen l : list string) (x : string) :
  x ∈ Js.uniq_from seen l <-> x ∈ l /\ x ∉ seen.
Proof.
  revert seen. induction l as [|a l IH]; intros seen; cbn.
  - rewrite !elem_of_nil. tauto.
  - destruct (decide (a ∈ seen)) as [Ha|Ha].
    + rewrite IH, elem_of_cons. split; [tauto|].
      intros [[->|?] ?]; tauto.
    + rewrite !elem_of_cons, IH, elem_of_cons.
      destruct (decide (x = a)) as [->|Hne]; tauto.
Qed.

Lemma NoDup_uniq_from (seen l : list string) : NoDup (Js.uniq_from seen l).
Proof.
  revert seen. induction l as [|a l IH]; intros seen; cbn.
  - constructor.
  - destruct (decide (a ∈ seen)); [apply IH|].
    apply NoDup_cons. split; [|apply IH].
    rewrite elem_of_uniq_from, elem_of_cons. tauto.
Qed.

(** The students of a new session: each requested id that is neither empty
    nor the creator's, once. *)
Lemma uniqueStudentIds_spec (mentorId : string) (input : SessionCreateInput) :
  NoDup (SessionService.uniqueStudentIds mentorId input)
  /\ forall u, u ∈ SessionService.uniqueStudentIds mentorId input
               <-> u ∈ Js.nullish (participantUserIds input) [] /\ u <> "" /\ u <> mentorId.
Proof.
  unfold SessionService.uniqueStudentIds, Js.uniq. split; [apply NoDup_uniq_from|].
  intros u. rewrite elem_of_uniq_from, list_elem_of_filter, elem_of_nil.
  destruct u; cbn; split; intros H; destruct_and?; split_and?; try done; tauto.
Qed.

Lemma add_rows_Some (sch : Schema) (rows : list NewParticipant)
    (m m' : gmap (string * string) ParticipantRow) :
  Db.add_rows sch rows m = Some m' ->
  NoDup (Db.row_key <$> rows)
  /\ (forall p, p ∈ rows ->
        m !! Db.row_key p = None /\ m' !! Db.row_key p = Some (Db.materialise sch p))
  /\ (forall k, k ∉ Db.row_key <$> rows -> m' !! k = m !! k)
  /\ size m' = (size m + length rows)%nat.
Proof.
  revert m. induction rows as [|p rest IH]; intros m; cbn.
  - intros [= <-]. split_and!; try done; try lia.
    + constructor.
    + intros q H. by apply elem_of_nil in H.
  - destruct (m !! Db.row_key p) eqn:E; [discriminate|]. intros H.
    destruct (IH _ H) as (Hnd & Hin & Hout & Hsize).
    assert (Hfresh : Db.row_key p ∉ Db.row_key <$> rest).
    { intros Hk. apply list_elem_of_fmap in Hk as (q & Hq & Hqin).
      destruct (Hin q Hqin) as [Hnone _]. rewrite <- Hq, lookup_insert_eq in Hnone.
      discriminate. }
    split_and!.
    + by apply NoDup_cons.
    + intros q Hq. apply elem_of_cons in Hq as [->|Hq].
      * split; [exact E|]. by rewrite (Hout _ Hfresh), lookup_insert_eq.
      * destruct (Hin q Hq) as [Hnone Hsome]. split; [|exact Hsome].
        rewrite lookup_insert in Hnone. by case_decide.
    + intros k Hk. rewrite not_elem_of_cons in Hk. destruct Hk as [Hne Hk].
      by rewrite (Hout k Hk), lookup_insert_ne.
    + rewrite Hsize, map_size_insert_None by done. lia.
Qed.

Lemma insert_session_served (p : SessionPayload) (w w1 : World) (session : Session) :
  on_store (Db.insert_session p) w = (Return (Served session), w1) ->
  mentorship_sessions (tables (store w)) !! id session = None
  /\ tables (store w1) =
     Db.with_sessions (<[id session := row session]> (mentorship_sessions (tables (store w))))
       (tables (store w))
  /\ created_by (row session) = new_created_by p
  /\ schema (store w1) = schema (store w)
  /\ (forall n, Db.scripted n (store w1) = Db.scripted (S n) (store w))
  /\ host w1 = host w /\ net w1 = net w.
Proof.
  unfold on_store, Db.insert_session.
  destruct (Db.scripted 0 (store w)) as [e|] eqn:E.
  { rewrite (round_trip_failed _ _ e E). discriminate. }
  rewrite (round_trip_served _ _ E).
  change (store_fresh (Db.advance (store w))) with (store_fresh (store w)).
  destruct (store_fresh (store w)) as [|g rest]; [discriminate|]. cbn.
  destruct (mentorship_sessions (tables (store w)) !! gen_id g) eqn:F; [discriminate|].
  intros [= <- <-]. cbn. split_and!; try done.
  intros n. apply scripted_advance.
Qed.

Lemma delete_session_run (s : string) (w : World) :
  on_store (Db.delete_session s) w =
  match Db.scripted 0 (store w) with
  | Some e => (Return (Failed e), after_call w)
  | None =>
      (Return (Served tt),
       with_tables
         (Db.with_sessions (delete s (mentorship_sessions (tables (store w))))
            (tables (store w)))
         (after_call w))
  end.
Proof.
  unfold on_store, Db.delete_session.
  destruct (Db.scripted 0 (store w)) as [e|] eqn:E.
  - by rewrite (round_trip_failed _ _ e E).
  - by rewrite (round_trip_served _ _ E).
Qed.

Lemma participantRows_keys (s mentorId : string) (students : list string) :
  Db.row_key <$> SessionService.participantRows s mentorId students
  = (s, mentorId) :: ((fun u => (s, u)) <$> students).
Proof.
  unfold SessionService.participantRows. cbn. f_equal.
  by rewrite <- list_fmap_compose.
Qed.

(** What the failure path of [createSession] leaves behind: it throws, and
    when the compensating delete is served the tables are those from before
    the session was inserted. *)
Lemma createSession_rollback (session : Session) (e : option PostgrestError) (w w1 : World) :
  mentorship_sessions (tables (store w)) !! id session = None ->
  tables (store w1) =
    Db.with_sessions (<[id session := row session]> (mentorship_sessions (tables (store w))))
      (tables (store w)) ->
  let out :=
    (_ ← on_store (Db.delete_session (id session));
     throw (http 500 "Unable to attach participants" e) : M Session) w1 in
  out.1 = Throw (http 500 "Unable to attach participants" e)
  /\ (Db.scripted 0 (store w1) = None -> tables (store out.2) = tables (store w))
  /\ (Db.scripted 0 (store w1) <> None -> tables (store out.2) = tables (store w1)).
Proof.
  intros Hfresh Ht out. subst out. unfold mbind, M_bind.
  rewrite delete_session_run.
  destruct (Db.scripted 0 (store w1)) as [e'|]; cbn; split_and!; try done.
  intros _. unfold with_tables. cbn. rewrite Ht. cbn.
  rewrite delete_insert_id by done. by destruct (tables (store w)).
Qed.

Arguments SessionService.participantRows : simpl never.

Lemma insert_participants_failed (rows : list NewParticipant) (e : PostgrestError)
    (w w' : World) :
  on_store (Db.insert_participants rows) w = (Return (Failed e), w') -> w' = after_call w.
Proof.
  rewrite insert_participants_run.
  destruct (Db.scripted 0 (store w)); [by intros [= _ <-]|].
  destruct (Db.add_rows _ _ _); [discriminate | by intros [= _ <-]].
Qed.

(** C1, as the code has it.  A successful [createSession] has stored a new
    session row created by the caller, a mentor row for the caller with
    [can_edit] and [can_share_screen] set, one student row for each
    requested id that is neither empty nor the caller's own, duplicates
    counted once, and has touched no other participant row.  When the
    session row was stored and the insertion of the participants then
    fails, [createSession] fails with 500, and if the compensating delete is
    served the tables are those from before the call: the session row is
    gone. *)
Theorem createSession_outcomes (mentorId : string) (input : SessionCreateInput) (w : World) :
  let out := SessionService.createSession mentorId input w in
  let before := tables (store w) in
  let after := tables (store out.2) in
  let students := SessionService.uniqueStudentIds mentorId input in
  (forall session, out.1 = Return session ->
     mentorship_sessions before !! id session = None
     /\ mentorship_sessions after = <[id session := row session]> (mentorship_sessions before)
     /\ created_by (row session) = mentorId
     /\ session_participants after !! (id session, mentorId)
        = Some {| role := mentor; kicked_at := None; can_edit := true;
                  can_share_screen := true |}
     /\ (forall u, u ∈ Js.nullish (participantUserIds input) [] -> u <> "" -> u <> mentorId ->
           session_participants after !! (id session, u)
           = Some {| role := student; kicked_at := None;
                     can_edit := default_can_edit (schema (store w));
                     can_share_screen := default_can_share_screen (schema (store w)) |})
     /\ (forall s u, s <> id session \/ (u <> mentorId /\ u ∉ students) ->
           session_participants after !! (s, u) = session_participants before !! (s, u))
     /\ NoDup students
     /\ (forall u, u ∈ students
                   <-> u ∈ Js.nullish (participantUserIds input) [] /\ u <> "" /\ u <> mentorId)
     /\ size (session_participants after)
        = (size (session_participants before) + 1 + length students)%nat)
  /\ (forall session e w1 w2,
        on_store (Db.insert_session (SessionService.sessionPayload mentorId input)) w
        = (Return (Served session), w1) ->
        on_store (Db.insert_participants
                    (SessionService.participantRows (id session) mentorId students)) w1
        = (Return (Failed e), w2) ->
        fails_with 500 out.1
        /\ (Db.scripted 0 (store w2) = None ->
              after = before /\ mentorship_sessions after !! id session = None)).
Proof.
  intros out before after students. subst out before after students.
  destruct (uniqueStudentIds_spec mentorId input) as [Hnd Hmem].
  unfold SessionService.createSession, mbind, M_bind.
  destruct (on_store (Db.insert_session _) w) as [c w1] eqn:E1.
  destruct c as [[session|e]|ex]; cbn.
  3: { exfalso. unfold on_store in E1. destruct (Db.insert_session _ _). discriminate. }
  2: { split; [intros ? [=] | intros ? ? ? ? [=]]. }
  pose proof (insert_session_served _ _ _ _ E1) as (Hfresh & Ht1 & Hcb & Hsch & Hscr & _ & _).
  cbn in Hcb.
  destruct (on_store (Db.insert_participants _) w1) as [c w2] eqn:E2.
  destruct c as [[[]|e]|ex]; cbn.
  3: { exfalso. unfold on_store in E2. destruct (Db.insert_participants _ _). discriminate. }
  - (* both inserts went through *)
    split; [|intros ? ? ? ? [= <- <-]; rewrite E2; discriminate].
    intros s [= <-].
    rewrite insert_participants_run in E2.
    destruct (Db.scripted 0 (store w1)); [discriminate|].
    destruct (Db.add_rows _ _ _) as [m|] eqn:A; [|discriminate].
    injection E2 as <-.
    rewrite Ht1, Hsch in A. cbn in A.
    apply add_rows_Some in A as (_ & Hin & Hout & Hsize).
    unfold with_tables. cbn. rewrite Ht1. cbn.
    rewrite participantRows_keys in Hout.
    split_and!; try done.
    + apply (Hin {| new_session_id := id session; new_user_id := mentorId;
                    new_role := mentor; new_can_edit := Some true;
                    new_can_share_screen := Some true |}). left.
    + intros u Hu Hne Hnm.
      apply (Hin {| new_session_id := id session; new_user_id := u; new_role := student;
                    new_can_edit := None; new_can_share_screen := None |}).
      right. apply list_elem_of_fmap. exists u. split; [done|]. apply Hmem. done.
    + intros s u Hsu. apply Hout. rewrite not_elem_of_cons, list_elem_of_fmap.
      split.
      * intros [= -> ->]. destruct Hsu as [?|[? _]]; done.
      * intros (u' & [= -> <-] & Hin'). destruct Hsu as [?|[_ ?]]; done.
    + rewrite Hsize. unfold SessionService.participantRows. cbn.
      rewrite length_fmap. lia.
  - (* the participants were refused *)
    pose proof (insert_participants_failed _ _ _ _ E2) as ->.
    destruct (createSession_rollback session (formatPostgrestError (Some e)) w
                (after_call w1) Hfresh Ht1) as (Hthrow & Hgone & _).
    unfold mbind, M_bind in Hthrow, Hgone. cbn in Hthrow, Hgone |- *.
    split; [intros s Hs; rewrite Hthrow in Hs; discriminate|].
    intros s' e' w1' w2' [= <- <-]. rewrite E2. intros [= <- <-].
    split; [rewrite Hthrow; eexists; split; reflexivity|].
    intros Hserved. rewrite (Hgone Hserved). done.
Qed.

(** C1 at erin opening a session for bob, erin, bob again and dave: erin
    is its mentor with both flags set, bob and dave are its two students;
    and at a store that refuses the participants and then serves the
    delete: the tables are back to what they were. *)
Lemma createSession_outcomes_witness :
  let out :=
    SessionService.createSession "erin" (Example.inviting ["bob"; "erin"; "bob"; "dave"])
      Example.calm in
  let refused := Example.world_with [None; Some Example.outage] [] [] in
  let back := SessionService.createSession "erin" (Example.inviting ["bob"]) refused in
  session_participants (tables (store out.2)) !! ("s2", "erin") = Some Example.owner_row
  /\ session_participants (tables (store out.2)) !! ("s2", "dave")
     = Some {| role := student; kicked_at := None; can_edit := false;
               can_share_screen := false |}
  /\ size (session_participants (tables (store out.2))) = 6%nat
  /\ fails_with 500 back.1
  /\ tables (store back.2) = tables (store refused).
Proof.
  cbv zeta.
  destruct (createSession_outcomes "erin" (Example.inviting ["bob"; "erin"; "bob"; "dave"])
              Example.calm) as [T _].
  destruct (T _ eq_refl) as (_ & _ & _ & T1 & T2 & _ & _ & _ & T3).
  split; [exact T1|]. split.
  - apply (T2 "dave"); [|discriminate|discriminate].
    cbn. apply list_elem_of_In. cbn. tauto.
  - split; [rewrite T3; reflexivity|].
    destruct (createSession_outcomes "erin" (Example.inviting ["bob"])
                (Example.world_with [None; Some Example.outage] [] [])) as [_ T'].
    edestruct (T' _ Example.outage _ _ eq_refl eq_refl) as [T0 T''].
    split; [exact T0|]. apply T''. reflexivity.
Defined.

(** C1 as stated does not hold.  An empty string among the requested ids is
    neither the creator's id nor a duplicate, and gets no row.  And when the
    store refuses the participants and then the compensating delete as
    well, [createSession] fails and the session row is still there. *)
Lemma createSession_falls_short :
  let out := SessionService.createSession "erin" (Example.inviting [""]) Example.calm in
  let down := Example.world_with [None; Some Example.outage; Some Example.outage] [] [] in
  let left_over := SessionService.createSession "erin" (Example.inviting ["bob"]) down in
  ((exists session, out.1 = Return session /\ id session = "s2")
   /\ "" ∈ Js.nullish (participantUserIds (Example.inviting [""])) []
   /\ "" <> "erin"
   /\ session_participants (tables (store out.2)) !! ("s2", "") = None)
  /\ (mentorship_sessions (tables (store down)) !! "s2" = None
      /\ (exists d, left_over.1 = Throw (http 500 "Unable to attach participants" d))
      /\ is_Some (mentorship_sessions (tables (store left_over.2)) !! "s2")).
Proof.
  cbv zeta. split.
  - split; [eexists; split; reflexivity|].
    split; [cbn; left|]. split; [discriminate | reflexivity].
  - split; [reflexivity|]. split; [eexists; reflexivity|].
    eexists. reflexivity.
Qed.

(** ** [executeCode] *)

Arguments CodeRunner.executeJavaScript : simpl never.
Arguments CodeRunner.executeTypeScript : simpl never.
Arguments CodeRunner.executePython : simpl never.
Arguments CodeRunner.executeJava : simpl never.
Arguments CodeRunner.executeCSharp : simpl never.
Arguments CodeRunner.executeGo : simpl never.

Lemma try_catch_never_throws {A} (body : M A) (handler : Exn -> M A) :
  (forall e, never_throws (handler e)) -> never_throws (try_catch body handler).
Proof.
  intros H w. unfold try_catch.
  destruct (body w) as [[a|e] w']; [by exists a | apply H].
Qed.

Lemma try_finally_nothing {A} (body : M A) (w : World) :
  try_finally body (mret tt) w = body w.
Proof. unfold try_finally. by destruct (body w). Qed.

(** Whatever its body does, [executeCode] catches it: the handler of its
    [catch] builds a result, and its [finally] has nothing to run because
    [filePath] is never assigned. *)
Lemma executeCode_never_throws (code language : string) :
  never_throws (CodeRunner.executeCode code language).
Proof.
  intros w. unfold CodeRunner.executeCode, mbind, M_bind.
  rewrite Date_now_run. cbn. rewrite try_finally_nothing.
  apply try_catch_never_throws. intros e w'.
  rewrite Date_now_run. cbn. eauto.
Qed.




(** ** The working directory of [executeJavaScript] *)

Lemma list_ascii_of_string_app (a b : string) :
  list_ascii_of_string (a +:+ b) = list_ascii_of_string a ++ list_ascii_of_string b.
Proof. induction a as [|c a IH]; simpl; [done | by rewrite IH]. Qed.

Lemma dirname_of_source_file (dir : string) :
  Node.dirname (Node.path_join dir "code.js") = dir.
Proof.
  unfold Node.dirname, Node.path_join.
  rewrite list_ascii_of_string_app, rev_app_distr.
  change (rev (list_ascii_of_string ("/" +:+ "code.js")))
    with (list_ascii_of_string "sj.edoc/").
  cbn. by rewrite rev_involutive, string_of_list_ascii_of_string.
Qed.

Lemma remove_added (d : string) (T : gset string) :
  d ∉ T -> ({[d]} ∪ T) ∖ {[d]} = T.
Proof.
  intros H. apply set_eq. intros x.
  rewrite elem_of_difference, elem_of_union, !elem_of_singleton.
  split; [intros [[->|?] ?]; done|].
  intros Hx. split; [by right | by intros ->].
Qed.

Lemma fs_call_served (h : Host) :
  Node.fs_scripted 0 h = None ->
  exists h0, (forall A (op : Host -> Completion A * Host), Node.fs_call op h = op h0)
             /\ tmpdirs h0 = tmpdirs h /\ spawned h0 = spawned h
             /\ tmp_suffixes h0 = tmp_suffixes h
             /\ forall n, Node.fs_scripted n h0 = Node.fs_scripted (S n) h.
Proof.
  unfold Node.fs_scripted, Node.fs_call.
  destruct (fs_script h) as [|[m|] rest] eqn:E; cbn; intros H; try discriminate.
  - exists h. split_and!; try done. rewrite E. intros n. by destruct n.
  - eexists. split; [reflexivity|]. cbn. done.
Qed.

Lemma mkdtemp_served (prefix : string) (w : World) :
  Node.fs_scripted 0 (host w) = None ->
  prefix +:+ default "" (head (tmp_suffixes (host w))) ∉ tmpdirs (host w) ->
  exists w1,
    Node.mkdtemp prefix w
    = (Return (prefix +:+ default "" (head (tmp_suffixes (host w)))), w1)
    /\ tmpdirs (host w1)
       = {[ prefix +:+ default "" (head (tmp_suffixes (host w))) ]} ∪ tmpdirs (host w)
    /\ spawned (host w1) = spawned (host w)
    /\ forall n, Node.fs_scripted n (host w1) = Node.fs_scripted (S n) (host w).
Proof.
  intros Hs Hfree. unfold Node.mkdtemp, on_host.
  destruct (fs_call_served (host w) Hs) as (h0 & Hcall & Hd & Hsp & Hsfx & Hscr).
  rewrite Hcall. rewrite <- Hsfx, <- Hd in Hfree. rewrite <- Hsfx, <- Hd, <- Hsp.
  destruct (tmp_suffixes h0) as [|sfx rest]; cbn in *;
    (destruct (decide _) as [Hin|_]; [done|]);
    eexists; (split; [reflexivity|]); cbn; split_and!; done.
Qed.

Lemma writeFile_served (p data : string) (w : World) :
  Node.fs_scripted 0 (host w) = None ->
  Node.dirname p ∈ tmpdirs (host w) ->
  exists w1,
    Node.writeFile p data w = (Return tt, w1)
    /\ tmpdirs (host w1) = tmpdirs (host w)
    /\ spawned (host w1) = spawned (host w)
    /\ forall n, Node.fs_scripted n (host w1) = Node.fs_scripted (S n) (host w).
Proof.
  intros Hs Hin. unfold Node.writeFile, on_host.
  destruct (fs_call_served (host w) Hs) as (h0 & Hcall & Hd & Hsp & _ & Hscr).
  rewrite Hcall. rewrite <- Hd in Hin. rewrite <- Hd, <- Hsp.
  destruct (decide _) as [_|Hn]; [|done].
  eexists. split; [reflexivity|]. cbn. done.
Qed.

Lemma rm_served (dir : string) (w : World) :
  Node.fs_scripted 0 (host w) = None ->
  exists w1,
    Node.rm dir w = (Return tt, w1)
    /\ tmpdirs (host w1) = tmpdirs (host w) ∖ {[dir]}
    /\ spawned (host w1) = spawned (host w).
Proof.
  intros Hs. unfold Node.rm, on_host.
  destruct (fs_call_served (host w) Hs) as (h0 & Hcall & Hd & Hsp & _ & _).
  rewrite Hcall. rewrite <- Hd, <- Hsp. eexists. split; [reflexivity|]. cbn. done.
Qed.

Lemma execAsync_frame (command : string) (timeout maxBuffer : N) (w : World) :
  let out := Node.execAsync command timeout maxBuffer w in
  tmpdirs (host out.2) = tmpdirs (host w)
  /\ spawned (host out.2) = spawned (host w) ++ [command]
  /\ forall n, Node.fs_scripted n (host out.2) = Node.fs_scripted n (host w).
Proof.
  cbv zeta. unfold Node.execAsync, on_host.
  destruct (exec_script (host w)) as [|a r]; cbn;
    repeat (case_match; cbn); simplify_eq; cbn; done.
Qed.

Lemma finished_run (startTime : Timestamp) (streams : string * string) (w : World) :
  exists r, CodeRunner.finished startTime streams w = (Return r, w).
Proof.
  unfold CodeRunner.finished, mbind, M_bind. rewrite Date_now_run. cbn. eauto.
Qed.

Lemma failed_run (startTime : Timestamp) (err : Exn) (w : World) :
  exists r, CodeRunner.failed startTime err w = (Return r, w).
Proof.
  unfold CodeRunner.failed, mbind, M_bind. rewrite Date_now_run.
  destruct err; cbn; eauto.
Qed.

(** Once the source file is written, the directory does not outlive the
    call: whether the child exits, fails, overruns its buffer or is killed
    at the timeout, [executeJavaScript] returns a result and the temporary
    directories are those from before the call, provided the three calls to
    [fs] are served and the drawn name is free. *)
Lemma executeJavaScript_cleans_up (code : string) (w : World) :
  (forall i, (i < 3)%nat -> Node.fs_scripted i (host w) = None) ->
  "/tmp/code-exec-" +:+ default "" (head (tmp_suffixes (host w))) ∉ tmpdirs (host w) ->
  let out := CodeRunner.executeJavaScript code w in
  (exists r, out.1 = Return r)
  /\ tmpdirs (host out.2) = tmpdirs (host w)
  /\ length (spawned (host out.2)) = S (length (spawned (host w))).
Proof.
  intros Hfs Hfree. cbv zeta.
  unfold CodeRunner.executeJavaScript, CodeRunner.createTempFile, mbind, M_bind.
  rewrite Date_now_run.
  destruct (mkdtemp_served (Node.path_join Node.tmpdir "code-exec-") w
              (Hfs 0%nat ltac:(lia)) Hfree) as (w1 & -> & Hd1 & Hsp1 & Hscr1).
  set (dir := Node.path_join Node.tmpdir "code-exec-"
              +:+ default "" (head (tmp_suffixes (host w)))) in *.
  change ("code" +:+ ".js") with "code.js".
  destruct (writeFile_served (Node.path_join dir "code.js") code w1)
    as (w2 & -> & Hd2 & Hsp2 & Hscr2).
  { rewrite Hscr1. apply Hfs. lia. }
  { rewrite (dirname_of_source_file dir), Hd1.
    apply elem_of_union. left. by apply elem_of_singleton. }
  unfold CodeRunner.cleanupTempFile, mret, M_ret, try_finally, try_catch.
  cbv beta iota. rewrite (dirname_of_source_file dir).
  destruct (execAsync_frame ("node " +:+ CodeRunner.quoted (Node.path_join dir "code.js"))
              CodeRunner.TIMEOUT_MS CodeRunner.MAX_BUFFER w2) as (Hd3 & Hsp3 & Hscr3).
  destruct (Node.execAsync _ _ _ w2) as [[streams|err] w3]; cbn in Hd3, Hsp3, Hscr3.
  - destruct (finished_run (clock (host w)) streams w3) as [r ->].
    cbv beta iota.
    destruct (rm_served dir w3) as (w4 & -> & Hd4 & Hsp4).
    { rewrite Hscr3, Hscr2, Hscr1. apply Hfs. lia. }
    cbn. split; [eauto|]. rewrite Hd4, Hd3, Hd2, Hd1, Hsp4, Hsp3, Hsp2, Hsp1.
    split; [by apply remove_added | rewrite length_app; cbn; lia].
  - destruct (failed_run (clock (host w)) err w3) as [r ->].
    cbv beta iota.
    destruct (rm_served dir w3) as (w4 & -> & Hd4 & Hsp4).
    { rewrite Hscr3, Hscr2, Hscr1. apply Hfs. lia. }
    cbn. split; [eauto|]. rewrite Hd4, Hd3, Hd2, Hd1, Hsp4, Hsp3, Hsp2, Hsp1.
    split; [by apply remove_added | rewrite length_app; cbn; lia].
Qed.

(** C6 fails on the code.  When the directory has been made and the write
    of the source file is refused, [executeCode] returns the failure as a
    result, starts no child, and the directory is still there: the
    [finally] of [executeJavaScript] is not reached, because
    [createTempFile] is called before its [try], and the [finally] of
    [executeCode] has no path to clean. *)
Lemma executeCode_leaves_directory_behind :
  let out := CodeRunner.executeCode "console.log(1)" "javascript" Example.disk_full in
  tmpdirs (host Example.disk_full) = ∅
  /\ out.1 = Return {| CodeRunner.output := "";
                       CodeRunner.error := Some "ENOSPC: no space left on device, write";
                       CodeRunner.executionTime := 0 |}
  /\ spawned (host out.2) = []
  /\ tmpdirs (host out.2) = {[ "/tmp/code-exec-a1b2c3" ]}.
Proof. cbv zeta. split_and!; reflexivity. Qed.

(** ** The handlers of [chat:message] and [code:update] *)

Lemma insert_message_run (r : MessageRow) (w : World) :
  on_store (Db.insert_message r) w =
  match Db.scripted 0 (store w) with
  | Some e => (Return (Failed e), after_call w)
  | None =>
      (Return (Served tt),
       with_tables (Db.with_messages (session_messages (tables (store w)) ++ [r])
                      (tables (store w)))
         (after_call w))
  end.
Proof.
  unfold on_store, Db.insert_message.
  destruct (Db.scripted 0 (store w)) as [e|] eqn:E.
  - by rewrite (round_trip_failed _ _ e E).
  - by rewrite (round_trip_served _ _ E).
Qed.

Lemma insert_snapshot_run (r : SnapshotRow) (w : World) :
  on_store (Db.insert_snapshot r) w =
  match Db.scripted 0 (store w) with
  | Some e => (Return (Failed e), after_call w)
  | None =>
      (Return (Served tt),
       with_tables (Db.with_snapshots (session_code_snapshots (tables (store w)) ++ [r])
                      (tables (store w)))
         (after_call w))
  end.
Proof.
  unfold on_store, Db.insert_snapshot.
  destruct (Db.scripted 0 (store w)) as [e|] eqn:E.
  - by rewrite (round_trip_failed _ _ e E).
  - by rewrite (round_trip_served _ _ E).
Qed.

(** [addSessionMessage] either stores the message and returns, or throws
    an [HttpError] and stores nothing; it touches neither host nor sockets. *)
Lemma addSessionMessage_outcome (sessionId userId text : string) (w : World) :
  let out := SessionService.addSessionMessage sessionId userId text w in
  host out.2 = host w /\ net out.2 = net w
  /\ ((out.1 = Return tt
       /\ tables (store out.2) =
          Db.with_messages
            (session_messages (tables (store w))
             ++ [ {| message_session_id := sessionId; message_author_id := userId;
                     content := text |} ])
            (tables (store w)))
      \/ ((exists h, out.1 = Throw (Http h)) /\ tables (store out.2) = tables (store w))).
Proof.
  cbv zeta. unfold SessionService.addSessionMessage, mbind, M_bind.
  rewrite ensureSessionParticipant_run.
  destruct (Db.scripted 0 (store w)); [by split_and!; try right; eauto|].
  destruct (session_participants (tables (store w)) !! (sessionId, userId)) as [p|];
    [|by split_and!; try right; eauto].
  destruct (kicked_at p); [by split_and!; try right; eauto|].
  rewrite insert_message_run.
  destruct (Db.scripted 0 (store (after_call w))); cbn;
    split_and!; try done; [right | left]; eauto.
Qed.

Lemma addCodeSnapshot_outcome (sessionId userId code language : string) (w : World) :
  let out := SessionService.addCodeSnapshot sessionId userId code language w in
  host out.2 = host w /\ net out.2 = net w
  /\ ((out.1 = Return tt
       /\ tables (store out.2) =
          Db.with_snapshots
            (session_code_snapshots (tables (store w))
             ++ [ {| snapshot_session_id := sessionId; snapshot_author_id := userId;
                     snapshot_language := language; snapshot_code := code |} ])
            (tables (store w)))
      \/ ((exists h, out.1 = Throw (Http h)) /\ tables (store out.2) = tables (store w))).
Proof.
  cbv zeta. unfold SessionService.addCodeSnapshot, mbind, M_bind.
  rewrite ensureSessionParticipant_run.
  destruct (Db.scripted 0 (store w)); [by split_and!; try right; eauto|].
  destruct (session_participants (tables (store w)) !! (sessionId, userId)) as [p|];
    [|by split_and!; try right; eauto].
  destruct (kicked_at p); [by split_and!; try right; eauto|].
  rewrite insert_snapshot_run.
  destruct (Db.scripted 0 (store (after_call w))); cbn;
    split_and!; try done; [right | left]; eauto.
Qed.

Arguments send : simpl never.

Lemma send_nil (w : World) : send [] w = w.
Proof. unfold send. destruct w as [s h [sl r o]]. cbn. by rewrite app_nil_r. Qed.

Lemma send_send (l1 l2 : list Emission) (w : World) :
  send l2 (send l1 w) = send (l1 ++ l2) w.
Proof. unfold send. cbn. unfold Gateway.with_outbox. cbn. by rewrite app_assoc. Qed.

Lemma current_session_run (sock : Socket) (w : World) :
  Gateway.current_session sock w = (Return (slots (net w) !! socket_id sock), w).
Proof. unfold Gateway.current_session, on_net. by rewrite world_eta. Qed.

Lemma emit_run (e : Emission) (w : World) :
  Gateway.emit e w = (Return tt, send [e] w).
Proof. reflexivity. Qed.

Lemma acknowledge_run (sock : Socket) (callback : bool) (p : Payload) (w : World) :
  Gateway.acknowledge sock callback p w
  = (Return tt, send (if callback then [Ack (socket_id sock) p] else []) w).
Proof.
  unfold Gateway.acknowledge. destruct callback; [apply emit_run|].
  by rewrite send_nil.
Qed.

Lemma report_run (sock : Socket) (callback : bool) (fallback : string) (err : Exn) (w : World) :
  Gateway.report sock callback fallback err w
  = (Return tt,
     send (refusal sock callback
             match err with
             | Http h => http_message h
             | NodeError _ _ _ => fallback
             end) w).
Proof.
  unfold Gateway.report, mbind, M_bind, refusal.
  rewrite acknowledge_run, emit_run, send_send. reflexivity.
Qed.

Arguments Gateway.current_session : simpl never.
Arguments Gateway.emit : simpl never.
Arguments Gateway.acknowledge : simpl never.
Arguments Gateway.report : simpl never.
Arguments SessionService.addSessionMessage : simpl never.
Arguments SessionService.addCodeSnapshot : simpl never.
Arguments CodeRunner.executeCode : simpl never.

Lemma outbox_send (l : list Emission) (w : World) :
  outbox (net (send l w)) = outbox (net w) ++ l.
Proof. reflexivity. Qed.

Lemma store_send (l : list Emission) (w : World) : store (send l w) = store w.
Proof. reflexivity. Qed.

(** With the session slot set and a text to send, [chat:message] stores the
    message first; it broadcasts when the store accepted it, and otherwise
    only answers the sender. *)
Lemma chat_message_run (sock : Socket) (payload : option ChatIn) (callback : bool) (w : World) :
  let out := Gateway.chat_message sock payload callback w in
  out.1 = Return tt
  /\ ((exists row m,
         session_messages (tables (store out.2)) = session_messages (tables (store w)) ++ [row]
         /\ content row = chat_text m
         /\ message_session_id row = chat_sessionId m
         /\ message_author_id row = uid (user sock)
         /\ outbox (net out.2)
            = outbox (net w)
              ++ ToRoom (Gateway.room_of (chat_sessionId m)) "chat:message" (Chat m)
                 :: approval sock callback)
      \/ (tables (store out.2) = tables (store w)
          /\ exists message, outbox (net out.2) = outbox (net w) ++ refusal sock callback message))
  /\ (forall s text e,
        slots (net w) !! socket_id sock = Some s -> s <> "" ->
        payload ≫= chat_in_text = Some text -> text <> "" ->
        (SessionService.addSessionMessage s (uid (user sock)) text w).1 = Throw e ->
        tables (store out.2) = tables (store w)
        /\ exists message, outbox (net out.2) = outbox (net w) ++ refusal sock callback message).
Proof.
  cbv zeta. unfold Gateway.chat_message.
  remember (payload ≫= chat_in_text) as given eqn:Egiven.
  unfold try_catch, mbind, M_bind.
  rewrite current_session_run.
  remember (slots (net w) !! socket_id sock) as slot eqn:Eslot.
  destruct (Gateway.missing slot) eqn:Hslot; cbn.
  { rewrite report_run. cbn. split_and!; [done | right; eauto |].
    intros s text e Hs Hne. rewrite Hs in Hslot. by destruct s. }
  destruct (Gateway.missing given) eqn:Htext; cbn.
  { rewrite report_run. cbn. split_and!; [done | right; eauto |].
    intros s text e _ _ Ht Hne. rewrite Ht in Htext. by destruct text. }
  destruct (addSessionMessage_outcome (Js.nullish slot "") (uid (user sock))
              (Js.nullish given "") w)
    as (_ & Hnet & [[Hr Ht]|[[h Hr] Ht]]);
    destruct (SessionService.addSessionMessage _ _ _ w) as [c w1] eqn:Erun;
    cbn in Hnet, Hr, Ht; subst c; cbn.
  - rewrite Date_now_run. cbn. rewrite emit_run, acknowledge_run, send_send. cbn.
    rewrite outbox_send, store_send, Hnet, Ht. cbn.
    split_and!; [done | left |].
    + eexists _, {| chat_id := _ |}. cbn. split_and!; reflexivity.
    + intros s text e Hs _ Htx _ Hthrow. subst slot given.
      rewrite Hs, Htx in Erun. cbn in Erun. rewrite Erun in Hthrow. discriminate.
  - rewrite report_run. cbn. rewrite outbox_send, store_send, Hnet, Ht.
    split_and!; [done | right; eauto | eauto].
Qed.

Lemma code_update_run (sock : Socket) (payload : option CodeIn) (callback : bool) (w : World) :
  let out := Gateway.code_update sock payload callback w in
  out.1 = Return tt
  /\ ((exists row c,
         session_code_snapshots (tables (store out.2))
         = session_code_snapshots (tables (store w)) ++ [row]
         /\ snapshot_code row = code_code c
         /\ snapshot_session_id row = code_sessionId c
         /\ snapshot_author_id row = uid (user sock)
         /\ outbox (net out.2)
            = outbox (net w)
              ++ ToRoom (Gateway.room_of (code_sessionId c)) "code:update" (CodeUpdate c)
                 :: approval sock callback)
      \/ (tables (store out.2) = tables (store w)
          /\ exists message, outbox (net out.2) = outbox (net w) ++ refusal sock callback message))
  /\ (forall s code e,
        slots (net w) !! socket_id sock = Some s -> s <> "" ->
        payload ≫= code_in_code = Some code -> code <> "" ->
        (SessionService.addCodeSnapshot s (uid (user sock)) code
           (Js.nullish (payload ≫= code_in_language) "javascript") w).1 = Throw e ->
        tables (store out.2) = tables (store w)
        /\ exists message, outbox (net out.2) = outbox (net w) ++ refusal sock callback message).
Proof.
  cbv zeta. unfold Gateway.code_update.
  remember (payload ≫= code_in_code) as given eqn:Egiven.
  remember (payload ≫= code_in_language) as lang eqn:Elang.
  unfold try_catch, mbind, M_bind.
  rewrite current_session_run.
  remember (slots (net w) !! socket_id sock) as slot eqn:Eslot.
  destruct (Gateway.missing slot) eqn:Hslot; cbn.
  { rewrite report_run. cbn. split_and!; [done | right; eauto |].
    intros s text e Hs Hne. rewrite Hs in Hslot. by destruct s. }
  destruct (Gateway.missing given) eqn:Htext; cbn.
  { rewrite report_run. cbn. split_and!; [done | right; eauto |].
    intros s text e _ _ Ht Hne. rewrite Ht in Htext. by destruct text. }
  destruct (addCodeSnapshot_outcome (Js.nullish slot "") (uid (user sock))
              (Js.nullish given "") (Js.nullish lang "javascript") w)
    as (_ & Hnet & [[Hr Ht]|[[h Hr] Ht]]);
    destruct (SessionService.addCodeSnapshot _ _ _ _ w) as [c w1] eqn:Erun;
    cbn in Hnet, Hr, Ht; subst c; cbn.
  - rewrite Date_now_run. cbn. rewrite emit_run, acknowledge_run, send_send. cbn.
    rewrite outbox_send, store_send, Hnet, Ht. cbn.
    split_and!; [done | left |].
    + eexists _, {| code_code := _ |}. cbn. split_and!; reflexivity.
    + intros s text e Hs _ Htx _ Hthrow. subst slot given.
      rewrite Hs, Htx in Erun. cbn in Erun. rewrite Erun in Hthrow. discriminate.
  - rewrite report_run. cbn. rewrite outbox_send, store_send, Hnet, Ht.
    split_and!; [done | right; eauto | eauto].
Qed.

(** C8.  The handlers of [chat:message] and [code:update] never throw, and
    each run of one ends in one of two ways.  Either the row was appended to
    the store and then the event was sent to the room, followed by the
    acknowledgment; or nothing was stored and the only emissions are the
    refusal to the sender (the failed acknowledgment when one was asked for,
    and [session:error]), with no emission to the room.  In particular, when
    the slot and the payload are in order and the write to the repository,
    admission check included, throws, the run ends the second way. *)
Theorem durability_precedes_broadcast (sock : Socket) (chat : option ChatIn)
    (code : option CodeIn) (callback : bool) (w : World) :
  let sent := Gateway.chat_message sock chat callback w in
  let shared := Gateway.code_update sock code callback w in
  (sent.1 = Return tt
   /\ ((exists row m,
          session_messages (tables (store sent.2))
          = session_messages (tables (store w)) ++ [row]
          /\ content row = chat_text m
          /\ message_session_id row = chat_sessionId m
          /\ message_author_id row = uid (user sock)
          /\ outbox (net sent.2)
             = outbox (net w)
               ++ ToRoom (Gateway.room_of (chat_sessionId m)) "chat:message" (Chat m)
                  :: approval sock callback)
       \/ refused sock callback w sent.2)
   /\ (forall s text e,
         slots (net w) !! socket_id sock = Some s -> s <> "" ->
         chat ≫= chat_in_text = Some text -> text <> "" ->
         (SessionService.addSessionMessage s (uid (user sock)) text w).1 = Throw e ->
         refused sock callback w sent.2))
  /\ (shared.1 = Return tt
      /\ ((exists row c,
             session_code_snapshots (tables (store shared.2))
             = session_code_snapshots (tables (store w)) ++ [row]
             /\ snapshot_code row = code_code c
             /\ snapshot_session_id row = code_sessionId c
             /\ snapshot_author_id row = uid (user sock)
             /\ outbox (net shared.2)
                = outbox (net w)
                  ++ ToRoom (Gateway.room_of (code_sessionId c)) "code:update" (CodeUpdate c)
                     :: approval sock callback)
          \/ refused sock callback w shared.2)
      /\ (forall s text e,
            slots (net w) !! socket_id sock = Some s -> s <> "" ->
            code ≫= code_in_code = Some text -> text <> "" ->
            (SessionService.addCodeSnapshot s (uid (user sock)) text
               (Js.nullish (code ≫= code_in_language) "javascript") w).1 = Throw e ->
            refused sock callback w shared.2)).
Proof.
  cbv zeta. unfold refused. split;
    [apply (chat_message_run sock chat callback w)
    | apply (code_update_run sock code callback w)].
Qed.

(** The refusal holds no emission to a room. *)
Lemma refusal_is_private (sock : Socket) (callback : bool) (message : string) :
  Forall (fun e => Gateway.is_broadcast e = false) (refusal sock callback message).
Proof. unfold refusal. destruct callback; repeat constructor. Qed.

(** C8 at bob saying hi while the store admits bob and then refuses the
    insert: the room gets nothing, and bob gets the failed acknowledgment
    and [session:error]. *)
Lemma durability_precedes_broadcast_witness :
  let w := Example.world_with [None; Some Example.outage] [] [] in
  let sent := Gateway.chat_message Example.bob (Some Example.hello) true w in
  (SessionService.addSessionMessage "s1" "bob" "hi" w).1
  = Throw (http 500 "Unable to store message" (Some Example.outage))
  /\ refused Example.bob true w sent.2
  /\ outbox (net sent.2)
     = [ Ack "k2" (AckFailed "Unable to store message");
         ToSocket "k2" "session:error" (SessionError "Unable to store message") ].
Proof.
  cbv zeta. split; [reflexivity|]. split; [|reflexivity].
  destruct (durability_precedes_broadcast Example.bob (Some Example.hello) None true
              (Example.world_with [None; Some Example.outage] [] []))
    as [(_ & _ & T) _].
  apply (T "s1" "hi" (http 500 "Unable to store message" (Some Example.outage)));
    [reflexivity | discriminate | reflexivity | discriminate | reflexivity].
Defined.

(** ** The handler of [code:run] *)

Lemma host_only_ret {A} (a : A) : host_only (mret a).
Proof. by intros w. Qed.

Lemma host_only_throw {A} (e : Exn) : host_only (@throw A e).
Proof. by intros w. Qed.

Lemma host_only_on_host {A} (f : Host -> Completion A * Host) : host_only (on_host f).
Proof. intros w. unfold on_host. by destruct (f (host w)). Qed.

Lemma host_only_bind {A B} (m : M A) (k : A -> M B) :
  host_only m -> (forall a, host_only (k a)) -> host_only (m ≫= k).
Proof.
  intros Hm Hk w. unfold mbind, M_bind. destruct (Hm w) as [Hs Hn].
  destruct (m w) as [[a|e] w1]; cbn in *; [|done].
  destruct (Hk a w1) as [Hs' Hn']. by rewrite Hs', Hn'.
Qed.

Lemma host_only_try_catch {A} (body : M A) (handler : Exn -> M A) :
  host_only body -> (forall e, host_only (handler e)) -> host_only (try_catch body handler).
Proof.
  intros Hm Hk w. unfold try_catch. destruct (Hm w) as [Hs Hn].
  destruct (body w) as [[a|e] w1]; cbn in *; [done|].
  destruct (Hk e w1) as [Hs' Hn']. by rewrite Hs', Hn'.
Qed.

Lemma host_only_try_finally {A} (body : M A) (cleanup : M unit) :
  host_only body -> host_only cleanup -> host_only (try_finally body cleanup).
Proof.
  intros Hm Hk w. unfold try_finally. destruct (Hm w) as [Hs Hn].
  destruct (body w) as [r w1]; cbn in *.
  destruct (Hk w1) as [Hs' Hn'].
  destruct (cleanup w1) as [[[]|e] w2]; cbn in *; by rewrite Hs', Hn'.
Qed.

Ltac host_only_steps :=
  repeat first
    [ apply host_only_ret
    | apply host_only_throw
    | apply host_only_on_host
    | apply host_only_try_finally
    | apply host_only_try_catch; [|intros ?]
    | apply host_only_bind; [|intros ?]
    | progress cbv beta zeta
    | case_decide
    | case_match ].

Lemma createTempFile_host_only (code extension : string) :
  host_only (CodeRunner.createTempFile code extension).
Proof.
  unfold CodeRunner.createTempFile, Node.mkdtemp, Node.writeFile. host_only_steps.
Qed.

Lemma cleanupTempFile_host_only (filePath : string) :
  host_only (CodeRunner.cleanupTempFile filePath).
Proof.
  unfold CodeRunner.cleanupTempFile, Node.rm, Node.console_log_error. host_only_steps.
Qed.

Lemma finished_host_only (startTime : Timestamp) (streams : string * string) :
  host_only (CodeRunner.finished startTime streams).
Proof. unfold CodeRunner.finished, Node.Date_now. host_only_steps. Qed.

Lemma failed_host_only (startTime : Timestamp) (err : Exn) :
  host_only (CodeRunner.failed startTime err).
Proof. unfold CodeRunner.failed, Node.Date_now. host_only_steps. Qed.

Ltac executor_host_only :=
  unfold Node.Date_now, Node.execAsync, Node.mkdtemp, Node.writeFile, Node.rm;
  repeat first
    [ apply createTempFile_host_only
    | apply cleanupTempFile_host_only
    | apply finished_host_only
    | apply failed_host_only
    | apply host_only_on_host
    | apply host_only_try_finally
    | apply host_only_try_catch; [|intros ?]
    | apply host_only_bind; [|intros ?]
    | progress cbv beta zeta ].

Lemma executeJavaScript_host_only (code : string) :
  host_only (CodeRunner.executeJavaScript code).
Proof. unfold CodeRunner.executeJavaScript. executor_host_only. Qed.

Lemma executeTypeScript_host_only (code : string) :
  host_only (CodeRunner.executeTypeScript code).
Proof. unfold CodeRunner.executeTypeScript. executor_host_only. Qed.

Lemma executePython_host_only (code : string) :
  host_only (CodeRunner.executePython code).
Proof. unfold CodeRunner.executePython. executor_host_only. Qed.

Lemma executeJava_host_only (code : string) :
  host_only (CodeRunner.executeJava code).
Proof. unfold CodeRunner.executeJava. executor_host_only. Qed.

Lemma executeCSharp_host_only (code : string) :
  host_only (CodeRunner.executeCSharp code).
Proof. unfold CodeRunner.executeCSharp. executor_host_only. Qed.

Lemma executeGo_host_only (code : string) :
  host_only (CodeRunner.executeGo code).
Proof. unfold CodeRunner.executeGo. executor_host_only. Qed.

(** [executeCode] reads the clock, the disk and its children, and nothing
    else: it makes no call to the store and sends nothing. *)
Lemma executeCode_host_only (code language : string) :
  host_only (CodeRunner.executeCode code language).
Proof.
  unfold CodeRunner.executeCode.
  apply host_only_bind; [apply host_only_on_host | intros startTime].
  cbv beta zeta. apply host_only_try_finally; [|apply host_only_ret].
  apply host_only_try_catch.
  - repeat case_decide;
      eauto using executeJavaScript_host_only, executeTypeScript_host_only,
        executePython_host_only, executeJava_host_only, executeCSharp_host_only,
        executeGo_host_only.
    apply host_only_bind; [apply host_only_on_host | intros now; apply host_only_ret].
  - intros err.
    apply host_only_bind; [apply host_only_on_host | intros now; apply host_only_ret].
Qed.

(** C10.  [code:run] looks at the session slot of the connection and at
    the code of the payload, and at nothing else.  Whenever the slot records
    a session and the code is not empty, whatever the participants table
    says about the user, the handler runs the snippet, makes no call to the
    store, sends [code:run-result] with the result to the room of the slot,
    which reaches every member of that room, and acknowledges with
    [ok: true]. *)
Theorem code_run_needs_only_the_slot (sock : Socket) (payload : option CodeIn)
    (callback : bool) (s code : string) (w : World) :
  slots (net w) !! socket_id sock = Some s -> s <> "" ->
  payload ≫= code_in_code = Some code -> code <> "" ->
  let language := Js.toLowerCase (Js.nullish (payload ≫= code_in_language) "javascript") in
  let ran := CodeRunner.executeCode code language w in
  let out := Gateway.code_run sock payload callback w in
  out.1 = Return tt
  /\ store out.2 = store w
  /\ host out.2 = host ran.2
  /\ exists result,
       ran.1 = Return result
       /\ let sent :=
            ToRoom (Gateway.room_of s) "code:run-result"
              (RunResult
                 {| run_id := clock (host ran.2);
                    run_language := language;
                    run_output := CodeRunner.output result;
                    run_error := CodeRunner.error result;
                    run_executionTime := CodeRunner.executionTime result;
                    run_author := Gateway.author_of (user sock);
                    run_authorId := uid (user sock);
                    run_time := clock (host ran.2) |}) in
          outbox (net out.2) = outbox (net w) ++ sent :: approval sock callback
          /\ Gateway.recipients (net out.2) sent = Gateway.members (net w) (Gateway.room_of s).
Proof.
  intros Hslot Hs Hcode Hc language ran out. subst out ran.
  unfold Gateway.code_run.
  fold language. rewrite Hcode.
  unfold try_catch, mbind, M_bind.
  rewrite current_session_run, Hslot.
  assert (Gateway.missing (Some s) = false) as -> by (by destruct s).
  assert (Gateway.missing (Some code) = false) as -> by (by destruct code).
  cbn.
  destruct (executeCode_never_throws code language w) as [result Hres].
  destruct (executeCode_host_only code language w) as [Hstore Hnet].
  destruct (CodeRunner.executeCode code language w) as [c w1]. cbn in Hres, Hstore, Hnet.
  subst c. cbn.
  rewrite Date_now_run. cbn.
  rewrite emit_run, acknowledge_run, send_send. cbn.
  split_and!; try done.
  exists result. split; [done|]. cbv zeta.
  rewrite outbox_send, Hnet. split; [reflexivity|].
  unfold Gateway.recipients, Gateway.members, send. cbn. by rewrite Hnet.
Qed.

(** C10 at bob, who joined the room of [s1] and was then removed from the
    session by alice: the admission check now refuses bob, bob's socket
    still records [s1], and the snippet bob sends is run as a child process,
    its result sent to the room and acknowledged. *)
Lemma code_run_needs_only_the_slot_witness :
  let out := Gateway.code_run Example.bob (Some Example.snippet) true Example.removed in
  fails_with 403 (SessionService.ensureSessionParticipant "bob" "s1" Example.removed).1
  /\ slots (net Example.removed) !! "k2" = Some "s1"
  /\ out.1 = Return tt
  /\ spawned (host out.2) = [ "node " +:+ CodeRunner.quoted "/tmp/code-exec-a1b2c3/code.js" ]
  /\ exists sent,
       outbox (net out.2) = outbox (net Example.removed) ++ [ sent; Ack "k2" AckOk ]
       /\ is_true (Gateway.is_broadcast sent)
       /\ Gateway.recipients (net out.2) sent = {[ "k2" ]}.
Proof.
  cbv zeta.
  destruct (code_run_needs_only_the_slot Example.bob (Some Example.snippet) true
              "s1" "console.log(1)" Example.removed)
    as (T1 & _ & T3 & result & _ & T4 & T5);
    [reflexivity | discriminate | reflexivity | discriminate |].
  split; [eexists; split; reflexivity|]. split; [reflexivity|].
  split; [exact T1|]. split; [rewrite T3; reflexivity|].
  eexists. split; [exact T4|]. split; [reflexivity | rewrite T5; reflexivity].
Defined.

(** ** What every request keeps *)

Lemma participants_kept_refl (t : Tables) : participants_kept t t.
Proof. intros k p H. eauto. Qed.

Lemma participants_kept_trans (t1 t2 t3 : Tables) :
  participants_kept t1 t2 -> participants_kept t2 t3 -> participants_kept t1 t3.
Proof.
  intros H12 H23 k p H.
  destruct (H12 k p H) as (p2 & H2 & Hr2 & Hk2).
  destruct (H23 k p2 H2) as (p3 & H3 & Hr3 & Hk3).
  exists p3. split_and!; [done | congruence | eauto].
Qed.

Lemma sessions_kept_refl (t : Tables) : sessions_kept t t.
Proof. intros s r H. eauto. Qed.

Lemma sessions_kept_trans (t1 t2 t3 : Tables) :
  sessions_kept t1 t2 -> sessions_kept t2 t3 -> sessions_kept t1 t3.
Proof.
  intros H12 H23 s r H.
  destruct (H12 s r H) as (r2 & H2 & Hc2 & Hi2).
  destruct (H23 s r2 H2) as (r3 & H3 & Hc3 & Hi3).
  exists r3. split_and!; [done | congruence | congruence].
Qed.

#[local] Instance store_evolves_preorder : PreOrder store_evolves.
Proof.
  split.
  - intros s. split_and!; try done.
    + apply participants_kept_refl.
    + apply sessions_kept_refl.
  - intros s1 s2 s3 (P1 & S1 & [M1 C1] & U1) (P2 & S2 & [M2 C2] & U2). split_and!.
    + by eapply participants_kept_trans.
    + by eapply sessions_kept_trans.
    + split; by etrans.
    + auto.
Qed.

#[local] Instance evolves_preorder : PreOrder evolves.
Proof.
  split.
  - intros w. unfold evolves. reflexivity.
  - intros w1 w2 w3. unfold evolves. apply transitivity.
Qed.

(** A store that differs at most by a shorter script of the same calls. *)
Lemma store_evolves_same_tables (s s' : Store) :
  tables s' = tables s -> (unfailing s -> unfailing s') -> store_evolves s s'.
Proof.
  intros Ht Hu. unfold store_evolves. rewrite Ht. split_and!; try done.
  - apply participants_kept_refl.
  - apply sessions_kept_refl.
Qed.

Lemma unfailing_advance (s : Store) : unfailing s -> unfailing (Db.advance s).
Proof. intros H i. rewrite scripted_advance. apply H. Qed.

Lemma unfailing_tail (s : Store) (x : option PostgrestError) (rest : list (option PostgrestError)) :
  store_script s = x :: rest -> unfailing s -> unfailing (Db.with_script rest s).
Proof.
  intros E H i. specialize (H (S i)). unfold Db.scripted in *. by rewrite E in H.
Qed.

Lemma round_trip_evolves {A} (op : Store -> Reply A * Store) :
  (forall st, store_evolves st (op st).2) ->
  forall st, store_evolves st (Db.round_trip op st).2.
Proof.
  intros Hop st. unfold Db.round_trip.
  destruct (store_script st) as [|[e|] rest] eqn:E; cbn.
  - apply Hop.
  - apply store_evolves_same_tables; [done | by eapply unfailing_tail].
  - etrans; [|apply Hop].
    apply store_evolves_same_tables; [done | by eapply unfailing_tail].
Qed.

Section Respects.
Context (R : relation World) `{!PreOrder R}.

Lemma respects_ret {A} (a : A) : respects R (mret a).
Proof. intros w. reflexivity. Qed.

Lemma respects_throw {A} (e : Exn) : respects R (@throw A e).
Proof. intros w. reflexivity. Qed.

Lemma respects_bind {A B} (m : M A) (k : A -> M B) :
  respects R m -> (forall a, respects R (k a)) -> respects R (m ≫= k).
Proof.
  intros Hm Hk w. unfold mbind, M_bind. specialize (Hm w).
  destruct (m w) as [[a|e] w1]; cbn in *; [|done].
  etrans; [exact Hm | apply Hk].
Qed.

Lemma respects_try_catch {A} (body : M A) (handler : Exn -> M A) :
  respects R body -> (forall e, respects R (handler e)) -> respects R (try_catch body handler).
Proof.
  intros Hm Hk w. unfold try_catch. specialize (Hm w).
  destruct (body w) as [[a|e] w1]; cbn in *; [done|].
  etrans; [exact Hm | apply Hk].
Qed.

Lemma respects_try_finally {A} (body : M A) (cleanup : M unit) :
  respects R body -> respects R cleanup -> respects R (try_finally body cleanup).
Proof.
  intros Hm Hk w. unfold try_finally. specialize (Hm w).
  destruct (body w) as [r w1]; cbn in *. specialize (Hk w1).
  destruct (cleanup w1) as [[[]|e] w2]; cbn in *; by etrans.
Qed.
End Respects.

Lemma evolves_on_store {A} (f : Store -> A * Store) :
  (forall st, store_evolves st (f st).2) -> respects evolves (on_store f).
Proof.
  intros H w. unfold on_store, evolves. specialize (H (store w)).
  by destruct (f (store w)).
Qed.

Lemma evolves_on_host {A} (f : Host -> Completion A * Host) : respects evolves (on_host f).
Proof.
  intros w. unfold on_host, evolves. destruct (f (host w)). cbn. reflexivity.
Qed.

Lemma evolves_on_net {A} (f : Net -> A * Net) : respects evolves (on_net f).
Proof.
  intros w. unfold on_net, evolves. destruct (f (net w)). cbn. reflexivity.
Qed.

Lemma evolves_host_only {A} (m : M A) : host_only m -> respects evolves m.
Proof.
  intros H w. unfold evolves. destruct (H w) as [-> _]. reflexivity.
Qed.

(** ** Store calls: what each of them keeps *)

Lemma unfailing_with_tables (t : Tables) (s : Store) :
  unfailing s -> unfailing (Db.with_tables t s).
Proof. intros H i. apply H. Qed.

Lemma unfailing_with_fresh (l : list Generated) (s : Store) :
  unfailing s -> unfailing (Db.with_fresh l s).
Proof. intros H i. apply H. Qed.

Lemma participants_kept_same (t t' : Tables) :
  session_participants t' = session_participants t -> participants_kept t t'.
Proof. intros E k p H. rewrite E. eauto. Qed.

Lemma sessions_kept_same (t t' : Tables) :
  mentorship_sessions t' = mentorship_sessions t -> sessions_kept t t'.
Proof. intros E s r H. rewrite E. eauto. Qed.

Lemma read_evolves {A} (f : Store -> A) (st : Store) :
  store_evolves st (Db.round_trip (fun st => (Served (f st), st)) st).2.
Proof. apply round_trip_evolves. intros st'. reflexivity. Qed.

Lemma select_participant_evolves (s u : string) (st : Store) :
  store_evolves st (Db.select_participant s u st).2.
Proof. apply (read_evolves (fun st => session_participants (tables st) !! (s, u))). Qed.

Lemma select_session_evolves (s : string) (st : Store) :
  store_evolves st (Db.select_session s st).2.
Proof.
  apply (read_evolves
           (fun st => (fun r => Db.view s r (tables st)) <$> mentorship_sessions (tables st) !! s)).
Qed.

Lemma select_memberships_evolves (u : string) (st : Store) :
  store_evolves st (Db.select_memberships u st).2.
Proof. unfold Db.select_memberships. apply round_trip_evolves. intros st'. reflexivity. Qed.

Lemma select_sessions_in_evolves (instant : string -> N) (ids : list string) (st : Store) :
  store_evolves st (Db.select_sessions_in instant ids st).2.
Proof. unfold Db.select_sessions_in. apply round_trip_evolves. intros st'. reflexivity. Qed.

Lemma select_session_by_code_evolves (c : string) (st : Store) :
  store_evolves st (Db.select_session_by_code c st).2.
Proof.
  unfold Db.select_session_by_code. apply round_trip_evolves. intros st'.
  destruct (filter _ _) as [|kv [|kv' l]]; reflexivity.
Qed.

Lemma insert_session_evolves (p : SessionPayload) (st : Store) :
  store_evolves st (Db.insert_session p st).2.
Proof.
  unfold Db.insert_session. apply round_trip_evolves. intros st'.
  destruct (store_fresh st') as [|g rest] eqn:E; [reflexivity|].
  cbn. destruct (mentorship_sessions (tables st') !! gen_id g) eqn:L; cbn.
  - apply store_evolves_same_tables; [done | apply unfailing_with_fresh].
  - split_and!; cbn.
    + by apply participants_kept_same.
    + intros s r H. cbn. exists r. split_and!; [|done|done].
      rewrite lookup_insert_ne; [done | congruence].
    + done.
    + intros H i. apply H.
Qed.

Lemma insert_participants_evolves (rows : list NewParticipant) (st : Store) :
  store_evolves st (Db.insert_participants rows st).2.
Proof.
  unfold Db.insert_participants. apply round_trip_evolves. intros st'.
  destruct (Db.add_rows _ _ _) as [m|] eqn:E; [|reflexivity].
  apply add_rows_Some in E as (_ & Hnew & Hold & _).
  split_and!; cbn.
  - intros k q H. cbn. exists q. split_and!; [|done|done].
    rewrite Hold; [done|].
    intros (r & -> & Hr)%list_elem_of_fmap.
    destruct (Hnew r Hr) as [Hn _]. congruence.
  - by apply sessions_kept_same.
  - done.
  - intros H i. apply H.
Qed.

Lemma insert_message_evolves (r : MessageRow) (st : Store) :
  store_evolves st (Db.insert_message r st).2.
Proof.
  unfold Db.insert_message. apply round_trip_evolves. intros st'.
  split_and!; cbn.
  - by apply participants_kept_same.
  - by apply sessions_kept_same.
  - split; [by apply prefix_app_r | done].
  - intros H i. apply H.
Qed.

Lemma insert_snapshot_evolves (r : SnapshotRow) (st : Store) :
  store_evolves st (Db.insert_snapshot r st).2.
Proof.
  unfold Db.insert_snapshot. apply round_trip_evolves. intros st'.
  split_and!; cbn.
  - by apply participants_kept_same.
  - by apply sessions_kept_same.
  - split; [done | by apply prefix_app_r].
  - intros H i. apply H.
Qed.

Lemma update_session_evolves (s owner : string) (p : SessionPatch) (st : Store) :
  store_evolves st (Db.update_session s owner p st).2.
Proof.
  unfold Db.update_session. apply round_trip_evolves. intros st'.
  destruct (mentorship_sessions (tables st') !! s) as [r|] eqn:L; [|reflexivity].
  destruct (decide (created_by r = owner)); [|reflexivity].
  split_and!; cbn.
  - by apply participants_kept_same.
  - intros k q H. cbn. destruct (decide (k = s)) as [->|Hne].
    + rewrite lookup_insert_eq. eexists. split; [done|]. cbn. split; congruence.
    + rewrite lookup_insert_ne; [eauto | done].
  - done.
  - intros H i. apply H.
Qed.

(** An update of a participant keeps a removal stamp when it either skips
    the rows already removed or leaves [kicked_at] alone: the two updates of
    the source are of these two kinds. *)
Lemma update_participant_evolves (s u : string) (only_active : bool) (p : ParticipantPatch)
    (st : Store) :
  only_active = true \/ set_kicked_at p = None ->
  store_evolves st (Db.update_participant s u only_active p st).2.
Proof.
  intros Hside. unfold Db.update_participant. apply round_trip_evolves. intros st'.
  destruct (session_participants (tables st') !! (s, u)) as [r|] eqn:L; [|reflexivity].
  destruct (only_active && bool_decide (is_Some (kicked_at r))) eqn:B; [reflexivity|].
  split_and!; cbn.
  - intros k q H. cbn. destruct (decide (k = (s, u))) as [->|Hne].
    + rewrite lookup_insert_eq. eexists. split; [done|]. cbn.
      assert (q = r) as -> by congruence. split; [done|].
      intros stamp Hk. destruct Hside as [-> | ->]; [|done].
      cbn in B. apply is_Some_kicked in B. congruence.
    + rewrite lookup_insert_ne; [eauto | done].
  - by apply sessions_kept_same.
  - done.
  - intros H i. apply H.
Qed.

(** ** Services and handlers: what each of them keeps *)

Ltac evolves_steps :=
  repeat match goal with
    | |- respects _ (mret _) => apply respects_ret; apply _
    | |- respects _ (throw _) => apply respects_throw; apply _
    | |- respects _ (on_net _) => apply evolves_on_net
    | |- respects _ (on_host _) => apply evolves_on_host
    | |- respects _ Node.Date_now => unfold Node.Date_now; apply evolves_on_host
    | |- respects _ (_ ≫= _) => apply respects_bind; [apply _ | | intros ?]
    | |- respects _ (try_catch _ _) => apply respects_try_catch; [apply _ | | intros ?]
    | |- respects _ (match ?x with _ => _ end) => destruct x
    end.

Lemma ensureSessionParticipant_evolves (userId sessionId : string) :
  respects evolves (SessionService.ensureSessionParticipant userId sessionId).
Proof.
  unfold SessionService.ensureSessionParticipant. evolves_steps.
  apply evolves_on_store, select_participant_evolves.
Qed.

Lemma ensureSessionExistsWithOwner_evolves (sessionId : string) :
  respects evolves (SessionService.ensureSessionExistsWithOwner sessionId).
Proof.
  unfold SessionService.ensureSessionExistsWithOwner. evolves_steps.
  apply evolves_on_store, select_session_evolves.
Qed.

Lemma getSessionForUser_evolves (userId sessionId : string) :
  respects evolves (SessionService.getSessionForUser userId sessionId).
Proof.
  unfold SessionService.getSessionForUser. evolves_steps.
  - apply ensureSessionParticipant_evolves.
  - apply evolves_on_store, select_session_evolves.
Qed.

Lemma addSessionMessage_evolves (sessionId userId content : string) :
  respects evolves (SessionService.addSessionMessage sessionId userId content).
Proof.
  unfold SessionService.addSessionMessage. evolves_steps.
  - apply ensureSessionParticipant_evolves.
  - apply evolves_on_store, insert_message_evolves.
Qed.

Lemma addCodeSnapshot_evolves (sessionId userId code language : string) :
  respects evolves (SessionService.addCodeSnapshot sessionId userId code language).
Proof.
  unfold SessionService.addCodeSnapshot. evolves_steps.
  - apply ensureSessionParticipant_evolves.
  - apply evolves_on_store, insert_snapshot_evolves.
Qed.

Lemma listSessionsForUser_evolves (instant : string -> N) (userId : string) :
  respects evolves (SessionService.listSessionsForUser instant userId).
Proof.
  unfold SessionService.listSessionsForUser. evolves_steps.
  - apply evolves_on_store, select_memberships_evolves.
  - apply evolves_on_store, select_sessions_in_evolves.
Qed.

Lemma joinSessionByCode_evolves (userId inviteCode : string) :
  respects evolves (SessionService.joinSessionByCode userId inviteCode).
Proof.
  unfold SessionService.joinSessionByCode. evolves_steps.
  - apply evolves_on_store, select_session_by_code_evolves.
  - apply evolves_on_store, select_participant_evolves.
  - apply evolves_on_store, insert_participants_evolves.
Qed.

Lemma updateSessionSettings_evolves (mentorId sessionId : string) (updates : SessionUpdateInput) :
  respects evolves (SessionService.updateSessionSettings mentorId sessionId updates).
Proof.
  unfold SessionService.updateSessionSettings. cbv zeta. evolves_steps.
  apply evolves_on_store, update_session_evolves.
Qed.

Lemma kickParticipant_evolves (mentorId sessionId targetUserId : string) :
  respects evolves (SessionService.kickParticipant mentorId sessionId targetUserId).
Proof.
  unfold SessionService.kickParticipant. evolves_steps.
  - apply ensureSessionExistsWithOwner_evolves.
  - apply evolves_on_store. intros st. apply update_participant_evolves. by left.
Qed.

Lemma updateParticipantPermissions_evolves (mentorId sessionId targetUserId : string)
    (changes : PermissionChanges) :
  respects evolves
    (SessionService.updateParticipantPermissions mentorId sessionId targetUserId changes).
Proof.
  unfold SessionService.updateParticipantPermissions. cbv zeta. evolves_steps.
  - apply ensureSessionExistsWithOwner_evolves.
  - apply evolves_on_store. intros st. apply update_participant_evolves. by right.
Qed.

Lemma evolves_after_call (w : World) : evolves w (after_call w).
Proof.
  apply store_evolves_same_tables; [done | apply unfailing_advance].
Qed.

(** [createSession] as a whole keeps the sessions that were there: the one
    its compensating delete removes is the one it has just inserted. *)
Lemma createSession_evolves (mentorId : string) (input : SessionCreateInput) :
  respects evolves (SessionService.createSession mentorId input).
Proof.
  intros w. unfold SessionService.createSession, mbind, M_bind.
  pose proof (evolves_on_store _
                (insert_session_evolves (SessionService.sessionPayload mentorId input)) w) as H1.
  destruct (on_store (Db.insert_session _) w) as [c w1] eqn:E1.
  destruct c as [[session|e]|ex]; cbn in *; [|done|done].
  pose proof (insert_session_served _ _ _ _ E1) as (Hfresh & Ht1 & _).
  pose proof (evolves_on_store _
                (insert_participants_evolves
                   (SessionService.participantRows (id session) mentorId
                      (SessionService.uniqueStudentIds mentorId input))) w1) as H2.
  destruct (on_store (Db.insert_participants _) w1) as [c w2] eqn:E2.
  destruct c as [[[]|e]|ex]; cbn in *; [by etrans | | by etrans].
  pose proof (insert_participants_failed _ _ _ _ E2) as ->.
  rewrite delete_session_run.
  destruct (Db.scripted 0 (store (after_call w1))); cbn.
  - etrans; [exact H1|]. etrans; [exact H2|]. apply evolves_after_call.
  - destruct H1 as (_ & _ & _ & U1). destruct H2 as (_ & _ & _ & U2).
    unfold evolves, with_tables, after_call. cbn. rewrite Ht1. cbn.
    rewrite delete_insert_id by done.
    split_and!.
    + by apply participants_kept_same.
    + by apply sessions_kept_same.
    + done.
    + intros U. apply unfailing_with_tables, unfailing_advance, U2, U1, U.
Qed.

Lemma acknowledge_evolves (sock : Socket) (callback : bool) (p : Payload) :
  respects evolves (Gateway.acknowledge sock callback p).
Proof.
  unfold Gateway.acknowledge. destruct callback; [apply evolves_on_net|].
  apply respects_ret, _.
Qed.

Lemma report_evolves (sock : Socket) (callback : bool) (fallback : string) (err : Exn) :
  respects evolves (Gateway.report sock callback fallback err).
Proof.
  unfold Gateway.report. cbv zeta.
  apply respects_bind; [apply _ | apply acknowledge_evolves | intros _].
  apply evolves_on_net.
Qed.

Ltac handler_evolves :=
  unfold Gateway.current_session, Gateway.socket_join, Gateway.set_current_session,
    Gateway.emit;
  repeat match goal with
    | |- respects _ (Gateway.acknowledge _ _ _) => apply acknowledge_evolves
    | |- respects _ (Gateway.report _ _ _ _) => apply report_evolves
    | |- respects _ (if Gateway.missing ?x then _ else _) => destruct (Gateway.missing x)
    | _ => progress evolves_steps
    end.

Lemma session_join_evolves (sock : Socket) (sessionId : option string) (callback : bool) :
  respects evolves (Gateway.session_join sock sessionId callback).
Proof.
  unfold Gateway.session_join. cbv zeta. handler_evolves.
  apply ensureSessionParticipant_evolves.
Qed.

Lemma chat_message_evolves (sock : Socket) (payload : option ChatIn) (callback : bool) :
  respects evolves (Gateway.chat_message sock payload callback).
Proof.
  unfold Gateway.chat_message. cbv zeta. handler_evolves.
  apply addSessionMessage_evolves.
Qed.

Lemma code_update_evolves (sock : Socket) (payload : option CodeIn) (callback : bool) :
  respects evolves (Gateway.code_update sock payload callback).
Proof.
  unfold Gateway.code_update. cbv zeta. handler_evolves.
  apply addCodeSnapshot_evolves.
Qed.

Lemma code_run_evolves (sock : Socket) (payload : option CodeIn) (callback : bool) :
  respects evolves (Gateway.code_run sock payload callback).
Proof.
  unfold Gateway.code_run. cbv zeta. handler_evolves.
  apply evolves_host_only, executeCode_host_only.
Qed.

Lemma perform_evolves (r : Request) (w : World) : evolves w (perform r w).
Proof.
  destruct r; cbn.
  - apply listSessionsForUser_evolves.
  - apply ensureSessionParticipant_evolves.
  - apply getSessionForUser_evolves.
  - apply addSessionMessage_evolves.
  - apply addCodeSnapshot_evolves.
  - apply createSession_evolves.
  - apply joinSessionByCode_evolves.
  - apply updateSessionSettings_evolves.
  - apply kickParticipant_evolves.
  - apply updateParticipantPermissions_evolves.
  - apply session_join_evolves.
  - apply chat_message_evolves.
  - apply code_update_evolves.
  - apply code_run_evolves.
Qed.

Lemma perform_all_evolves (rs : list Request) (w : World) : evolves w (perform_all rs w).
Proof.
  revert w. induction rs as [|r rs IH]; intros w; cbn; [reflexivity|].
  etrans; [apply (perform_evolves r) | apply IH].
Qed.

(** ** What no sequence of requests undoes *)

(** X1.  Whatever requests are served, in whatever order, a participant row
    that is stored stays stored, keeps its role, and keeps its removal stamp
    if it has one: no service and no socket handler deletes a participant
    row, changes a role, or clears or moves [kicked_at]. *)
Theorem participant_rows_are_never_lost (rs : list Request) (w : World)
    (sessionId userId : string) (p : ParticipantRow) :
  session_participants (tables (store w)) !! (sessionId, userId) = Some p ->
  exists p',
    session_participants (tables (store (perform_all rs w))) !! (sessionId, userId) = Some p'
    /\ role p' = role p
    /\ forall stamp, kicked_at p = Some stamp -> kicked_at p' = Some stamp.
Proof.
  intros H. destruct (perform_all_evolves rs w) as (P & _). exact (P _ _ H).
Qed.

Lemma participant_rows_are_never_lost_witness :
  session_participants (tables (store Example.calm)) !! ("s1", "carol")
  = Some Example.kicked_row
  /\ exists p',
       session_participants (tables (store (perform_all Scenario.busy_day Example.calm)))
         !! ("s1", "carol") = Some p'
       /\ role p' = student
       /\ kicked_at p' = Some 1700%N.
Proof.
  split; [reflexivity|].
  destruct (participant_rows_are_never_lost Scenario.busy_day Example.calm "s1" "carol"
              Example.kicked_row eq_refl) as (p' & L & R & K).
  exists p'. split_and!; [exact L | exact R | exact (K _ eq_refl)].
Defined.

(** X2.  Whatever requests are served, a session that is stored stays
    stored, with the creator and the invite code it had: the only delete in
    the services is the one by which [createSession] takes back the session
    it has just inserted, and no update writes [created_by] or
    [invite_code]. *)
Theorem sessions_are_never_lost (rs : list Request) (w : World)
    (sessionId : string) (r : SessionRow) :
  mentorship_sessions (tables (store w)) !! sessionId = Some r ->
  exists r',
    mentorship_sessions (tables (store (perform_all rs w))) !! sessionId = Some r'
    /\ created_by r' = created_by r
    /\ invite_code r' = invite_code r.
Proof.
  intros H. destruct (perform_all_evolves rs w) as (_ & S & _). exact (S _ _ H).
Qed.

Lemma sessions_are_never_lost_witness :
  mentorship_sessions (tables (store Example.calm)) !! "s1" = Some Example.pairing
  /\ exists r',
       mentorship_sessions (tables (store (perform_all Scenario.busy_day Example.calm))) !! "s1"
       = Some r'
       /\ created_by r' = "alice"
       /\ invite_code r' = "JOIN-1".
Proof.
  split; [reflexivity|].
  exact (sessions_are_never_lost Scenario.busy_day Example.calm "s1" Example.pairing eq_refl).
Defined.

(** X3.  Messages and code snapshots are append-only: after any sequence of
    requests the stored messages and snapshots begin with the ones that
    were there, in the same order. *)
Theorem history_is_append_only (rs : list Request) (w : World) :
  session_messages (tables (store w))
    `prefix_of` session_messages (tables (store (perform_all rs w)))
  /\ session_code_snapshots (tables (store w))
       `prefix_of` session_code_snapshots (tables (store (perform_all rs w))).
Proof.
  destruct (perform_all_evolves rs w) as (_ & _ & H & _). exact H.
Qed.

(** ** A removal is final *)

Lemma store_after_call (w : World) : store (after_call w) = Db.advance (store w).
Proof. reflexivity. Qed.

Lemma ensureSessionParticipant_removed (userId sessionId : string) (p : ParticipantRow)
    (stamp : Timestamp) (w : World) :
  session_participants (tables (store w)) !! (sessionId, userId) = Some p ->
  kicked_at p = Some stamp ->
  (exists e, (SessionService.ensureSessionParticipant userId sessionId w).1 = Throw e)
  /\ (Db.scripted 0 (store w) = None ->
        (SessionService.ensureSessionParticipant userId sessionId w).1
        = Throw (http 403 "You have been removed from this session" None)).
Proof.
  intros L K. rewrite ensureSessionParticipant_run, L, K. cbn.
  destruct (Db.scripted 0 (store w)); split; eauto; discriminate.
Qed.

Lemma select_session_by_code_run (c : string) (w : World) :
  exists r,
    on_store (Db.select_session_by_code c) w = (Return r, after_call w)
    /\ forall session, r = Served (Some session) ->
         exists row', mentorship_sessions (tables (store w)) !! id session = Some row'
                      /\ session = Db.view (id session) row' (tables (store w))
                      /\ invite_code row' = c.
Proof.
  unfold on_store, Db.select_session_by_code.
  destruct (Db.scripted 0 (store w)) as [e|] eqn:E.
  - rewrite (round_trip_failed _ _ e E). eexists. split; [reflexivity|]. intros ? [=].
  - rewrite (round_trip_served _ _ E), tables_advance.
    destruct (filter _ _) as [|[k r] [|kv' l]] eqn:F; cbn;
      (eexists; split; [reflexivity|]); intros session [= <-].
    assert (H : (k, r) ∈ [(k, r)]) by left. rewrite <- F in H.
    apply list_elem_of_filter in H as [Hc Hin]. apply elem_of_map_to_list in Hin.
    exists r. cbn. done.
Qed.

(** Joining by code never hands a session to someone removed from it. *)
Lemma joinSessionByCode_removed (userId inviteCode sessionId : string) (p : ParticipantRow)
    (stamp : Timestamp) (w : World) (session : Session) :
  session_participants (tables (store w)) !! (sessionId, userId) = Some p ->
  kicked_at p = Some stamp ->
  (SessionService.joinSessionByCode userId inviteCode w).1 = Return session ->
  id session <> sessionId.
Proof.
  intros L K. unfold SessionService.joinSessionByCode, mbind, M_bind.
  destruct (select_session_by_code_run inviteCode w) as (r & -> & Hr). cbn.
  destruct r as [[found|]|e]; cbn; try discriminate.
  destruct (decide _); [discriminate|].
  rewrite select_participant_run, store_after_call, tables_advance.
  destruct (Db.scripted 0 _); [discriminate|]. cbn.
  destruct (decide (id found = sessionId)) as [->|Hne].
  - rewrite L. cbn. rewrite K. cbn. discriminate.
  - destruct (SessionService.removed _); [discriminate|].
    destruct (session_participants (tables (store w)) !! (id found, userId)); cbn.
    + by intros [= <-].
    + destruct (on_store _ _) as [[[[]|e]|ex] w1]; cbn; try discriminate. by intros [= <-].
Qed.

(** A removal that went through has stamped the row of its target. *)
Lemma kickParticipant_returned (mentorId sessionId targetUserId : string) (b : bool)
    (w : World) :
  (SessionService.kickParticipant mentorId sessionId targetUserId w).1 = Return b ->
  exists p,
    session_participants
      (tables (store (SessionService.kickParticipant mentorId sessionId targetUserId w).2))
      !! (sessionId, targetUserId) = Some p
    /\ kicked_at p = Some (clock (host w)).
Proof.
  unfold SessionService.kickParticipant, mbind, M_bind.
  rewrite ensureSessionExistsWithOwner_run.
  destruct (Db.scripted 0 (store w)); [discriminate|].
  destruct (mentorship_sessions (tables (store w)) !! sessionId); [|discriminate]. cbn.
  destruct (decide _); [discriminate|].
  destruct (decide _); [discriminate|].
  rewrite Date_now_run. cbn. rewrite update_participant_run.
  rewrite store_after_call, tables_advance.
  destruct (Db.scripted 0 _); [discriminate|].
  destruct (session_participants (tables (store w)) !! (sessionId, targetUserId))
    as [p|]; [|discriminate].
  cbn. destruct (bool_decide _); [discriminate|]. cbn. intros _.
  eexists. split; [apply lookup_insert_eq | reflexivity].
Qed.

(** Someone removed cannot be removed again. *)
Lemma kickParticipant_removed (mentorId sessionId targetUserId : string) (p : ParticipantRow)
    (stamp : Timestamp) (b : bool) (w : World) :
  session_participants (tables (store w)) !! (sessionId, targetUserId) = Some p ->
  kicked_at p = Some stamp ->
  (SessionService.kickParticipant mentorId sessionId targetUserId w).1 <> Return b.
Proof.
  intros L K. unfold SessionService.kickParticipant, mbind, M_bind.
  rewrite ensureSessionExistsWithOwner_run.
  destruct (Db.scripted 0 (store w)); [discriminate|].
  destruct (mentorship_sessions (tables (store w)) !! sessionId); [|discriminate]. cbn.
  destruct (decide _); [discriminate|].
  destruct (decide _); [discriminate|].
  rewrite Date_now_run. cbn. rewrite update_participant_run.
  rewrite store_after_call, tables_advance.
  destruct (Db.scripted 0 _); [discriminate|].
  rewrite L. cbn. rewrite K.
  rewrite bool_decide_eq_true_2 by eauto. discriminate.
Qed.

Lemma socket_join_run (sock : Socket) (room : string) (w : World) :
  Gateway.socket_join sock room w
  = (Return tt,
     {| store := store w; host := host w;
        net := Gateway.with_rooms
                 (<[room := {[socket_id sock]} ∪ Gateway.members (net w) room]> (rooms (net w)))
                 (net w) |}).
Proof. reflexivity. Qed.

Lemma set_current_session_run (sock : Socket) (sessionId : string) (w : World) :
  Gateway.set_current_session sock sessionId w
  = (Return tt,
     {| store := store w; host := host w;
        net := Gateway.with_slots (<[socket_id sock := sessionId]> (slots (net w))) (net w) |}).
Proof. reflexivity. Qed.

(** What [session:join] does, by what the admission check answered. *)
Lemma session_join_run (sock : Socket) (sessionId : option string) (callback : bool)
    (w : World) :
  let out := Gateway.session_join sock sessionId callback w in
  let refusing message :=
    out.2 = send (refusal sock callback message)
              (if Gateway.missing sessionId then w else after_call w) in
  out.1 = Return tt
  /\ (Gateway.missing sessionId = true -> refusing "sessionId is required")
  /\ (forall s, sessionId = Some s -> s <> "" ->
        match (SessionService.ensureSessionParticipant (uid (user sock)) s w).1 with
        | Return _ =>
            out.2 =
            send (approval sock callback
                  ++ [ToSocket (socket_id sock) "session:joined" (SessionJoined s)])
              {| store := Db.advance (store w);
                 host := host w;
                 net := Gateway.with_slots (<[socket_id sock := s]> (slots (net w)))
                          (Gateway.with_rooms
                             (<[Gateway.room_of s :=
                                  {[socket_id sock]} ∪ Gateway.members (net w) (Gateway.room_of s)]>
                                (rooms (net w)))
                             (net w)) |}
        | Throw e => refusing (exn_message e)
        end).
Proof.
  intros out refusing. subst out refusing.
  unfold Gateway.session_join, try_catch.
  destruct sessionId as [s|]; cbn.
  2: { rewrite report_run. done. }
  destruct (Js.truthy s) eqn:T; cbn.
  2: { rewrite report_run. split_and!; try done. intros ? [= <-] ?. by destruct s. }
  unfold mbind, M_bind.
  rewrite ensureSessionParticipant_run.
  split_and!.
  - destruct (Db.scripted 0 (store w)); cbn; [by rewrite report_run|].
    destruct (session_participants _ !! _) as [p|]; cbn; [|by rewrite report_run].
    destruct (kicked_at p); cbn; [by rewrite report_run|].
    rewrite socket_join_run, set_current_session_run, acknowledge_run. done.
  - done.
  - intros ? [= <-] _. rewrite ensureSessionParticipant_run.
    destruct (Db.scripted 0 (store w)); cbn; [by rewrite report_run|].
    destruct (session_participants _ !! _) as [p|]; cbn; [|by rewrite report_run].
    destruct (kicked_at p); cbn; [by rewrite report_run|].
    rewrite socket_join_run, set_current_session_run, acknowledge_run. cbn.
    rewrite emit_run, send_send. reflexivity.
Qed.

(** X4.  A removal is final.  Once [kickParticipant] has returned, whatever
    requests are served afterwards, the admission check never lets the
    removed user in again, joining by invite code never hands them that
    session, a [session:join] for it is refused and leaves their socket
    outside the room and without a session, and a second removal of the
    same user never succeeds. *)
Theorem removal_is_final (mentorId sessionId targetUserId : string) (b : bool)
    (rs : list Request) (w : World) :
  (SessionService.kickParticipant mentorId sessionId targetUserId w).1 = Return b ->
  let w' :=
    perform_all rs (SessionService.kickParticipant mentorId sessionId targetUserId w).2 in
  (exists e, (SessionService.ensureSessionParticipant targetUserId sessionId w').1 = Throw e)
  /\ (forall inviteCode session,
        (SessionService.joinSessionByCode targetUserId inviteCode w').1 = Return session ->
        id session <> sessionId)
  /\ (forall sock callback,
        uid (user sock) = targetUserId -> sessionId <> "" ->
        let out := Gateway.session_join sock (Some sessionId) callback w' in
        slots (net out.2) = slots (net w')
        /\ rooms (net out.2) = rooms (net w')
        /\ exists message, outbox (net out.2) = outbox (net w') ++ refusal sock callback message)
  /\ (forall mentorId' b',
        (SessionService.kickParticipant mentorId' sessionId targetUserId w').1 <> Return b').
Proof.
  intros Hkick w'.
  destruct (kickParticipant_returned _ _ _ _ _ Hkick) as (p & L & K).
  destruct (perform_all_evolves rs
              (SessionService.kickParticipant mentorId sessionId targetUserId w).2)
    as (P & _).
  destruct (P _ _ L) as (p' & L' & _ & K'). specialize (K' _ K). fold w' in L'.
  destruct (ensureSessionParticipant_removed _ _ _ _ _ L' K') as [[e He] _].
  split_and!.
  - eauto.
  - intros inviteCode session. by apply (joinSessionByCode_removed _ _ _ _ _ _ _ L' K').
  - intros sock callback Hu Hs out.
    destruct (session_join_run sock (Some sessionId) callback w') as (_ & _ & H).
    specialize (H _ eq_refl Hs). rewrite Hu, He in H. subst out. rewrite H.
    assert (Gateway.missing (Some sessionId) = false) as -> by (by destruct sessionId).
    split_and!; [done | done | eauto].
  - intros mentorId' b'. by apply (kickParticipant_removed _ _ _ _ _ _ _ L' K').
Qed.

Lemma removal_is_final_witness :
  let w' :=
    perform_all Scenario.busy_day
      (SessionService.kickParticipant "alice" "s1" "bob" Example.joined).2 in
  (SessionService.kickParticipant "alice" "s1" "bob" Example.joined).1 = Return true
  /\ (exists e, (SessionService.ensureSessionParticipant "bob" "s1" w').1 = Throw e)
  /\ (forall session,
        (SessionService.joinSessionByCode "bob" "JOIN-1" w').1 = Return session ->
        id session <> "s1")
  /\ rooms (net (Gateway.session_join Example.bob (Some "s1") true w').2) = rooms (net w').
Proof.
  cbv zeta. split; [reflexivity|].
  destruct (removal_is_final "alice" "s1" "bob" true Scenario.busy_day Example.joined eq_refl)
    as (A & J & S & _).
  split; [exact A|]. split; [exact (J "JOIN-1")|].
  destruct (S Example.bob true eq_refl) as (_ & R & _); [discriminate | exact R].
Defined.

(** ** [listSessionsForUser] *)

Lemma select_memberships_run (u : string) (w : World) :
  on_store (Db.select_memberships u) w =
  (Return match Db.scripted 0 (store w) with
          | Some e => Failed e
          | None =>
              Served ((fun kv : string * string * ParticipantRow => kv.1.1)
                        <$> filter (fun kv : string * string * ParticipantRow => kv.1.2 = u)
                              (map_to_list (session_participants (tables (store w)))))
          end, after_call w).
Proof.
  unfold on_store, Db.select_memberships.
  destruct (Db.scripted 0 (store w)) as [e|] eqn:E.
  - by rewrite (round_trip_failed _ _ e E).
  - by rewrite (round_trip_served _ _ E), tables_advance.
Qed.

Lemma select_sessions_in_run (instant : string -> N) (ids : list string) (w : World) :
  on_store (Db.select_sessions_in instant ids) w =
  (Return match Db.scripted 0 (store w) with
          | Some e => Failed e
          | None =>
              Served (merge_sort (Db.scheduled_first instant)
                        ((fun kv : string * SessionRow => Db.view kv.1 kv.2 (tables (store w)))
                           <$> filter (fun kv : string * SessionRow => kv.1 ∈ ids)
                                 (map_to_list (mentorship_sessions (tables (store w))))))
          end, after_call w).
Proof.
  unfold on_store, Db.select_sessions_in.
  destruct (Db.scripted 0 (store w)) as [e|] eqn:E.
  - by rewrite (round_trip_failed _ _ e E).
  - by rewrite (round_trip_served _ _ E), tables_advance.
Qed.

#[local] Instance scheduled_first_total (instant : string -> N) :
  Total (Db.scheduled_first instant).
Proof.
  intros a b. unfold Db.scheduled_first.
  destruct (scheduled_at (row a)), (scheduled_at (row b)); auto. lia.
Qed.

#[local] Instance scheduled_first_transitive (instant : string -> N) :
  Transitive (Db.scheduled_first instant).
Proof.
  intros a b c. unfold Db.scheduled_first.
  destruct (scheduled_at (row a)), (scheduled_at (row b)), (scheduled_at (row c));
    auto; try done. lia.
Qed.

(** The sessions a user has a row in, removed or not. *)
Lemma elem_of_memberships (u s : string) (t : Tables) :
  s ∈ Js.uniq ((fun kv : string * string * ParticipantRow => kv.1.1)
                 <$> filter (fun kv : string * string * ParticipantRow => kv.1.2 = u)
                       (map_to_list (session_participants t)))
  <-> is_Some (session_participants t !! (s, u)).
Proof.
  unfold Js.uniq. rewrite elem_of_uniq_from, list_elem_of_fmap. split.
  - intros [([[s' u'] p] & -> & H) _]. apply list_elem_of_filter in H as [Hu H].
    apply elem_of_map_to_list in H. cbn in *. subst u'. eauto.
  - intros [p H]. split; [|by apply not_elem_of_nil].
    exists ((s, u), p). split; [done|]. apply list_elem_of_filter. split; [done|].
    by apply elem_of_map_to_list.
Qed.

(** X5.  With the store answering, [listSessionsForUser] returns exactly
    the stored sessions in which the user has a participant row, each once
    and with its participants, whether or not the user has been removed
    from it; the list is ordered by [scheduled_at], the sessions without
    one first; nothing is written.  A user without any row gets the empty
    list after a single call to the store. *)
Theorem listSessionsForUser_outcome (instant : string -> N) (userId : string) (w : World) :
  served 2 w ->
  let out := SessionService.listSessionsForUser instant userId w in
  let t := tables (store w) in
  (exists l,
     out.1 = Return l
     /\ (forall session,
           session ∈ l
           <-> exists r,
                 mentorship_sessions t !! id session = Some r
                 /\ is_Some (session_participants t !! (id session, userId))
                 /\ session = Db.view (id session) r t)
     /\ NoDup (id <$> l)
     /\ StronglySorted (Db.scheduled_first instant) l)
  /\ tables (store out.2) = t
  /\ ((forall s, session_participants t !! (s, userId) = None) -> out = (Return [], after_call w)).
Proof.
  intros Hs out t. subst out t.
  unfold SessionService.listSessionsForUser, mbind, M_bind.
  rewrite select_memberships_run, (served_head _ _ Hs). cbn.
  set (ids := Js.uniq _).
  assert (Hids : forall s, s ∈ ids <-> is_Some (session_participants (tables (store w)) !! (s, userId)))
    by (intros s; apply elem_of_memberships).
  destruct (decide (length ids = 0%nat)) as [Hnil|Hcons].
  - apply nil_length_inv in Hnil. rewrite Hnil in Hids. cbn.
    split_and!; [|done|done].
    exists []. split_and!; [done | | constructor | constructor].
    intros session. split; [by intros ?%elem_of_nil|].
    intros (r & _ & Hp & _). by apply Hids, elem_of_nil in Hp.
  - rewrite select_sessions_in_run, store_after_call, scripted_advance, (Hs 1%nat) by lia.
    rewrite tables_advance. cbn.
    split_and!; [|done|].
    + eexists. split_and!; [reflexivity | | |].
      * intros session. rewrite merge_sort_Permutation, list_elem_of_fmap. split.
        -- intros ([k r] & -> & H). apply list_elem_of_filter in H as [Hk H].
           apply elem_of_map_to_list in H. cbn in *. exists r. split_and!; [done| |done].
           by apply Hids.
        -- intros (r & Hr & Hp & ->). exists (id session, r). split; [done|].
           apply list_elem_of_filter. split; [by apply Hids|]. by apply elem_of_map_to_list.
      * rewrite merge_sort_Permutation, <- list_fmap_compose.
        apply (NoDup_fmap_2_strong _); [|apply NoDup_filter, NoDup_map_to_list].
        intros [k1 r1] [k2 r2] H1%list_elem_of_filter H2%list_elem_of_filter Heq.
        destruct H1 as [_ H1%elem_of_map_to_list], H2 as [_ H2%elem_of_map_to_list].
        cbn in Heq. subst k2. f_equal. congruence.
      * apply StronglySorted_merge_sort; apply _.
    + intros Hnone. exfalso. apply Hcons.
      destruct ids as [|s ids']; [done|].
      assert (H : s ∈ s :: ids') by left. apply Hids in H as [p H].
      by rewrite Hnone in H.
Qed.

Lemma listSessionsForUser_outcome_witness :
  served 2 Example.calm
  /\ (exists stamp,
        (fun p => kicked_at p) <$> session_participants (tables (store Example.calm))
                                     !! ("s1", "carol") = Some (Some stamp))
  /\ exists l,
       (SessionService.listSessionsForUser (fun _ => 0%N) "carol" Example.calm).1 = Return l
       /\ Db.view "s1" Example.pairing (tables (store Example.calm)) ∈ l.
Proof.
  assert (H : served 2 Example.calm) by (intros i _; reflexivity).
  split; [exact H|]. split; [by exists 1700%N|].
  destruct (listSessionsForUser_outcome (fun _ => 0%N) "carol" Example.calm H)
    as [(l & Hl & Hin & _) _].
  exists l. split; [exact Hl|]. apply Hin.
  exists Example.pairing. split_and!; [reflexivity | by eexists | reflexivity].
Defined.

(** ** Reading a session, writing to its history *)

(** X6.  [getSessionForUser] asks the admission check first: with the store
    answering, someone without a row for the session, or removed from it,
    gets 403 whether or not the session exists; a participant gets 404 when
    the session row is missing and the session with its participants when
    it is there.  Nothing is written. *)
Theorem getSessionForUser_outcomes (userId sessionId : string) (w : World) :
  served 2 w ->
  let out := SessionService.getSessionForUser userId sessionId w in
  let t := tables (store w) in
  let found := session_participants t !! (sessionId, userId) in
  (found = None -> out.1 = Throw (http 403 "You are not a participant in this session" None))
  /\ (forall p stamp, found = Some p -> kicked_at p = Some stamp ->
        out.1 = Throw (http 403 "You have been removed from this session" None))
  /\ (forall p, found = Some p -> kicked_at p = None ->
        match mentorship_sessions t !! sessionId with
        | None => out.1 = Throw (http 404 "Session not found" None)
        | Some r =>
            out.1 = Return {| id := sessionId; row := r;
                              participants := Db.participants_of sessionId t |}
        end)
  /\ tables (store out.2) = t /\ host out.2 = host w /\ net out.2 = net w.
Proof.
  intros Hs out t found. subst out t found.
  unfold SessionService.getSessionForUser, mbind, M_bind.
  rewrite ensureSessionParticipant_run, (served_head _ _ Hs).
  destruct (session_participants (tables (store w)) !! (sessionId, userId)) as [p|]; cbn.
  2: { split_and!; done. }
  destruct (kicked_at p) as [stamp|] eqn:K; cbn.
  { split_and!; try done. intros ? [= <-] ?. congruence. }
  rewrite select_session_run, store_after_call, scripted_advance, (Hs 1%nat) by lia.
  rewrite tables_advance.
  destruct (mentorship_sessions (tables (store w)) !! sessionId) as [r|]; cbn;
    split_and!; try done; intros ? ? [= <-]; congruence.
Qed.

Lemma getSessionForUser_outcomes_witness :
  served 2 Example.calm
  /\ (SessionService.getSessionForUser "dave" "nowhere" Example.calm).1
     = Throw (http 403 "You are not a participant in this session" None)
  /\ (SessionService.getSessionForUser "carol" "s1" Example.calm).1
     = Throw (http 403 "You have been removed from this session" None)
  /\ exists session,
       (SessionService.getSessionForUser "bob" "s1" Example.calm).1 = Return session
       /\ row session = Example.pairing.
Proof.
  assert (H : served 2 Example.calm) by (intros i _; reflexivity).
  split; [exact H|].
  split; [|split].
  - destruct (getSessionForUser_outcomes "dave" "nowhere" Example.calm H) as (T & _).
    apply T. reflexivity.
  - destruct (getSessionForUser_outcomes "carol" "s1" Example.calm H) as (_ & T & _).
    apply (T Example.kicked_row 1700%N); reflexivity.
  - destruct (getSessionForUser_outcomes "bob" "s1" Example.calm H) as (_ & _ & T & _).
    specialize (T Example.active_row eq_refl eq_refl).
    eexists. split; [exact T | reflexivity].
Defined.

(** X7.  [addSessionMessage] stores a message exactly when both of its
    calls to the store are served and the author has a row for the session
    that is not removed; it then appends that one message, with the session,
    the author and the content as given, and in every other case it throws
    and stores nothing.  It never reads the session itself: neither its
    existence nor its [allow_chat] setting matters. *)
Theorem addSessionMessage_admits_participants_only (sessionId userId text : string)
    (w : World) :
  let out := SessionService.addSessionMessage sessionId userId text w in
  let t := tables (store w) in
  (out.1 = Return tt
   <-> Db.scripted 0 (store w) = None /\ Db.scripted 1 (store w) = None
       /\ exists p, session_participants t !! (sessionId, userId) = Some p
                    /\ kicked_at p = None)
  /\ (out.1 = Return tt ->
        tables (store out.2)
        = Db.with_messages
            (session_messages t
             ++ [ {| message_session_id := sessionId; message_author_id := userId;
                     content := text |} ]) t)
  /\ (out.1 <> Return tt ->
        (exists h, out.1 = Throw (Http h)) /\ tables (store out.2) = t).
Proof.
  intros out t. subst out t.
  unfold SessionService.addSessionMessage, mbind, M_bind.
  rewrite ensureSessionParticipant_run.
  destruct (Db.scripted 0 (store w)) as [e|]; cbn.
  { split_and!; [split; [done | by intros [? _]] | done | eauto]. }
  destruct (session_participants (tables (store w)) !! (sessionId, userId)) as [p|]; cbn.
  2: { split_and!; [split; [done | by intros (_ & _ & ? & ? & _)] | done | eauto]. }
  destruct (kicked_at p) as [stamp|] eqn:K; cbn.
  { split_and!; [split; [done | intros (_ & _ & ? & [= <-] & ?); congruence] | done | eauto]. }
  rewrite insert_message_run, store_after_call, scripted_advance, tables_advance.
  destruct (Db.scripted 1 (store w)) as [e|]; cbn.
  { split_and!; [split; [done | by intros (_ & ? & _)] | done | eauto]. }
  split_and!; [split; eauto | done | done].
Qed.

(** X8.  [addCodeSnapshot] stores a snapshot exactly when both of its calls
    to the store are served and the author has a row for the session that
    is not removed; it then appends that one snapshot, with the session,
    the author, the language and the code as given, and in every other case
    it throws and stores nothing.  It never reads the session itself: neither
    its existence, nor its [allow_collab] setting, nor the [can_edit] flag
    of the author matters. *)
Theorem addCodeSnapshot_admits_participants_only (sessionId userId code language : string)
    (w : World) :
  let out := SessionService.addCodeSnapshot sessionId userId code language w in
  let t := tables (store w) in
  (out.1 = Return tt
   <-> Db.scripted 0 (store w) = None /\ Db.scripted 1 (store w) = None
       /\ exists p, session_participants t !! (sessionId, userId) = Some p
                    /\ kicked_at p = None)
  /\ (out.1 = Return tt ->
        tables (store out.2)
        = Db.with_snapshots
            (session_code_snapshots t
             ++ [ {| snapshot_session_id := sessionId; snapshot_author_id := userId;
                     snapshot_language := language; snapshot_code := code |} ]) t)
  /\ (out.1 <> Return tt ->
        (exists h, out.1 = Throw (Http h)) /\ tables (store out.2) = t).
Proof.
  intros out t. subst out t.
  unfold SessionService.addCodeSnapshot, mbind, M_bind.
  rewrite ensureSessionParticipant_run.
  destruct (Db.scripted 0 (store w)) as [e|]; cbn.
  { split_and!; [split; [done | by intros [? _]] | done | eauto]. }
  destruct (session_participants (tables (store w)) !! (sessionId, userId)) as [p|]; cbn.
  2: { split_and!; [split; [done | by intros (_ & _ & ? & ? & _)] | done | eauto]. }
  destruct (kicked_at p) as [stamp|] eqn:K; cbn.
  { split_and!; [split; [done | intros (_ & _ & ? & [= <-] & ?); congruence] | done | eauto]. }
  rewrite insert_snapshot_run, store_after_call, scripted_advance, tables_advance.
  destruct (Db.scripted 1 (store w)) as [e|]; cbn.
  { split_and!; [split; [done | by intros (_ & ? & _)] | done | eauto]. }
  split_and!; [split; eauto | done | done].
Qed.

(** ** [updateParticipantPermissions], and a store that fails *)

Lemma permission_patch_keys_nil (changes : PermissionChanges) :
  length (SessionService.permission_patch_keys (SessionService.permission_patch changes)) = 0%nat
  <-> ch_can_edit changes = None /\ ch_can_share_screen changes = None.
Proof.
  unfold SessionService.permission_patch_keys, SessionService.permission_patch. cbn.
  destruct (ch_can_edit changes), (ch_can_share_screen changes); cbn; split;
    try done; intros [? ?]; done.
Qed.

(** X9.  With the store answering, [updateParticipantPermissions] fails
    with 404 when the session is missing, with 403 when the caller did not
    create it, with 400 when no flag is supplied, and with 404 when the
    target has no row; in all these cases nothing is written.  Otherwise it
    returns the row of the target with the supplied flags set, and stores
    it: a flag that is not supplied, the role and the removal stamp stay as
    they were, and no other row changes. *)
Theorem updateParticipantPermissions_outcomes (mentorId sessionId targetUserId : string)
    (changes : PermissionChanges) (w : World) :
  served 2 w ->
  let out :=
    SessionService.updateParticipantPermissions mentorId sessionId targetUserId changes w in
  let t := tables (store w) in
  let nothing := ch_can_edit changes = None /\ ch_can_share_screen changes = None in
  (mentorship_sessions t !! sessionId = None ->
     out.1 = Throw (http 404 "Session not found" None) /\ tables (store out.2) = t)
  /\ (forall r, mentorship_sessions t !! sessionId = Some r ->
        (created_by r <> mentorId ->
           out.1 = Throw (http 403 "Only the session creator can update participant permissions"
                            None)
           /\ tables (store out.2) = t)
        /\ (created_by r = mentorId -> nothing ->
              out.1 = Throw (http 400 "No permission changes provided" None)
              /\ tables (store out.2) = t)
        /\ (created_by r = mentorId -> ~ nothing ->
              match session_participants t !! (sessionId, targetUserId) with
              | None =>
                  out.1 = Throw (http 404 "Participant not found" None)
                  /\ tables (store out.2) = t
              | Some p =>
                  let p' :=
                    {| role := role p; kicked_at := kicked_at p;
                       can_edit := Js.nullish (ch_can_edit changes) (can_edit p);
                       can_share_screen :=
                         Js.nullish (ch_can_share_screen changes) (can_share_screen p) |} in
                  out.1 = Return p'
                  /\ tables (store out.2)
                     = Db.with_participants
                         (<[(sessionId, targetUserId) := p']> (session_participants t)) t
              end)).
Proof.
  intros Hs out t nothing. subst out t nothing.
  unfold SessionService.updateParticipantPermissions, mbind, M_bind.
  rewrite ensureSessionExistsWithOwner_run, (served_head _ _ Hs).
  destruct (mentorship_sessions (tables (store w)) !! sessionId) as [r|]; cbn.
  2: { split; [done | intros ? [=]]. }
  split; [intros [=]|]. intros ? [= <-].
  destruct (decide (created_by r <> mentorId)) as [Hne|Heq]; cbn.
  { split_and!; done. }
  apply dec_stable in Heq.
  destruct (decide _) as [Hnil|Hsome]; cbn.
  { apply permission_patch_keys_nil in Hnil. split_and!; done. }
  rewrite permission_patch_keys_nil in Hsome.
  split_and!; try done. intros _ _.
  rewrite update_participant_run, store_after_call, scripted_advance, (Hs 1%nat) by lia.
  rewrite tables_advance.
  destruct (session_participants (tables (store w)) !! (sessionId, targetUserId)) as [p|];
    cbn; done.
Qed.

Lemma updateParticipantPermissions_outcomes_witness :
  served 2 Example.calm
  /\ (SessionService.updateParticipantPermissions "bob" "s1" "alice"
        {| ch_can_edit := Some false; ch_can_share_screen := None |} Example.calm).1
     = Throw (http 403 "Only the session creator can update participant permissions" None)
  /\ (SessionService.updateParticipantPermissions "alice" "s1" "bob"
        {| ch_can_edit := None; ch_can_share_screen := Some true |} Example.calm).1
     = Return {| role := student; kicked_at := None; can_edit := true;
                 can_share_screen := true |}.
Proof.
  assert (H : served 2 Example.calm) by (intros i _; reflexivity).
  split; [exact H|]. split.
  - destruct (updateParticipantPermissions_outcomes "bob" "s1" "alice"
                {| ch_can_edit := Some false; ch_can_share_screen := None |} Example.calm H)
      as (_ & T).
    destruct (T Example.pairing eq_refl) as (T1 & _). apply T1. discriminate.
  - destruct (updateParticipantPermissions_outcomes "alice" "s1" "bob"
                {| ch_can_edit := None; ch_can_share_screen := Some true |} Example.calm H)
      as (_ & T).
    destruct (T Example.pairing eq_refl) as (_ & _ & T3).
    apply T3; [reflexivity | intros [_ ?]; discriminate].
Defined.

Lemma formatPostgrestError_Some (e : PostgrestError) : formatPostgrestError (Some e) = Some e.
Proof. by destruct e. Qed.

(** X10.  When the store fails the first call of a service, the service
    throws 500 with a message of its own and, as details, the message,
    details, hint and code of the failure as the store gave them; it makes
    no further call and nothing is written. *)
Theorem store_failure_is_reported (e : PostgrestError) (w : World) :
  Db.scripted 0 (store w) = Some e ->
  let failing {A} (m : M A) (message : string) :=
    m w = (Throw (http 500 message (Some e)), after_call w) in
  (forall instant userId,
     failing (SessionService.listSessionsForUser instant userId)
       "Unable to load session memberships")
  /\ (forall userId sessionId,
        failing (SessionService.ensureSessionParticipant userId sessionId)
          "Unable to verify session access")
  /\ (forall userId sessionId,
        failing (SessionService.getSessionForUser userId sessionId)
          "Unable to verify session access")
  /\ (forall sessionId userId content,
        failing (SessionService.addSessionMessage sessionId userId content)
          "Unable to verify session access")
  /\ (forall sessionId userId code language,
        failing (SessionService.addCodeSnapshot sessionId userId code language)
          "Unable to verify session access")
  /\ (forall mentorId input,
        failing (SessionService.createSession mentorId input) "Unable to create session")
  /\ (forall userId inviteCode,
        failing (SessionService.joinSessionByCode userId inviteCode)
          "Unable to look up session")
  /\ (forall mentorId sessionId updates, ~ nothing_supplied updates ->
        failing (SessionService.updateSessionSettings mentorId sessionId updates)
          "Unable to update session")
  /\ (forall mentorId sessionId targetUserId,
        failing (SessionService.kickParticipant mentorId sessionId targetUserId)
          "Unable to load session")
  /\ (forall mentorId sessionId targetUserId changes,
        failing (SessionService.updateParticipantPermissions mentorId sessionId targetUserId
                   changes)
          "Unable to load session").
Proof.
  intros E failing. subst failing. cbv beta.
  split_and!; intros.
  - unfold SessionService.listSessionsForUser, mbind, M_bind.
    by rewrite select_memberships_run, E, formatPostgrestError_Some.
  - by rewrite ensureSessionParticipant_run, E, formatPostgrestError_Some.
  - unfold SessionService.getSessionForUser, mbind, M_bind.
    by rewrite ensureSessionParticipant_run, E, formatPostgrestError_Some.
  - unfold SessionService.addSessionMessage, mbind, M_bind.
    by rewrite ensureSessionParticipant_run, E, formatPostgrestError_Some.
  - unfold SessionService.addCodeSnapshot, mbind, M_bind.
    by rewrite ensureSessionParticipant_run, E, formatPostgrestError_Some.
  - unfold SessionService.createSession, mbind, M_bind, on_store, Db.insert_session.
    by rewrite (round_trip_failed _ _ e E), formatPostgrestError_Some.
  - unfold SessionService.joinSessionByCode, mbind, M_bind, on_store,
      Db.select_session_by_code.
    by rewrite (round_trip_failed _ _ e E), formatPostgrestError_Some.
  - unfold SessionService.updateSessionSettings. cbv zeta.
    destruct (decide _) as [Hnil|_]; [by apply session_patch_keys_nil in Hnil|].
    unfold mbind, M_bind. by rewrite update_session_run, E, formatPostgrestError_Some.
  - unfold SessionService.kickParticipant, mbind, M_bind.
    by rewrite ensureSessionExistsWithOwner_run, E, formatPostgrestError_Some.
  - unfold SessionService.updateParticipantPermissions, mbind, M_bind.
    by rewrite ensureSessionExistsWithOwner_run, E, formatPostgrestError_Some.
Qed.

Lemma store_failure_is_reported_witness :
  let w := Example.world_with [Some Example.outage] [] [] in
  Db.scripted 0 (store w) = Some Example.outage
  /\ SessionService.kickParticipant "alice" "s1" "bob" w
     = (Throw (http 500 "Unable to load session" (Some Example.outage)), after_call w)
  /\ tables (store (SessionService.kickParticipant "alice" "s1" "bob" w).2)
     = Example.some_tables.
Proof.
  cbv zeta. split; [reflexivity|].
  destruct (store_failure_is_reported Example.outage
              (Example.world_with [Some Example.outage] [] []) eq_refl)
    as (_ & _ & _ & _ & _ & _ & _ & _ & T & _).
  split; [apply T | rewrite T; reflexivity].
Defined.

(** ** A new session and its participants *)

Lemma elem_of_participants_of (s u : string) (p : ParticipantRow) (t : Tables) :
  (u, p) ∈ Db.participants_of s t <-> session_participants t !! (s, u) = Some p.
Proof.
  unfold Db.participants_of. rewrite list_elem_of_fmap. split.
  - intros ([[s' u'] p'] & [= -> ->] & H). apply list_elem_of_filter in H as [Hs H].
    apply elem_of_map_to_list in H. cbn in Hs. by subst s'.
  - intros H. exists ((s, u), p). split; [done|]. apply list_elem_of_filter.
    split; [done|]. by apply elem_of_map_to_list.
Qed.

(** What a [createSession] that returned has stored. *)
Lemma createSession_returned (mentorId : string) (input : SessionCreateInput) (w : World)
    (session : Session) :
  (SessionService.createSession mentorId input w).1 = Return session ->
  let after := tables (store (SessionService.createSession mentorId input w).2) in
  mentorship_sessions (tables (store w)) !! id session = None
  /\ session = Db.view (id session) (row session)
                 (Db.with_sessions
                    (<[id session := row session]> (mentorship_sessions (tables (store w))))
                    (tables (store w)))
  /\ session_participants (tables (store w)) !! (id session, mentorId) = None
  /\ mentorship_sessions after !! id session = Some (row session)
  /\ session_participants after !! (id session, mentorId)
     = Some {| role := mentor; kicked_at := None; can_edit := true; can_share_screen := true |}
  /\ (forall u, u ∈ SessionService.uniqueStudentIds mentorId input ->
        session_participants after !! (id session, u)
        = Some {| role := student; kicked_at := None;
                  can_edit := default_can_edit (schema (store w));
                  can_share_screen := default_can_share_screen (schema (store w)) |})
  /\ forall n,
       Db.scripted n (store (SessionService.createSession mentorId input w).2)
       = Db.scripted (S (S n)) (store w).
Proof.
  unfold SessionService.createSession, mbind, M_bind.
  destruct (on_store (Db.insert_session _) w) as [c w1] eqn:E1.
  destruct c as [[created|e]|ex]; cbn; [|discriminate|discriminate].
  pose proof (insert_session_served _ _ _ _ E1) as (Hfresh & Ht1 & _ & Hsch & Hscr & _ & _).
  assert (Hview : created = Db.view (id created) (row created)
                              (Db.with_sessions
                                 (<[id created := row created]>
                                    (mentorship_sessions (tables (store w))))
                                 (tables (store w)))).
  { clear -E1. unfold on_store, Db.insert_session, Db.round_trip in E1.
    destruct (store_script (store w)) as [|[e|] rest]; cbn in E1; try discriminate;
      (destruct (store_fresh (store w)) as [|g fresh]; cbn in E1; [discriminate|]);
      (destruct (mentorship_sessions (tables (store w)) !! gen_id g);
       cbn in E1; [discriminate|]);
      injection E1 as <- _; reflexivity. }
  rewrite insert_participants_run.
  destruct (Db.scripted 0 (store w1)) eqn:S1; cbn.
  { destruct (on_store (Db.delete_session _) _) as [[?|?] ?]; cbn; discriminate. }
  destruct (Db.add_rows _ _ _) as [m|] eqn:A; cbn.
  2: { destruct (on_store (Db.delete_session _) _) as [[?|?] ?]; cbn; discriminate. }
  intros [= <-].
  rewrite Ht1, Hsch in A. cbn in A.
  apply add_rows_Some in A as (_ & Hin & _ & _).
  unfold with_tables. cbn. rewrite Ht1. cbn.
  pose proof (Hin {| new_session_id := id created; new_user_id := mentorId;
                     new_role := mentor; new_can_edit := Some true;
                     new_can_share_screen := Some true |}) as [Hm0 Hm1]; [left|].
  split_and!; try done.
  - by rewrite lookup_insert_eq.
  - intros u Hu.
    apply (Hin {| new_session_id := id created; new_user_id := u; new_role := student;
                  new_can_edit := None; new_can_share_screen := None |}).
    right. apply list_elem_of_fmap. by exists u.
  - intros n. rewrite <- Hscr, <- scripted_advance. reflexivity.
Qed.

(** X11.  The session [createSession] returns was read back by the insert,
    before the participants were stored: its list of participants does not
    contain the creator.  The rows are there all the same: with the store
    answering, the creator and every invited user (any given id that is
    not empty) can then read the session with [getSessionForUser], and find
    themselves among its participants, the creator as mentor and the others
    as students. *)
Theorem createSession_then_getSessionForUser (mentorId : string) (input : SessionCreateInput)
    (w : World) (session : Session) :
  let out := SessionService.createSession mentorId input w in
  out.1 = Return session ->
  served 2 out.2 ->
  (forall p, (mentorId, p) ∉ participants session)
  /\ forall u,
       u = mentorId \/ (u ∈ Js.nullish (participantUserIds input) [] /\ u <> "") ->
       exists read p,
         (SessionService.getSessionForUser u (id session) out.2).1 = Return read
         /\ id read = id session /\ row read = row session
         /\ (u, p) ∈ participants read
         /\ kicked_at p = None
         /\ role p = if decide (u = mentorId) then mentor else student.
Proof.
  intros out Hret Hs. subst out.
  destruct (createSession_returned _ _ _ _ Hret)
    as (Hfresh & Hview & Hbefore & Hsession & Hmentor & Hstudents & _).
  cbv zeta in Hsession, Hmentor, Hstudents.
  set (w1 := (SessionService.createSession mentorId input w).2) in *.
  split.
  - intros p Hp. rewrite Hview in Hp. cbn in Hp.
    apply elem_of_participants_of in Hp. cbn in Hp. congruence.
  - intros u Hu.
    assert (exists p, session_participants (tables (store w1)) !! (id session, u) = Some p
                      /\ kicked_at p = None
                      /\ role p = if decide (u = mentorId) then mentor else student)
      as (p & Hp & Hk & Hr).
    { destruct (decide (u = mentorId)) as [->|Hne]; [by eexists|].
      destruct Hu as [?|[Hin Hu]]; [done|].
      eexists. split; [apply Hstudents; by apply uniqueStudentIds_spec | done]. }
    unfold SessionService.getSessionForUser, mbind, M_bind.
    rewrite ensureSessionParticipant_run, (served_head _ _ Hs), Hp, Hk. cbn.
    rewrite select_session_run, store_after_call, scripted_advance, (Hs 1%nat) by lia.
    rewrite tables_advance, Hsession. cbn.
    eexists _, p. split_and!; try done. cbn. by apply elem_of_participants_of.
Qed.

Lemma createSession_then_getSessionForUser_witness :
  let out :=
    SessionService.createSession "erin" (Example.inviting ["bob"; ""; "erin"]) Example.calm in
  (exists session, out.1 = Return session /\ id session = "s2" /\ participants session = [])
  /\ served 2 out.2
  /\ exists read p,
       (SessionService.getSessionForUser "bob" "s2" out.2).1 = Return read
       /\ ("bob", p) ∈ participants read
       /\ role p = student.
Proof.
  cbv zeta.
  assert (H : served 2 (SessionService.createSession "erin"
                          (Example.inviting ["bob"; ""; "erin"]) Example.calm).2)
    by (intros i _; reflexivity).
  split; [eexists; split_and!; reflexivity|]. split; [exact H|].
  destruct (createSession_then_getSessionForUser "erin" (Example.inviting ["bob"; ""; "erin"])
              Example.calm _ eq_refl H) as (_ & T).
  destruct (T "bob") as (read & p & Hread & _ & _ & Hin & _ & Hrole).
  { right. split; [apply list_elem_of_here | discriminate]. }
  exists read, p. split_and!; [exact Hread | exact Hin | exact Hrole].
Defined.

(** ** Joining by invite code, twice *)

Lemma select_session_by_code_again (c : string) (w w1 w' : World) (session : Session) :
  on_store (Db.select_session_by_code c) w = (Return (Served (Some session)), w1) ->
  Db.scripted 0 (store w') = None ->
  mentorship_sessions (tables (store w')) = mentorship_sessions (tables (store w)) ->
  on_store (Db.select_session_by_code c) w'
  = (Return (Served (Some (Db.view (id session) (row session) (tables (store w'))))),
     after_call w').
Proof.
  unfold on_store, Db.select_session_by_code. intros H E' Hsame.
  rewrite (round_trip_served _ _ E'), tables_advance, Hsame.
  destruct (Db.scripted 0 (store w)) as [e|] eqn:E.
  { rewrite (round_trip_failed _ _ e E) in H. discriminate. }
  rewrite (round_trip_served _ _ E), tables_advance in H.
  destruct (filter _ _) as [|[k r] [|kv' l]]; try discriminate.
  cbn in H. injection H as <- _. reflexivity.
Qed.

(** What a [joinSessionByCode] that returned has found and stored. *)
Lemma joinSessionByCode_returned (userId inviteCode : string) (w : World) (session : Session) :
  (SessionService.joinSessionByCode userId inviteCode w).1 = Return session ->
  let out := SessionService.joinSessionByCode userId inviteCode w in
  (exists w1,
     on_store (Db.select_session_by_code inviteCode) w = (Return (Served (Some session)), w1))
  /\ ~ (status (row session) = completed \/ status (row session) = cancelled)
  /\ mentorship_sessions (tables (store out.2)) = mentorship_sessions (tables (store w))
  /\ exists p,
       session_participants (tables (store out.2)) !! (id session, userId) = Some p
       /\ kicked_at p = None.
Proof.
  unfold SessionService.joinSessionByCode, mbind, M_bind.
  destruct (select_session_by_code_run inviteCode w) as (r & Hsel & _).
  rewrite Hsel. cbn.
  destruct r as [[found|]|e]; cbn; try discriminate.
  destruct (decide _) as [|Hopen]; [discriminate|].
  rewrite select_participant_run, store_after_call, tables_advance.
  destruct (Db.scripted 0 _); [discriminate|]. cbn.
  destruct (session_participants (tables (store w)) !! (id found, userId)) as [p|] eqn:L; cbn.
  - destruct (bool_decide (is_Some (kicked_at p))) eqn:K; cbn; [discriminate|].
    apply is_Some_kicked in K. intros [= <-]. split_and!; eauto.
  - rewrite insert_participants_run.
    destruct (Db.scripted 0 _); [discriminate|].
    rewrite !store_after_call, !tables_advance.
    cbn. unfold Db.row_key. cbn. rewrite L. cbn.
    intros [= <-]. split_and!; eauto.
    eexists. split; [apply lookup_insert_eq | reflexivity].
Qed.

(** X12.  Joining by invite code takes effect and can be repeated.  Once
    [joinSessionByCode] has returned a session, and with the store
    answering, the admission check lets the user in to that session, and a
    second [joinSessionByCode] with the same code returns the same session
    and writes nothing. *)
Theorem joinSessionByCode_then_admitted (userId inviteCode : string) (w : World)
    (session : Session) :
  let out := SessionService.joinSessionByCode userId inviteCode w in
  out.1 = Return session ->
  served 2 out.2 ->
  (exists p,
     (SessionService.ensureSessionParticipant userId (id session) out.2).1 = Return p
     /\ kicked_at p = None)
  /\ let again := SessionService.joinSessionByCode userId inviteCode out.2 in
     (exists l, again.1 = Return {| id := id session; row := row session; participants := l |})
     /\ tables (store again.2) = tables (store out.2).
Proof.
  intros out Hret Hs. subst out.
  destruct (joinSessionByCode_returned _ _ _ _ Hret) as ((w1 & Hsel) & Hopen & Hsame & p & Hp & Hk).
  cbv zeta in Hsame, Hp.
  set (w' := (SessionService.joinSessionByCode userId inviteCode w).2) in *.
  split.
  - exists p. rewrite ensureSessionParticipant_run, (served_head _ _ Hs), Hp, Hk. done.
  - cbv zeta. unfold SessionService.joinSessionByCode, mbind, M_bind.
    rewrite (select_session_by_code_again _ _ _ _ _ Hsel (served_head _ _ Hs) Hsame). cbn.
    destruct (decide _) as [|_]; [done|].
    rewrite select_participant_run, store_after_call, scripted_advance, (Hs 1%nat) by lia.
    rewrite tables_advance, Hp. cbn. rewrite Hk. cbn. eauto.
Qed.

Lemma joinSessionByCode_then_admitted_witness :
  let out := SessionService.joinSessionByCode "dave" "JOIN-1" Example.calm in
  session_participants (tables (store Example.calm)) !! ("s1", "dave") = None
  /\ (exists session, out.1 = Return session /\ id session = "s1")
  /\ served 2 out.2
  /\ (exists p, (SessionService.ensureSessionParticipant "dave" "s1" out.2).1 = Return p)
  /\ tables (store (SessionService.joinSessionByCode "dave" "JOIN-1" out.2).2)
     = tables (store out.2).
Proof.
  cbv zeta.
  assert (H : served 2 (SessionService.joinSessionByCode "dave" "JOIN-1" Example.calm).2)
    by (intros i _; reflexivity).
  split; [reflexivity|]. split; [eexists; split; reflexivity|]. split; [exact H|].
  destruct (joinSessionByCode_then_admitted "dave" "JOIN-1" Example.calm _ eq_refl H)
    as ((p & A & _) & _ & T).
  split; [exists p; exact A | exact T].
Defined.

(** ** The session service works on the store alone *)

#[local] Instance store_only_preorder : PreOrder store_only.
Proof.
  split.
  - by intros w.
  - intros w1 w2 w3 [H1 N1] [H2 N2]. split; congruence.
Qed.

Lemma store_only_on_store {A} (f : Store -> A * Store) : respects store_only (on_store f).
Proof. intros w. unfold on_store. by destruct (f (store w)). Qed.

Lemma store_only_Date_now : respects store_only Node.Date_now.
Proof. intros w. by rewrite Date_now_run. Qed.

Ltac store_only_steps :=
  repeat match goal with
    | |- respects _ (mret _) => apply respects_ret; apply _
    | |- respects _ (throw _) => apply respects_throw; apply _
    | |- respects _ (on_store _) => apply store_only_on_store
    | |- respects _ Node.Date_now => apply store_only_Date_now
    | |- respects _ (_ ≫= _) => apply respects_bind; [apply _ | | intros ?]
    | |- respects _ (match ?x with _ => _ end) => destruct x
    end.

Lemma ensureSessionParticipant_store_only (userId sessionId : string) :
  respects store_only (SessionService.ensureSessionParticipant userId sessionId).
Proof. unfold SessionService.ensureSessionParticipant. store_only_steps. Qed.

Lemma ensureSessionExistsWithOwner_store_only (sessionId : string) :
  respects store_only (SessionService.ensureSessionExistsWithOwner sessionId).
Proof. unfold SessionService.ensureSessionExistsWithOwner. store_only_steps. Qed.

Lemma listSessionsForUser_store_only (instant : string -> N) (userId : string) :
  respects store_only (SessionService.listSessionsForUser instant userId).
Proof.
  unfold SessionService.listSessionsForUser. cbv zeta. store_only_steps.
Qed.

Lemma getSessionForUser_store_only (userId sessionId : string) :
  respects store_only (SessionService.getSessionForUser userId sessionId).
Proof.
  unfold SessionService.getSessionForUser. cbv zeta. store_only_steps.
  apply ensureSessionParticipant_store_only.
Qed.

Lemma addSessionMessage_store_only (sessionId userId content : string) :
  respects store_only (SessionService.addSessionMessage sessionId userId content).
Proof.
  unfold SessionService.addSessionMessage. cbv zeta. store_only_steps.
  apply ensureSessionParticipant_store_only.
Qed.

Lemma addCodeSnapshot_store_only (sessionId userId code language : string) :
  respects store_only (SessionService.addCodeSnapshot sessionId userId code language).
Proof.
  unfold SessionService.addCodeSnapshot. cbv zeta. store_only_steps.
  apply ensureSessionParticipant_store_only.
Qed.

Lemma createSession_store_only (mentorId : string) (input : SessionCreateInput) :
  respects store_only (SessionService.createSession mentorId input).
Proof.
  unfold SessionService.createSession. cbv zeta. store_only_steps.
Qed.

Lemma joinSessionByCode_store_only (userId inviteCode : string) :
  respects store_only (SessionService.joinSessionByCode userId inviteCode).
Proof.
  unfold SessionService.joinSessionByCode. cbv zeta. store_only_steps.
Qed.

Lemma updateSessionSettings_store_only (mentorId sessionId : string) (updates : SessionUpdateInput) :
  respects store_only (SessionService.updateSessionSettings mentorId sessionId updates).
Proof.
  unfold SessionService.updateSessionSettings. cbv zeta. store_only_steps.
Qed.

Lemma kickParticipant_store_only (mentorId sessionId targetUserId : string) :
  respects store_only (SessionService.kickParticipant mentorId sessionId targetUserId).
Proof.
  unfold SessionService.kickParticipant. cbv zeta. store_only_steps.
  apply ensureSessionExistsWithOwner_store_only.
Qed.

Lemma updateParticipantPermissions_store_only (mentorId sessionId targetUserId : string)
    (changes : PermissionChanges) :
  respects store_only (SessionService.updateParticipantPermissions mentorId sessionId targetUserId changes).
Proof.
  unfold SessionService.updateParticipantPermissions. cbv zeta. store_only_steps.
  apply ensureSessionExistsWithOwner_store_only.
Qed.

(** X13.  The session service works on the store alone: none of its
    functions emits anything, moves a socket in or out of a room, changes
    the session a socket records, or touches the clock, the disk or the
    child processes of the host.  So removing a participant leaves the
    sockets of the removed user where they were. *)
Theorem services_leave_sockets_alone (r : Request) (w : World) :
  service r = true ->
  host (perform r w) = host w /\ net (perform r w) = net w.
Proof.
  intros Hr. change (store_only w (perform r w)).
  destruct r; try discriminate Hr; cbn.
  - apply listSessionsForUser_store_only.
  - apply ensureSessionParticipant_store_only.
  - apply getSessionForUser_store_only.
  - apply addSessionMessage_store_only.
  - apply addCodeSnapshot_store_only.
  - apply createSession_store_only.
  - apply joinSessionByCode_store_only.
  - apply updateSessionSettings_store_only.
  - apply kickParticipant_store_only.
  - apply updateParticipantPermissions_store_only.
Qed.

Lemma services_leave_sockets_alone_witness :
  let w := Example.joined in
  service (KickParticipant "alice" "s1" "bob") = true
  /\ (SessionService.kickParticipant "alice" "s1" "bob" w).1 = Return true
  /\ slots (net (perform (KickParticipant "alice" "s1" "bob") w)) !! "k2" = Some "s1"
  /\ Gateway.members (net (perform (KickParticipant "alice" "s1" "bob") w)) "session:s1"
     = {[ "k2" ]}.
Proof.
  cbv zeta. split; [reflexivity|]. split; [reflexivity|].
  destruct (services_leave_sockets_alone (KickParticipant "alice" "s1" "bob") Example.joined
              eq_refl) as [_ ->].
  split; reflexivity.
Defined.

(** ** The socket handlers, step by step *)



(** X15.  What [chat:message] sends when the message was stored: one
    emission to the room of the session the socket records, then the
    acknowledgment.  The message carries the text, the id and the time of
    the payload, each replaced by the clock of the server when the payload
    has none, the session of the socket, and as author the user of the
    connection, named by the profile name or else by the email address. *)
Theorem chat_message_delivers (sock : Socket) (payload : option ChatIn) (callback : bool)
    (s text : string) (w : World) :
  slots (net w) !! socket_id sock = Some s -> s <> "" ->
  payload ≫= chat_in_text = Some text -> text <> "" ->
  (SessionService.addSessionMessage s (uid (user sock)) text w).1 = Return tt ->
  let out := Gateway.chat_message sock payload callback w in
  let now := clock (host w) in
  outbox (net out.2)
  = outbox (net w)
    ++ ToRoom ("session:" +:+ s) "chat:message"
         (Chat {| chat_id := match payload ≫= chat_in_id with
                             | Some i => Given i
                             | None => FromClock now
                             end;
                  chat_text := text;
                  chat_time := match payload ≫= chat_in_time with
                               | Some t => Given t
                               | None => FromClock now
                               end;
                  chat_author :=
                    {| author_id := uid (user sock);
                       author_name := match metadata_name (user sock) with
                                      | Some n => Some n
                                      | None => email (user sock)
                                      end |};
                  chat_sessionId := s |})
       :: approval sock callback
  /\ session_messages (tables (store out.2))
     = session_messages (tables (store w))
       ++ [ {| message_session_id := s; message_author_id := uid (user sock);
               content := text |} ]
  /\ slots (net out.2) = slots (net w) /\ rooms (net out.2) = rooms (net w).
Proof.
  intros Hslot Hs Htext Ht Hstored out now. subst out now.
  destruct (addSessionMessage_outcome s (uid (user sock)) text w) as (Hh & Hn & Hcase).
  cbv zeta in Hh, Hn, Hcase.
  destruct Hcase as [[_ Htab]|[[h Hthrow] _]]; [|congruence].
  unfold Gateway.chat_message. rewrite Htext.
  remember (payload ≫= chat_in_id) as i eqn:Ei.
  remember (payload ≫= chat_in_time) as tm eqn:Etm.
  unfold try_catch, mbind, M_bind.
  rewrite current_session_run, Hslot.
  assert (Gateway.missing (Some s) = false) as -> by (by destruct s).
  assert (Gateway.missing (Some text) = false) as -> by (by destruct text).
  cbn.
  destruct (SessionService.addSessionMessage s (uid (user sock)) text w) as [c w1].
  cbn in Hstored, Hh, Hn, Htab. subst c. cbn.
  rewrite Date_now_run. cbn. rewrite emit_run, acknowledge_run, send_send. cbn.
  unfold send. cbn. rewrite Hh, Hn, Htab. cbn. split_and!; reflexivity.
Qed.

Lemma chat_message_delivers_witness :
  let out := Gateway.chat_message Example.bob (Some Example.hello) true Example.calm in
  slots (net Example.calm) !! "k2" = Some "s1"
  /\ outbox (net out.2)
     = [ ToRoom "session:s1" "chat:message"
           (Chat {| chat_id := FromClock 2000; chat_text := "hi";
                    chat_time := FromClock 2000;
                    chat_author := {| author_id := "bob";
                                      author_name := Some "bob@example.org" |};
                    chat_sessionId := "s1" |});
         Ack "k2" AckOk ].
Proof.
  cbv zeta. split; [reflexivity|].
  destruct (chat_message_delivers Example.bob (Some Example.hello) true "s1" "hi" Example.calm)
    as (T & _); [reflexivity | discriminate | reflexivity | discriminate | reflexivity |].
  rewrite T. reflexivity.
Defined.

(** X16.  What [code:update] stores and sends when the snapshot was
    stored.  The snapshot is stored under the language of the payload, or
    under [javascript] when the payload has none; the emission to the room
    carries the language of the payload as it came, absent when it was
    absent, with the code, the session, the author and the clock of the
    server, and is followed by the acknowledgment. *)
Theorem code_update_delivers (sock : Socket) (payload : option CodeIn) (callback : bool)
    (s code : string) (w : World) :
  slots (net w) !! socket_id sock = Some s -> s <> "" ->
  payload ≫= code_in_code = Some code -> code <> "" ->
  (SessionService.addCodeSnapshot s (uid (user sock)) code
     (Js.nullish (payload ≫= code_in_language) "javascript") w).1 = Return tt ->
  let out := Gateway.code_update sock payload callback w in
  session_code_snapshots (tables (store out.2))
  = session_code_snapshots (tables (store w))
    ++ [ {| snapshot_session_id := s; snapshot_author_id := uid (user sock);
            snapshot_language := match payload ≫= code_in_language with
                                 | Some l => l
                                 | None => "javascript"
                                 end;
            snapshot_code := code |} ]
  /\ outbox (net out.2)
     = outbox (net w)
       ++ ToRoom ("session:" +:+ s) "code:update"
            (CodeUpdate {| code_code := code;
                           code_language := payload ≫= code_in_language;
                           code_sessionId := s;
                           code_authorId := uid (user sock);
                           code_updatedAt := clock (host w) |})
          :: approval sock callback
  /\ slots (net out.2) = slots (net w) /\ rooms (net out.2) = rooms (net w).
Proof.
  intros Hslot Hs Hcode Hc Hstored out. subst out.
  destruct (addCodeSnapshot_outcome s (uid (user sock)) code
              (Js.nullish (payload ≫= code_in_language) "javascript") w) as (Hh & Hn & Hcase).
  cbv zeta in Hh, Hn, Hcase.
  destruct Hcase as [[_ Htab]|[[h Hthrow] _]]; [|congruence].
  unfold Gateway.code_update. rewrite Hcode.
  remember (payload ≫= code_in_language) as l eqn:El.
  unfold try_catch, mbind, M_bind.
  rewrite current_session_run, Hslot.
  assert (Gateway.missing (Some s) = false) as -> by (by destruct s).
  assert (Gateway.missing (Some code) = false) as -> by (by destruct code).
  cbn.
  destruct (SessionService.addCodeSnapshot s (uid (user sock)) code _ w) as [c w1].
  cbn in Hstored, Hh, Hn, Htab. subst c. cbn.
  rewrite Date_now_run. cbn. rewrite emit_run, acknowledge_run, send_send. cbn.
  unfold send. cbn. rewrite Hh, Hn, Htab. cbn. subst l. split_and!; try reflexivity.
Qed.

Lemma code_update_delivers_witness :
  let out := Gateway.code_update Example.bob (Some Example.snippet) false Example.calm in
  code_in_language Example.snippet = None
  /\ session_code_snapshots (tables (store out.2))
     = [ {| snapshot_session_id := "s1"; snapshot_author_id := "bob";
            snapshot_language := "javascript"; snapshot_code := "console.log(1)" |} ]
  /\ outbox (net out.2)
     = [ ToRoom "session:s1" "code:update"
           (CodeUpdate {| code_code := "console.log(1)"; code_language := None;
                          code_sessionId := "s1"; code_authorId := "bob";
                          code_updatedAt := 2000 |}) ].
Proof.
  cbv zeta. split; [reflexivity|].
  destruct (code_update_delivers Example.bob (Some Example.snippet) false "s1"
              "console.log(1)" Example.calm)
    as (T & O & _); [reflexivity | discriminate | reflexivity | discriminate | reflexivity |].
  rewrite T, O. split; reflexivity.
Defined.

(** X17.  [chat:message], [code:update] and [code:run] look at the session
    of the socket first and at the content second, and act only when both
    are there.  On a socket that records no session each of them answers
    [Join a session before ...], whatever the payload; with a session but
    without text or code it answers that the content is required.  In both
    cases the store is not asked, nothing is written to disk, no child
    process is started, and the sender alone is answered. *)
Theorem handlers_check_before_acting (sock : Socket) (callback : bool) (w : World) :
  let untouched message (w' : World) :=
    w' = send (refusal sock callback message) w in
  (Gateway.missing (slots (net w) !! socket_id sock) = true ->
     (forall payload,
        untouched "Join a session before sending messages"
          (Gateway.chat_message sock payload callback w).2)
     /\ (forall payload,
           untouched "Join a session before sharing code"
             (Gateway.code_update sock payload callback w).2)
     /\ (forall payload,
           untouched "Join a session before running code"
             (Gateway.code_run sock payload callback w).2))
  /\ (Gateway.missing (slots (net w) !! socket_id sock) = false ->
        (forall payload, Gateway.missing (payload ≫= chat_in_text) = true ->
           untouched "Message text is required"
             (Gateway.chat_message sock payload callback w).2)
        /\ (forall payload, Gateway.missing (payload ≫= code_in_code) = true ->
              untouched "Code content is required"
                (Gateway.code_update sock payload callback w).2)
        /\ (forall payload, Gateway.missing (payload ≫= code_in_code) = true ->
              untouched "Code content is required"
                (Gateway.code_run sock payload callback w).2)).
Proof.
  cbv zeta. split; intros Hslot; split_and!; intros payload.
  - unfold Gateway.chat_message, try_catch, mbind at 1, M_bind at 1.
    rewrite current_session_run, Hslot. cbn. by rewrite report_run.
  - unfold Gateway.code_update, try_catch, mbind at 1, M_bind at 1.
    rewrite current_session_run, Hslot. cbn. by rewrite report_run.
  - unfold Gateway.code_run, try_catch, mbind at 1, M_bind at 1.
    rewrite current_session_run, Hslot. cbn. by rewrite report_run.
  - intros Hp. unfold Gateway.chat_message, try_catch, mbind at 1, M_bind at 1.
    rewrite current_session_run, Hslot, Hp. cbn. by rewrite report_run.
  - intros Hp. unfold Gateway.code_update, try_catch, mbind at 1, M_bind at 1.
    rewrite current_session_run, Hslot, Hp. cbn. by rewrite report_run.
  - intros Hp. unfold Gateway.code_run, try_catch, mbind at 1, M_bind at 1.
    rewrite current_session_run, Hslot, Hp. cbn. by rewrite report_run.
Qed.

Lemma handlers_check_before_acting_witness :
  Gateway.missing (slots (net Example.quiet) !! "k2") = true
  /\ (Gateway.code_run Example.bob (Some Example.snippet) true Example.quiet).2
     = send [ Ack "k2" (AckFailed "Join a session before running code");
              ToSocket "k2" "session:error"
                (SessionError "Join a session before running code") ]
         Example.quiet
  /\ spawned (host (Gateway.code_run Example.bob (Some Example.snippet) true Example.quiet).2)
     = [].
Proof.
  split; [reflexivity|].
  destruct (handlers_check_before_acting Example.bob true Example.quiet) as [T _].
  destruct (T eq_refl) as (_ & _ & R).
  split; [apply R | rewrite R; reflexivity].
Defined.

(** ** The executors, call by call *)

Lemma fs_call_step (h : Host) :
  Node.fs_scripted 0 h = None ->
  exists h0,
    (forall A (op : Host -> Completion A * Host), Node.fs_call op h = op h0)
    /\ clock h0 = clock h /\ tmpdirs h0 = tmpdirs h /\ files h0 = files h
    /\ tmp_suffixes h0 = tmp_suffixes h /\ exec_script h0 = exec_script h
    /\ spawned h0 = spawned h /\ console_error h0 = console_error h
    /\ forall n, Node.fs_scripted n h0 = Node.fs_scripted (S n) h.
Proof.
  unfold Node.fs_scripted, Node.fs_call.
  destruct (fs_script h) as [|[m|] rest] eqn:E; cbn; intros H; try discriminate.
  - exists h. split_and!; try done. rewrite E. intros n. by destruct n.
  - eexists. split; [reflexivity|]. cbn. done.
Qed.

Lemma mkdtemp_step (prefix : string) (w : World) :
  Node.fs_scripted 0 (host w) = None ->
  prefix +:+ default "" (head (tmp_suffixes (host w))) ∉ tmpdirs (host w) ->
  exists w1,
    Node.mkdtemp prefix w
    = (Return (prefix +:+ default "" (head (tmp_suffixes (host w)))), w1)
    /\ Executors.quiet_step w w1
    /\ tmpdirs (host w1)
       = {[ prefix +:+ default "" (head (tmp_suffixes (host w))) ]} ∪ tmpdirs (host w)
    /\ forall n, Node.fs_scripted n (host w1) = Node.fs_scripted (S n) (host w).
Proof.
  intros Hs Hfree. unfold Node.mkdtemp, on_host, Executors.quiet_step.
  destruct (fs_call_step (host w) Hs) as (h0 & Hcall & Hc & Hd & _ & Hsfx & He & Hsp & Hce & Hscr).
  rewrite Hcall. rewrite <- Hsfx, <- Hd in Hfree. rewrite <- Hsfx, <- Hd, <- Hsp, <- Hc, <- He, <- Hce.
  destruct (tmp_suffixes h0) as [|sfx rest]; cbn in *;
    (destruct (decide _) as [Hin|_]; [done|]);
    eexists; (split; [reflexivity|]); cbn; split_and!; done.
Qed.

Lemma writeFile_step (p data : string) (w : World) :
  Node.fs_scripted 0 (host w) = None ->
  Node.dirname p ∈ tmpdirs (host w) ->
  exists w1,
    Node.writeFile p data w = (Return tt, w1)
    /\ Executors.quiet_step w w1
    /\ tmpdirs (host w1) = tmpdirs (host w)
    /\ forall n, Node.fs_scripted n (host w1) = Node.fs_scripted (S n) (host w).
Proof.
  intros Hs Hin. unfold Node.writeFile, on_host, Executors.quiet_step.
  destruct (fs_call_step (host w) Hs) as (h0 & Hcall & Hc & Hd & _ & _ & He & Hsp & Hce & Hscr).
  rewrite Hcall. rewrite <- Hd in Hin. rewrite <- Hd, <- Hsp, <- Hc, <- He, <- Hce.
  destruct (decide _) as [_|Hn]; [|done].
  eexists. split; [reflexivity|]. cbn. done.
Qed.


(** What [execAsync] answers, by what the child does. *)
Lemma execAsync_run (command : string) (w : World) :
  let child := Executors.next_child (host w) in
  let out := Node.execAsync command CodeRunner.TIMEOUT_MS CodeRunner.MAX_BUFFER w in
  let rejected message :=
    out.1 = Throw (NodeError message (Some (child_stdout child)) (Some (child_stderr child))) in
  store out.2 = store w /\ net out.2 = net w
  /\ spawned (host out.2) = spawned (host w) ++ [command]
  /\ exec_script (host out.2) = tail (exec_script (host w))
  /\ tmpdirs (host out.2) = tmpdirs (host w)
  /\ console_error (host out.2) = console_error (host w)
  /\ (forall n, Node.fs_scripted n (host out.2) = Node.fs_scripted n (host w))
  /\ (Executors.ran_well child ->
        out.1 = Return (child_stdout child, child_stderr child)
        /\ clock (host out.2) = (clock (host w) + child_ms child)%N)
  /\ (~ Executors.in_time child ->
        rejected ("Command failed: " +:+ command)
        /\ clock (host out.2) = (clock (host w) + CodeRunner.TIMEOUT_MS)%N)
  /\ (Executors.in_time child -> ~ Executors.in_buffer child ->
        rejected "maxBuffer length exceeded"
        /\ clock (host out.2) = (clock (host w) + child_ms child)%N)
  /\ (Executors.in_time child -> Executors.in_buffer child -> exit_ok child = false ->
        rejected (child_failure child)
        /\ clock (host out.2) = (clock (host w) + child_ms child)%N).
Proof.
  cbv zeta. unfold Node.execAsync, on_host, Executors.next_child, Executors.ran_well,
    Executors.in_time, Executors.in_buffer.
  destruct (exec_script (host w)) as [|a r]; cbn [head default tail].
  all: cbv beta iota zeta.
  all: match goal with |- context [child_ms ?c] => set (child := c) end.
  all: clearbody child.
  all: destruct (N.ltb_spec CodeRunner.TIMEOUT_MS (child_ms child)) as [Ht|Ht];
    [ cbn; split_and!; try done; intros; exfalso; intuition lia |].
  all: destruct (N.ltb_spec CodeRunner.MAX_BUFFER (N.of_nat (String.length (child_stdout child))))
         as [Hb1|Hb1];
    [ cbn; split_and!; try done; intros; exfalso; intuition lia |].
  all: destruct (N.ltb_spec CodeRunner.MAX_BUFFER (N.of_nat (String.length (child_stderr child))))
         as [Hb2|Hb2];
    [ cbn; split_and!; try done; intros; exfalso; intuition lia |].
  all: destruct (exit_ok child) eqn:Hx; cbn; split_and!; try done; intros; exfalso;
    intuition (try lia; try congruence).
Qed.

Lemma after_separator_app (name rest : list ascii) :
  forallb (fun c => negb (Ascii.eqb c "/")) name = true ->
  Node.after_separator (name ++ "/"%char :: rest) = rest.
Proof.
  induction name as [|c name IH]; cbn; [done|].
  intros [Hc Hname]%andb_prop. apply negb_true_iff in Hc. rewrite Hc. by apply IH.
Qed.

(** [path.dirname(path.join(dir, name))] is [dir] for a name without a
    separator. *)
Lemma dirname_path_join (dir name : string) :
  forallb (fun c => negb (Ascii.eqb c "/")) (list_ascii_of_string name) = true ->
  Node.dirname (Node.path_join dir name) = dir.
Proof.
  intros Hname. unfold Node.dirname, Node.path_join.
  rewrite !list_ascii_of_string_app, rev_app_distr. cbn.
  rewrite <- app_assoc. cbn.
  rewrite after_separator_app.
  - by rewrite rev_involutive, string_of_list_ascii_of_string.
  - rewrite forallb_forall in *. intros c Hc. apply Hname. by apply in_rev.
Qed.

Lemma finished_exact (startTime : Timestamp) (streams : string * string) (w : World) :
  CodeRunner.finished startTime streams w
  = (Return {| CodeRunner.output := Js.trim streams.1;
               CodeRunner.error := Executors.or_null (Js.trim streams.2);
               CodeRunner.executionTime := clock (host w) - startTime |}, w).
Proof. unfold CodeRunner.finished, mbind, M_bind. by rewrite Date_now_run. Qed.









(** ** [extractJavaClassName] *)

Lemma strip_prefix_Some (prefix s r : string) :
  CodeRunner.strip_prefix prefix s = Some r <-> s = prefix +:+ r.
Proof.
  revert s. induction prefix as [|a p IH]; intros s; cbn.
  - split; [by intros [= ->] | by intros ->].
  - destruct s as [|b s]; [split; discriminate|].
    destruct (Ascii.eqb_spec a b) as [->|Hne].
    + rewrite IH. split; [by intros -> | by intros [= ->]].
    + split; [discriminate | intros [= ? _]; congruence].
Qed.

Lemma append_String (c : ascii) (a b : string) : String c a +:+ b = String c (a +:+ b).
Proof. reflexivity. Qed.

Lemma append_empty (a : string) : "" +:+ a = a.
Proof. reflexivity. Qed.

Lemma trimStart_split (s : string) :
  exists gap, s = gap +:+ Js.trimStart s /\ Text.white gap.
Proof.
  induction s as [|c s (gap & IH & Hgap)]; cbn.
  - by exists "".
  - destruct (Js.is_space c) eqn:Hc.
    + exists (String c gap). split; [rewrite append_String; by f_equal|].
      unfold Text.white in *. cbn. by rewrite Hc.
    + by exists "".
Qed.

Lemma spaces_Some (s r : string) :
  CodeRunner.spaces s = Some r -> exists gap, s = gap +:+ r /\ gap <> "" /\ Text.white gap.
Proof.
  unfold CodeRunner.spaces. destruct s as [|c s]; [discriminate|].
  destruct (Js.is_space c) eqn:Hc; [|discriminate]. intros [= <-].
  destruct (trimStart_split (String c s)) as (gap & Hs & Hgap).
  exists gap. split_and!; [done| |done].
  intros ->. rewrite append_empty in Hs. cbn in Hs. rewrite Hc in Hs.
  assert (String.length (Js.trimStart s) <= String.length s)%nat as Hlen.
  { clear. induction s as [|c s IH]; cbn; [lia|].
    destruct (Js.is_space c); cbn; lia. }
  rewrite <- Hs in Hlen. cbn in Hlen. lia.
Qed.



Lemma take_word_split (s : string) :
  exists rest, s = CodeRunner.take_word s +:+ rest /\ Text.word (CodeRunner.take_word s)
               /\ Text.word_ends rest.
Proof.
  induction s as [|c s (rest & IH & Hword & Hend)]; cbn.
  - by exists "".
  - destruct (CodeRunner.is_word c) eqn:Hc.
    + exists rest. split_and!; [rewrite append_String; by f_equal | | done].
      unfold Text.word in *. cbn. by rewrite Hc.
    + exists (String c s). split_and!; done.
Qed.



Lemma class_declared_here_Some (code name : string) :
  CodeRunner.class_declared_here code = Some name ->
  name <> "" /\ Text.word name
  /\ exists gap1 gap2 rest,
       code = "public" +:+ gap1 +:+ "class" +:+ gap2 +:+ name +:+ rest
       /\ gap1 <> "" /\ Text.white gap1 /\ gap2 <> "" /\ Text.white gap2
       /\ Text.word_ends rest.
Proof.
  unfold CodeRunner.class_declared_here.
  destruct (CodeRunner.strip_prefix "public" code) as [r1|] eqn:E1; [|discriminate].
  apply strip_prefix_Some in E1 as ->. cbn [mbind option_bind].
  destruct (CodeRunner.spaces r1) as [r2|] eqn:E2; [|discriminate].
  apply spaces_Some in E2 as (gap1 & -> & Hne1 & Hw1). cbn [mbind option_bind].
  destruct (CodeRunner.strip_prefix "class" r2) as [r3|] eqn:E3; [|discriminate].
  apply strip_prefix_Some in E3 as ->. cbn [mbind option_bind].
  destruct (CodeRunner.spaces r3) as [r4|] eqn:E4; [|discriminate].
  apply spaces_Some in E4 as (gap2 & -> & Hne2 & Hw2). cbn [mbind option_bind].
  destruct (take_word_split r4) as (rest & Hr4 & Hword & Hend).
  destruct (Js.truthy (CodeRunner.take_word r4)) eqn:T; [|discriminate].
  intros [= <-]. split_and!; [by destruct (CodeRunner.take_word r4) | done |].
  exists gap1, gap2, rest. rewrite <- Hr4. done.
Qed.


Lemma extractJavaClassName_Some (code name : string) :
  CodeRunner.extractJavaClassName code = Some name ->
  name <> "" /\ Text.word name
  /\ exists before gap1 gap2 rest,
       code = before +:+ "public" +:+ gap1 +:+ "class" +:+ gap2 +:+ name +:+ rest
       /\ gap1 <> "" /\ Text.white gap1 /\ gap2 <> "" /\ Text.white gap2
       /\ Text.word_ends rest.
Proof.
  revert name. induction code as [|c code IH]; intros name; cbn [CodeRunner.extractJavaClassName].
  - destruct (CodeRunner.class_declared_here "") eqn:E; [|discriminate].
    intros [= <-]. destruct (class_declared_here_Some _ _ E) as (? & ? & g1 & g2 & r & Hc & ?).
    split; [done|]. split; [done|]. by exists "", g1, g2, r.
  - destruct (CodeRunner.class_declared_here (String c code)) eqn:E.
    + intros [= <-].
      destruct (class_declared_here_Some _ _ E) as (? & ? & g1 & g2 & r & Hc & ?).
      split; [done|]. split; [done|]. by exists "", g1, g2, r.
    + intros H. destruct (IH _ H) as (? & ? & b & g1 & g2 & r & -> & ?).
      split; [done|]. split; [done|]. by exists (String c b), g1, g2, r.
Qed.


(** ** [executeJava] *)

Lemma word_has_no_separator (s : string) :
  Text.word s -> forallb (fun c => negb (Ascii.eqb c "/")) (list_ascii_of_string s) = true.
Proof.
  unfold Text.word. rewrite !forallb_forall. intros H c Hc. specialize (H c Hc).
  destruct (Ascii.eqb_spec c "/") as [->|]; [discriminate H | done].
Qed.

(** [extractJavaClassName(code) || 'Main']. *)
Lemma className_word (code : string) :
  match CodeRunner.extractJavaClassName code with
  | Some name => Js.or_else name "Main"
  | None => "Main"
  end = default "Main" (CodeRunner.extractJavaClassName code)
  /\ Text.word (default "Main" (CodeRunner.extractJavaClassName code)).
Proof.
  destruct (CodeRunner.extractJavaClassName code) as [name|] eqn:E; cbn; [|done].
  destruct (extractJavaClassName_Some _ _ E) as (Hne & Hword & _).
  split; [by destruct name | done].
Qed.



(** X22.  The cleanup of [executeJava] is not guarded.  When the removal
    of the directory is refused, [executeJava] throws the refusal, whatever
    the compiler and the program did: the result of the run is lost and the
    directory stays.  [executeCode] then reports the message of the refusal
    as the error of the run, with an empty output. *)
Theorem executeJava_loses_the_result_when_cleanup_fails (code message : string) (w : World) :
  Executors.disk_served 2 (host w) ->
  Node.fs_scripted 2 (host w) = Some message ->
  Executors.drawn "java-exec-" (host w) ∉ tmpdirs (host w) ->
  (CodeRunner.executeJava code w).1 = Throw (NodeError message None None)
  /\ Executors.drawn "java-exec-" (host w) ∈ tmpdirs (host (CodeRunner.executeJava code w).2)
  /\ exists executionTime,
       (CodeRunner.executeCode code "java" w).1
       = Return {| CodeRunner.output := "";
                   CodeRunner.error := Some (Js.or_else message "Execution failed");
                   CodeRunner.executionTime := executionTime |}.
Proof.
  intros Hfs Hrm Hfree.
  assert (Hjava : (CodeRunner.executeJava code w).1 = Throw (NodeError message None None)
                  /\ Executors.drawn "java-exec-" (host w)
                       ∈ tmpdirs (host (CodeRunner.executeJava code w).2)).
  { unfold CodeRunner.executeJava, mbind, M_bind.
    rewrite Date_now_run.
    destruct (mkdtemp_step (Node.path_join Node.tmpdir "java-exec-") w
                (Hfs 0%nat ltac:(lia)) Hfree) as (w1 & -> & Hq1 & Hd1 & Hscr1).
    fold (Executors.drawn "java-exec-" (host w)).
    set (dir := Executors.drawn "java-exec-" (host w)) in *.
    destruct (className_word code) as [-> Hword].
    set (className := default "Main" (CodeRunner.extractJavaClassName code)) in *.
    assert (Hdir : Node.dirname (Node.path_join dir (className +:+ ".java")) = dir).
    { apply dirname_path_join. rewrite list_ascii_of_string_app, forallb_app.
      by rewrite (word_has_no_separator _ Hword). }
    destruct (writeFile_step (Node.path_join dir (className +:+ ".java")) code w1)
      as (w2 & -> & Hq2 & Hd2 & Hscr2).
    { rewrite Hscr1. apply Hfs. lia. }
    { rewrite Hdir, Hd1. apply elem_of_union. left. by apply elem_of_singleton. }
    unfold mret, M_ret, try_finally. cbv beta iota.
    set (body := try_catch _ _).
    assert (Hbody : tmpdirs (host (body w2).2) = tmpdirs (host w2)
                    /\ Node.fs_scripted 0 (host (body w2).2) = Some message).
    { subst body. unfold try_catch, mbind, M_bind.
      destruct (execAsync_run
                  ("javac " +:+ CodeRunner.quoted (Node.path_join dir (className +:+ ".java"))) w2)
        as (_ & _ & _ & _ & Hd3 & _ & Hscr3 & _).
      destruct (Node.execAsync _ _ _ w2) as [[streams|err] w3]; cbn in Hd3, Hscr3.
      - destruct (execAsync_run
                    ("java -cp " +:+ CodeRunner.quoted dir +:+ " " +:+ className) w3)
          as (_ & _ & _ & _ & Hd4 & _ & Hscr4 & _).
        destruct (Node.execAsync _ _ _ w3) as [[streams'|err'] w4]; cbn in Hd4, Hscr4.
        + rewrite finished_exact. cbn. by rewrite Hd4, Hd3, Hscr4, Hscr3, Hscr2, Hscr1.
        + destruct (failed_run (clock (host w)) err' w4) as [r ->]. cbn.
          by rewrite Hd4, Hd3, Hscr4, Hscr3, Hscr2, Hscr1.
      - destruct (failed_run (clock (host w)) err w3) as [r ->]. cbn.
        by rewrite Hd3, Hscr3, Hscr2, Hscr1. }
    destruct (body w2) as [r w5]. cbn in Hbody. destruct Hbody as [Hd5 Hscr5].
    unfold Node.rm, on_host, Node.fs_call.
    unfold Node.fs_scripted in Hscr5.
    destruct (fs_script (host w5)) as [|[m|] rest]; cbn in Hscr5; try discriminate.
    injection Hscr5 as ->. cbn.
    split; [done|]. rewrite Hd5, Hd2, Hd1. apply elem_of_union. left.
    by apply elem_of_singleton. }
  destruct Hjava as [Hthrow Hdir]. split; [exact Hthrow|]. split; [exact Hdir|].
  unfold CodeRunner.executeCode, mbind, M_bind.
  rewrite Date_now_run. cbv beta iota zeta.
  rewrite try_finally_nothing. unfold try_catch.
  change (Js.toLowerCase "java") with "java".
  repeat (destruct (decide _) as [?|?]; try discriminate; try done).
  destruct (CodeRunner.executeJava code w) as [c w1]. cbn in Hthrow. subst c.
  rewrite Date_now_run. cbn. eauto.
Qed.

Lemma executeJava_loses_the_result_when_cleanup_fails_witness :
  Executors.disk_served 2 (host JavaRun.sticky)
  /\ Executors.ran_well JavaRun.compiled /\ Executors.ran_well JavaRun.greeted
  /\ (CodeRunner.executeJava JavaRun.hello JavaRun.sticky).1
     = Throw (NodeError "EBUSY: resource busy or locked, rmdir" None None)
  /\ "/tmp/java-exec-a1b2c3" ∈ tmpdirs (host (CodeRunner.executeJava JavaRun.hello JavaRun.sticky).2)
  /\ exists executionTime,
       (CodeRunner.executeCode JavaRun.hello "java" JavaRun.sticky).1
       = Return {| CodeRunner.output := "";
                   CodeRunner.error := Some "EBUSY: resource busy or locked, rmdir";
                   CodeRunner.executionTime := executionTime |}.
Proof.
  assert (Hfs : Executors.disk_served 2 (host JavaRun.sticky))
    by (intros [|[|i]] Hi; [reflexivity | reflexivity | lia]).
  split; [exact Hfs|].
  split; [repeat split; vm_compute; congruence|].
  split; [repeat split; vm_compute; congruence|].
  destruct (executeJava_loses_the_result_when_cleanup_fails JavaRun.hello
              "EBUSY: resource busy or locked, rmdir" JavaRun.sticky Hfs eq_refl)
    as (T & D & R).
  { vm_compute. discriminate. }
  split; [exact T|]. split; [exact D | exact R].
Defined.

(** ** Authentication *)





Lemma isUserRole_true (value : option string) :
  Auth.isUserRole value = true <-> value = Some "mentor" \/ value = Some "student".
Proof. unfold Auth.isUserRole. apply bool_decide_eq_true. Qed.



(** X24.  How the HTTP middleware resolves the role.  The role is always
    absent, [mentor] or [student].  The role in the metadata the user can
    write wins over the one in the metadata of the application; when the
    first of the two that is present is [mentor] or [student] it is the
    role, and [profiles] is not asked.  In every other case the answer of
    [profiles] decides, also when the user metadata names something else and
    the application metadata names a role: a role of [profiles] that is
    [mentor] or [student] is the role, any other gives a user without a
    role, and an error of the query gives 500 with the message as hint. *)
Theorem resolveRole_outcomes (d : Auth.Directory) (user : Auth.Account) :
  let answer := Auth.resolveRole d user in
  let named :=
    match Auth.user_metadata_role user with
    | Some r => Some r
    | None => Auth.app_metadata_role user
    end in
  (forall r, answer = Auth.Got r -> r = None \/ r = Some "mentor" \/ r = Some "student")
  /\ (named = Some "mentor" \/ named = Some "student" -> answer = Auth.Got named)
  /\ (named <> Some "mentor" -> named <> Some "student" ->
        match Auth.profile_of d (uid (Auth.account_user user)) with
        | Auth.ProfileRole (Some "mentor") => answer = Auth.Got (Some "mentor")
        | Auth.ProfileRole (Some "student") => answer = Auth.Got (Some "student")
        | Auth.ProfileRole _ => answer = Auth.Got None
        | Auth.ProfileError message =>
            answer = Auth.Thrown {| Auth.rejection_status := 500;
                                    Auth.rejection_message := "Unable to resolve profile role";
                                    Auth.rejection_details := Some ("hint", message) |}
        | Auth.ProfileDown message => answer = Auth.Crashed message
        end).
Proof.
  cbv zeta. unfold Auth.resolveRole. fold (Auth.fromMetadata user).
  destruct (Auth.isUserRole (Auth.fromMetadata user)) eqn:M.
  - apply isUserRole_true in M. split_and!; [intros r [= <-]; tauto | done | tauto].
  - assert (Hnot : ~ (Auth.fromMetadata user = Some "mentor"
                      \/ Auth.fromMetadata user = Some "student")).
    { intros H. apply isUserRole_true in H. congruence. }
    split_and!; [| tauto |].
    + destruct (Auth.profile_of d _) as [r| |]; try discriminate.
      destruct (Auth.isUserRole r) eqn:R; intros r' [= <-]; [|tauto].
      apply isUserRole_true in R. tauto.
    + intros _ _. destruct (Auth.profile_of d _) as [r|message|message]; try done.
      destruct (Auth.isUserRole r) eqn:R.
      * apply isUserRole_true in R as [->| ->]; reflexivity.
      * assert (r <> Some "mentor" /\ r <> Some "student") as [H1 H2].
        { split; intros ->; discriminate R. }
        repeat case_match; congruence.
Qed.


(** ** The routes *)

Lemma respond_returns {A} (service : M A) (status : N) (body : A -> Routes.Body) (w : World) :
  exists h, (Routes.respond service status body w).1 = Return h.
Proof.
  unfold Routes.respond, try_catch, mbind, M_bind.
  destruct (service w) as [[a|e] w1]; cbn; eauto.
Qed.

(** X26.  Every route checks in the same order: the user, then the role
    where the route is for mentors, then the body, and only then calls the
    service.  A request without a user is forwarded as 401; on the four
    routes for mentors (create, update, kick, permissions) a user whose role
    is not [mentor] is forwarded as 403 whatever the body, valid or not, and
    whether or not the user created the session; a body the schema refuses
    is forwarded with the error of the schema.  In these three cases the
    store is not asked and nothing changes.  A route never throws: what a
    service throws is forwarded. *)
Theorem routes_check_before_calling (user : option Auth.AuthedUser) (c : Routes.Call)
    (w : World) :
  let out := Routes.handle user c w in
  let forwarded status message :=
    out = (Return (Routes.Forwarded (Routes.Raised (http status message None))), w) in
  (exists h, out.1 = Return h)
  /\ (Routes.user_id user = None -> forwarded 401 "Not authenticated")
  /\ (forall message,
        Routes.user_id user <> None -> Routes.mentors_only c = Some message ->
        user ≫= Auth.authed_role <> Some "mentor" ->
        forwarded 403 message)
  /\ (forall issues,
        Routes.user_id user <> None ->
        Routes.mentors_only c = None \/ user ≫= Auth.authed_role = Some "mentor" ->
        Routes.refused_body c = Some issues ->
        out = (Return (Routes.Forwarded (Routes.ZodError issues)), w)).
Proof.
  cbv zeta. unfold Routes.handle.
  destruct (Routes.user_id user) as [userId|] eqn:U.
  2: { split_and!; try done. by eexists. }
  unfold Routes.not_mentor.
  destruct c as [instant|body|body|sessionId|sessionId body|sessionId body|sessionId body
                |sessionId body|sessionId body]; cbn [Routes.mentors_only Routes.refused_body].
  all: try case_bool_decide.
  all: try (destruct body as [payload|issues]); cbn [Routes.parsed].
  all: split_and!; try done; try apply respond_returns; try (by eexists).
  all: try (by intros ? _ [= <-] _).
  all: try (by intros ? _ _ [= <-]).
  all: try (by intros ? _ [|] [= <-]).
  all: try (by intros ? _ [[=]|?]).
Qed.

Lemma routes_check_before_calling_witness :
  let kick := Routes.PostKick "s1" (Routes.Valid "bob") in
  let student := {| Auth.authed_account := Auth.alice; Auth.authed_role := Some "student" |} in
  created_by Example.pairing = "alice"
  /\ Routes.user_id (Some student) <> None
  /\ Routes.handle (Some student) kick Example.calm
     = (Return (Routes.Forwarded
                  (Routes.Raised (http 403 "Only mentors can manage roster" None))),
        Example.calm).
Proof.
  cbv zeta. split; [reflexivity|]. split; [discriminate|].
  destruct (routes_check_before_calling
              (Some {| Auth.authed_account := Auth.alice; Auth.authed_role := Some "student" |})
              (Routes.PostKick "s1" (Routes.Valid "bob")) Example.calm)
    as (_ & _ & T & _).
  apply T; [discriminate | reflexivity | discriminate].
Defined.

(** ** The CORS policy *)

Lemma port_then_end_spec (s : string) :
  Cors.port_then_end s = true
  <-> s = "" \/ exists number, s = ":" +:+ number /\ number <> ""
                              /\ forallb Cors.is_digit (list_ascii_of_string number) = true.
Proof.
  destruct s as [|c r]; cbn.
  - split; [by left | done].
  - rewrite !andb_true_iff. split.
    + intros [[Hc Hr] Hd]. apply Ascii.eqb_eq in Hc as ->. right. exists r.
      split_and!; [done | by destruct r | done].
    + intros [[=]|(number & Hs & Hne & Hd)]. rewrite append_String in Hs.
      injection Hs as -> ->. split_and!; [done | by destruct number | done].
Qed.

Lemma host_then_end_spec (s : string) :
  Cors.host_then_end s = true
  <-> exists host port,
        s = host +:+ port /\ (host = "localhost" \/ host = "127.0.0.1")
        /\ Cors.port_then_end port = true.
Proof.
  unfold Cors.host_then_end. split.
  - destruct (CodeRunner.strip_prefix "localhost" s) as [r|] eqn:E1.
    { apply strip_prefix_Some in E1 as ->. intros H. exists "localhost", r. eauto. }
    destruct (CodeRunner.strip_prefix "127.0.0.1" s) as [r|] eqn:E2; [|done].
    apply strip_prefix_Some in E2 as ->. intros H. exists "127.0.0.1", r. eauto.
  - intros (host & port & -> & [-> | ->] & Hport).
    + assert (CodeRunner.strip_prefix "localhost" ("localhost" +:+ port) = Some port) as ->
        by (by apply strip_prefix_Some).
      done.
    + assert (CodeRunner.strip_prefix "localhost" ("127.0.0.1" +:+ port) = None) as ->
        by reflexivity.
      assert (CodeRunner.strip_prefix "127.0.0.1" ("127.0.0.1" +:+ port) = Some port) as ->
        by (by apply strip_prefix_Some).
      done.
Qed.

Lemma is_loopback_spec (o : string) : Cors.is_loopback o = true <-> Cors.loopback o.
Proof.
  unfold Cors.is_loopback, Cors.loopback. split.
  - destruct (CodeRunner.strip_prefix "http" o) as [r|] eqn:E1; [|done].
    apply strip_prefix_Some in E1 as ->. cbv zeta.
    destruct (CodeRunner.strip_prefix "s" r) as [r'|] eqn:E2.
    + apply strip_prefix_Some in E2 as ->.
      destruct (CodeRunner.strip_prefix "://" r') as [h|] eqn:E3; [|done].
      apply strip_prefix_Some in E3 as ->.
      intros (host & port & -> & Hhost & Hport)%host_then_end_spec.
      apply port_then_end_spec in Hport.
      exists "https", host, port. split_and!; [done | by right | done | done].
    + destruct (CodeRunner.strip_prefix "://" r) as [h|] eqn:E3; [|done].
      apply strip_prefix_Some in E3 as ->.
      intros (host & port & -> & Hhost & Hport)%host_then_end_spec.
      apply port_then_end_spec in Hport.
      exists "http", host, port. split_and!; [done | by left | done | done].
  - intros (scheme & host & port & -> & Hscheme & Hhost & Hport).
    apply port_then_end_spec in Hport.
    assert (Cors.host_then_end (host +:+ port) = true) as Hh
      by (apply host_then_end_spec; eauto).
    destruct Hscheme as [-> | ->].
    + assert (CodeRunner.strip_prefix "http" ("http" +:+ "://" +:+ host +:+ port)
              = Some ("://" +:+ host +:+ port)) as -> by (by apply strip_prefix_Some).
      cbv zeta.
      assert (CodeRunner.strip_prefix "s" ("://" +:+ host +:+ port) = None) as ->
        by reflexivity.
      assert (CodeRunner.strip_prefix "://" ("://" +:+ host +:+ port) = Some (host +:+ port))
        as -> by (by apply strip_prefix_Some).
      done.
    + assert (CodeRunner.strip_prefix "http" ("https" +:+ "://" +:+ host +:+ port)
              = Some ("s" +:+ "://" +:+ host +:+ port)) as -> by reflexivity.
      cbv zeta.
      assert (CodeRunner.strip_prefix "s" ("s" +:+ "://" +:+ host +:+ port)
              = Some ("://" +:+ host +:+ port)) as -> by reflexivity.
      assert (CodeRunner.strip_prefix "://" ("://" +:+ host +:+ port) = Some (host +:+ port))
        as -> by (by apply strip_prefix_Some).
      done.
Qed.

(** X27.  The CORS policy.  A request without an origin is allowed.  An
    origin is otherwise allowed exactly when it is one of the configured
    origins or, outside production, an origin on the machine itself:
    [http] or [https], [localhost] or [127.0.0.1], with a port of digits or
    without one, and nothing after it.  In production the configured
    origins are the only ones allowed.  A blocked origin is named in the
    error. *)
Theorem cors_origin_policy (allowedOrigins : list string) (isDev : bool) :
  Cors.origin allowedOrigins isDev None = Cors.Allowed
  /\ Cors.origin allowedOrigins isDev (Some "") = Cors.Allowed
  /\ forall o, o <> "" ->
       (Cors.origin allowedOrigins isDev (Some o) = Cors.Allowed
        <-> o ∈ allowedOrigins \/ (isDev = true /\ Cors.loopback o))
       /\ (Cors.origin allowedOrigins isDev (Some o) <> Cors.Allowed ->
             Cors.origin allowedOrigins isDev (Some o)
             = Cors.Blocked ("Origin " +:+ o +:+ " not allowed by CORS")).
Proof.
  split; [done|]. split; [done|]. intros o Hne.
  unfold Cors.origin.
  assert (Gateway.missing (Some o) = false) as -> by (by destruct o).
  cbn [Js.nullish]. cbv zeta.
  destruct (decide (o ∈ allowedOrigins)) as [Hin|Hout]; [split; [tauto | done]|].
  destruct isDev; cbn [andb].
  - destruct (Cors.is_loopback o) eqn:L.
    + apply is_loopback_spec in L. split; [tauto | done].
    + split; [|done]. split; [done|]. intros [?|[_ H]]; [done|].
      apply is_loopback_spec in H. congruence.
  - split; [|done]. split; [done|]. intros [?|[? _]]; done.
Qed.

(** ** The dispatch of [executeCode] *)

(** X28.  [executeCode] picks the executor by the language in lower case:
    [javascript], [typescript], [python], [java], [go], and [csharp] or [c#]
    for the same one.  When the executor returns, [executeCode] returns what
    it returned and leaves the world it left.  When the executor throws,
    [executeCode] still returns: an empty output, the message of what was
    thrown as the error ([Execution failed] when the message is empty), and
    the time that passed. *)
Theorem executeCode_dispatches (label : string)
    (execute : string -> M CodeRunner.ExecutionResult) (code language : string) (w : World) :
  (label, execute) ∈ Executors.dispatch ->
  Js.toLowerCase language = label ->
  let ran := execute code w in
  let out := CodeRunner.executeCode code language w in
  match ran.1 with
  | Return r => out = (Return r, ran.2)
  | Throw e =>
      out = (Return {| CodeRunner.output := "";
                       CodeRunner.error := Some (Js.or_else (exn_message e) "Execution failed");
                       CodeRunner.executionTime := clock (host ran.2) - clock (host w) |},
             ran.2)
  end.
Proof.
  intros Hin Hlabel. cbv zeta.
  unfold CodeRunner.executeCode, mbind, M_bind.
  rewrite Date_now_run. cbv beta iota zeta.
  rewrite try_finally_nothing. unfold try_catch. rewrite Hlabel.
  unfold Executors.dispatch in Hin.
  repeat (apply elem_of_cons in Hin as [Hin|Hin]); try (by apply elem_of_nil in Hin);
    injection Hin as -> ->;
    repeat (destruct (decide _) as [?|?]; try discriminate; try tauto);
    try (match goal with H : _ = _ \/ _ = _ |- _ => by destruct H end);
    match goal with
    | |- match (?x).1 with _ => _ end => destruct x as [[?|?] ?]
    end; cbn; try done; by rewrite Date_now_run.
Qed.

Lemma executeCode_dispatches_witness :
  ("c#", CodeRunner.executeCSharp) ∈ Executors.dispatch
  /\ Js.toLowerCase "C#" = "c#"
  /\ CodeRunner.executeCode "1 + 1" "C#" Example.calm
     = CodeRunner.executeCSharp "1 + 1" Example.calm
  /\ (CodeRunner.executeCode "1 + 1" "java" Example.disk_full).1
     = Return {| CodeRunner.output := "";
                 CodeRunner.error := Some "ENOSPC: no space left on device, write";
                 CodeRunner.executionTime := 0 |}.
Proof.
  assert (H1 : ("c#", CodeRunner.executeCSharp) ∈ Executors.dispatch)
    by (do 5 apply list_elem_of_further; apply list_elem_of_here).
  assert (H2 : ("java", CodeRunner.executeJava) ∈ Executors.dispatch)
    by (do 3 apply list_elem_of_further; apply list_elem_of_here).
  split; [exact H1|]. split; [reflexivity|]. split.
  - pose proof (executeCode_dispatches "c#" CodeRunner.executeCSharp "1 + 1" "C#" Example.calm
                  H1 eq_refl) as T.
    cbv zeta in T. exact T.
  - pose proof (executeCode_dispatches "java" CodeRunner.executeJava "1 + 1" "java"
                  Example.disk_full H2 eq_refl) as T.
    cbv zeta in T. rewrite T. reflexivity.
Defined.
